(** * Confluence MCP server: query synthesis, federated search, hybrid
      title lookup and inline-comment listing.

    A shallow embedding of the TypeScript sources
    - [utils/cql.util.ts]                              ([escapeCqlValue]),
    - [controllers/atlassian.search.controller.ts]    ([buildCqlQuery], [search]),
    - [controllers/atlassian.universal-search.controller.ts]
                                                       ([normalizeOptions],
                                                        [buildTypeSpecificCql],
                                                        [executeSearchForType], [search]),
    - [services/vendor.atlassian.pages.service.ts]    ([tryPartialTitleSearch], [list]),
    - [controllers/atlassian.comments.controller.ts]  ([listInlineComments]),
    with the properties of the design document stated over it. *)

From Stdlib Require Import ZArith NArith Ascii String DecimalString Lia.
From stdpp Require Import base option list gmap sorting.

Local Open Scope N_scope.

(** ** JavaScript strings

    A JavaScript string is a finite sequence of UTF-16 code units.  A code
    unit is kept as an [N]; a well-formed string only holds values below
    [2^16], which [validString] says. *)
Module Js.

Definition jsstring : Type := list N.

Definition validString (s : jsstring) : Prop := Forall (fun c => c < 65536) s.

(** An ASCII literal of the source, as code units. *)
Definition lit (s : string) : jsstring :=
  map N_of_ascii (list_ascii_of_string s).

(** The double quote, as a one-character string. *)
Definition dq : jsstring := [34].

(** Truthiness of a string: only [''] is falsy. *)
Definition truthyStr (s : jsstring) : bool :=
  match s with
  | [] => false
  | _ :: _ => true
  end.

(** Truthiness of a possibly absent string: [undefined] and [''] are falsy. *)
Definition truthy (o : option jsstring) : bool :=
  match o with
  | Some s => truthyStr s
  | None => false
  end.

(** [if (o) { thn o } else { els }] on a possibly absent string. *)
Definition ifTruthy {A} (o : option jsstring) (thn : jsstring -> A) (els : A) : A :=
  match o with
  | Some (c :: s) => thn (c :: s)
  | _ => els
  end.

(** [a || b] on strings. *)
Definition orElse (o : option jsstring) (d : jsstring) : jsstring :=
  ifTruthy o (fun s => s) d.

(** WhiteSpace and LineTerminator code units, the ones [trim] strips. *)
Definition isWhiteSpace (c : N) : bool :=
  ((9 <=? c) && (c <=? 13)) || (c =? 32) || (c =? 160) || (c =? 5760)
  || ((8192 <=? c) && (c <=? 8202)) || (c =? 8232) || (c =? 8233)
  || (c =? 8239) || (c =? 8287) || (c =? 12288) || (c =? 65279).

Fixpoint trimStart (s : jsstring) : jsstring :=
  match s with
  | [] => []
  | c :: t => if isWhiteSpace c then trimStart t else s
  end.

Definition trimEnd (s : jsstring) : jsstring := rev (trimStart (rev s)).

(** [String.prototype.trim]. *)
Definition trim (s : jsstring) : jsstring := trimEnd (trimStart s).

(** [slice(start, end)] of strings and arrays: negative indices count from
    the end, everything is clamped to [0, length]. *)
Definition relIndex (len k : Z) : Z :=
  if (k <? 0)%Z then Z.max (len + k) 0 else Z.min k len.

Definition slice {A} (l : list A) (start stop : Z) : list A :=
  let len := Z.of_nat (length l) in
  let from := relIndex len start in
  let to := relIndex len stop in
  if (from <? to)%Z
  then take (Z.to_nat (to - from)) (drop (Z.to_nat from) l)
  else [].

(** [Array.prototype.join]. *)
Fixpoint join (sep : jsstring) (parts : list jsstring) : jsstring :=
  match parts with
  | [] => []
  | [p] => p
  | p :: rest => p ++ sep ++ join sep rest
  end.

(** *** Code points of a string (ECMA-262 [CodePointAt], [StringToCodePoints]) *)

Definition isLeadingSurrogate (c : N) : bool := (55296 <=? c) && (c <=? 56319).
Definition isTrailingSurrogate (c : N) : bool := (56320 <=? c) && (c <=? 57343).

Definition UTF16SurrogatePairToCodePoint (lead trail : N) : N :=
  (lead - 55296) * 1024 + (trail - 56320) + 65536.

Definition UTF16EncodeCodePoint (cp : N) : jsstring :=
  if cp <=? 65535 then [cp]
  else [(cp - 65536) / 1024 + 55296; (cp - 65536) mod 1024 + 56320].

Fixpoint StringToCodePoints (s : jsstring) : list N :=
  match s with
  | [] => []
  | first :: rest =>
      if isLeadingSurrogate first then
        match rest with
        | second :: rest' =>
            if isTrailingSurrogate second
            then UTF16SurrogatePairToCodePoint first second :: StringToCodePoints rest'
            else first :: StringToCodePoints rest
        | [] => [first]
        end
      else first :: StringToCodePoints rest
  end.

(** [String.prototype.isWellFormed]: no unpaired surrogate. *)
Fixpoint isWellFormed (s : jsstring) : bool :=
  match s with
  | [] => true
  | first :: rest =>
      if isLeadingSurrogate first then
        match rest with
        | second :: rest' => isTrailingSurrogate second && isWellFormed rest'
        | [] => false
        end
      else negb (isTrailingSurrogate first) && isWellFormed rest
  end.

(** No control character, that is no code unit below U+0020. *)
Definition noControl (s : jsstring) : Prop := Forall (fun c => 32 <= c) s.

(** *** [JSON.stringify] of a string (ECMA-262 [QuoteJSONString]) *)

Definition hexDigit (d : N) : N := if d <? 10 then 48 + d else 87 + d.

(** [UnicodeEscape]: a backslash, [u], and four lowercase hex digits. *)
Definition UnicodeEscape (c : N) : jsstring :=
  [92; 117; hexDigit (c / 16 / 16 / 16 mod 16); hexDigit (c / 16 / 16 mod 16);
   hexDigit (c / 16 mod 16); hexDigit (c mod 16)].

(** The table of single-character escapes. *)
Definition singleCharEscape (c : N) : option N :=
  if c =? 8 then Some 98          (* backspace: b *)
  else if c =? 9 then Some 116    (* tab: t *)
  else if c =? 10 then Some 110   (* line feed: n *)
  else if c =? 12 then Some 102   (* form feed: f *)
  else if c =? 13 then Some 114   (* carriage return: r *)
  else if c =? 34 then Some 34    (* the double quote itself *)
  else if c =? 92 then Some 92    (* the backslash itself *)
  else None.

Definition quoteCodePoint (c : N) : jsstring :=
  match singleCharEscape c with
  | Some e => [92; e]
  | None =>
      if (c <? 32) || isLeadingSurrogate c || isTrailingSurrogate c
      then UnicodeEscape c
      else UTF16EncodeCodePoint c
  end.

Definition QuoteJSONString (value : jsstring) : jsstring :=
  [34] ++ flat_map quoteCodePoint (StringToCodePoints value) ++ [34].

Definition JSON_stringify (value : jsstring) : jsstring := QuoteJSONString value.

(** *** Reading a quoted literal back

    The design document speaks of the unescaped (parsed) value of a quoted
    literal.  [escapeCqlValue] borrows the JSON escaping rules, so the
    reader is the one of JSON string literals (ECMA-404): after the
    opening quote, a backslash followed by a double quote, a backslash, a
    slash, or one of b, f, n, r, t is a single-character escape, a
    backslash followed by u and four hex digits is a code unit, an
    unescaped quote closes the literal, raw control characters are
    refused. *)

Definition hexValue (c : N) : option N :=
  if (48 <=? c) && (c <=? 57) then Some (c - 48)
  else if (97 <=? c) && (c <=? 102) then Some (c - 87)
  else if (65 <=? c) && (c <=? 70) then Some (c - 55)
  else None.

Definition hex4Value (a b c d : N) : option N :=
  match hexValue a, hexValue b, hexValue c, hexValue d with
  | Some x, Some y, Some z, Some w => Some (x * 4096 + y * 256 + z * 16 + w)
  | _, _, _, _ => None
  end.

Definition unescapeSingle (e : N) : option N :=
  if e =? 34 then Some 34
  else if e =? 92 then Some 92
  else if e =? 47 then Some 47
  else if e =? 98 then Some 8
  else if e =? 102 then Some 12
  else if e =? 110 then Some 10
  else if e =? 114 then Some 13
  else if e =? 116 then Some 9
  else None.

(** The characters after the opening quote, up to and including the
    closing one; nothing may follow it. *)
Fixpoint readLiteralBody (s : jsstring) : option jsstring :=
  match s with
  | [] => None
  | c :: t =>
      if c =? 34 then (match t with [] => Some [] | _ :: _ => None end)
      else if c =? 92 then
        match t with
        | [] => None
        | e :: t1 =>
            if e =? 117 then
              match t1 with
              | h1 :: h2 :: h3 :: h4 :: t2 =>
                  match hex4Value h1 h2 h3 h4 with
                  | Some v => cons v <$> readLiteralBody t2
                  | None => None
                  end
              | _ => None
              end
            else
              match unescapeSingle e with
              | Some v => cons v <$> readLiteralBody t1
              | None => None
              end
        end
      else if c <? 32 then None
      else cons c <$> readLiteralBody t
  end.

Definition readQuotedLiteral (s : jsstring) : option jsstring :=
  match s with
  | 34 :: body => readLiteralBody body
  | _ => None
  end.

End Js.

Import Js.

(** ** Clause escaper ([utils/cql.util.ts]) *)

(** [escapeCqlValue]: [JSON.stringify(value).slice(1, -1)]. *)
Definition escapeCqlValue (value : jsstring) : jsstring :=
  let jsonString := JSON_stringify value in
  slice jsonString 1 (-1).

(** The escaper as the design document words it: a backslash before every
    backslash and every double quote, nothing else touched. *)
Definition escapeQuotesAndBackslashes (value : jsstring) : jsstring :=
  flat_map (fun c => if (c =? 34) || (c =? 92) then [92; c] else [c]) value.

Local Close Scope N_scope.
Local Open Scope Z_scope.

(** ** Remote calls as effects

    Every controller and service function awaits remote collaborators and
    may throw.  [M A] threads the log of the remote calls issued so far and
    ends in a thrown value or a result. *)
Module Eff.
Section Monad.
Context {Call Err : Type}.

Definition M (A : Type) : Type := list Call -> list Call * (Err + A).

Definition ret {A} (a : A) : M A := fun log => (log, inr a).

Definition throw {A} (e : Err) : M A := fun log => (log, inl e).

Definition bind {A B} (m : M A) (k : A -> M B) : M B :=
  fun log =>
    match m log with
    | (log', inl e) => (log', inl e)
    | (log', inr a) => k a log'
    end.

(** [try { m } catch (e) { h e }]. *)
Definition try_catch {A} (m : M A) (h : Err -> M A) : M A :=
  fun log =>
    match m log with
    | (log', inl e) => h e log'
    | (log', inr a) => (log', inr a)
    end.

(** One remote call: it is logged, and settles as the collaborator says. *)
Definition perform {A} (c : Call) (outcome : Err + A) : M A :=
  fun log => (log ++ [c], outcome).

(** Starting an async function without awaiting it: its calls are issued,
    its outcome is kept in the promise. *)
Definition start {A} (m : M A) : M (Err + A) :=
  fun log => let '(log', r) := m log in (log', inr r).

Fixpoint mapM {A B} (f : A -> M B) (l : list A) : M (list B) :=
  match l with
  | [] => ret []
  | a :: rest => bind (f a) (fun b => bind (mapM f rest) (fun bs => ret (b :: bs)))
  end.

(** [Promise.all]: rejects with the rejection that settled first (every
    promise comes with its completion time; ties go to the earlier
    promise), and otherwise fulfils with all the values in order. *)
Fixpoint firstRejection {A} (ps : list (nat * (Err + A))) : option (nat * Err) :=
  match ps with
  | [] => None
  | (t, inl e) :: rest =>
      match firstRejection rest with
      | Some (t', e') => if (t' <? t)%nat then Some (t', e') else Some (t, e)
      | None => Some (t, e)
      end
  | (_, inr _) :: rest => firstRejection rest
  end.

Definition fulfilled {A} (ps : list (nat * (Err + A))) : list A :=
  omap (fun p => match snd p with inr a => Some a | inl _ => None end) ps.

Definition Promise_all {A} (ps : list (nat * (Err + A))) : M (list A) :=
  match firstRejection ps with
  | Some (_, e) => throw e
  | None => ret (fulfilled ps)
  end.

Definition run {A} (m : M A) : list Call * (Err + A) := m [].
End Monad.

Arguments M : clear implicits.
End Eff.

Import Eff.

Notation "'let*' x ':=' m 'in' k" := (bind m (fun x => k))
  (at level 10, x pattern, m at level 100, k at level 200).

(** A value of a field of an error context. *)
Inductive JsValue :=
| VUndefined
| VString (s : jsstring)
| VNumber (n : Z).

Definition optString (o : option jsstring) : JsValue :=
  match o with Some s => VString s | None => VUndefined end.

Definition optNumber (o : option Z) : JsValue :=
  match o with Some n => VNumber n | None => VUndefined end.

(** Arguments handed to [buildErrorContext]. *)
Record ErrorContext := {
  entityType : jsstring;
  operation : jsstring;
  source : jsstring;
  entityId : list (jsstring * JsValue);
  additionalInfo : list (jsstring * JsValue)
}.

(** Modelled from the spec: [buildErrorContext] of
    [utils/error-handler.util.ts], which is not among the sources; it is kept
    as the record of its arguments. *)
Definition buildErrorContext (entityType operation source : jsstring)
    (entityId additionalInfo : list (jsstring * JsValue)) : ErrorContext :=
  {| entityType := entityType; operation := operation; source := source;
     entityId := entityId; additionalInfo := additionalInfo |}.

(** ** The search service ([services/vendor.atlassian.search.*]), as consumed *)
Module SearchService.

Record SearchParams := {
  cql : jsstring;
  limit : option Z;
  cursor : option jsstring;
  excerpt : option jsstring;
  includeArchivedSpaces : option bool
}.

Record SearchContent := {
  content_type : option jsstring;
  content_id : option jsstring;
  content_title : option jsstring;
  content_status : option jsstring
}.

Record SearchSpace := { space_id : option jsstring }.

Record SearchResultType := {
  content : option SearchContent;
  title : option jsstring;
  space : option SearchSpace;
  lastModified : option jsstring;
  url : option jsstring
}.

Record ResponseLinks := { next : option jsstring; base : option jsstring }.

Record SearchResponseType := {
  results : list SearchResultType;
  _links : option ResponseLinks
}.

End SearchService.

(** ** Query synthesizer and search ([controllers/atlassian.search.controller.ts]) *)
Module SearchController.
Import SearchService.

Record SearchToolArgsType := {
  cql : option jsstring;
  title : option jsstring;
  spaceKey : option jsstring;
  labels : option (list jsstring);
  contentType : option jsstring;
  query : option jsstring;
  limit : option Z;
  cursor : option jsstring
}.

Definition push {A} (arr : list A) (x : A) : list A := arr ++ [x].

(** The clauses of [buildCqlQuery], before they are joined ([cqlParts]). *)
Definition cqlParts (options : SearchToolArgsType) : list jsstring :=
  let cqlParts := [] in
  let cqlParts :=
    ifTruthy options.(title)
      (fun title => push cqlParts (lit "title ~ " ++ dq ++ escapeCqlValue title ++ dq))
      cqlParts in
  let cqlParts :=
    ifTruthy options.(spaceKey)
      (fun spaceKey => push cqlParts (lit "space = " ++ dq ++ escapeCqlValue spaceKey ++ dq))
      cqlParts in
  let cqlParts :=
    match options.(labels) with
    | Some (l :: ls) =>
        let escapedLabels := map escapeCqlValue (l :: ls) in
        fold_left (fun parts label => push parts (lit "label = " ++ dq ++ label ++ dq))
                  escapedLabels cqlParts
    | _ => cqlParts
    end in
  let cqlParts :=
    ifTruthy options.(contentType)
      (fun contentType => push cqlParts (lit "type = " ++ contentType))
      cqlParts in
  let cqlParts :=
    ifTruthy options.(query)
      (fun query => push cqlParts (lit "text ~ " ++ dq ++ escapeCqlValue query ++ dq))
      cqlParts in
  cqlParts.

Definition buildCqlQuery (options : SearchToolArgsType) : jsstring :=
  let generatedCql := join (lit " AND ") (cqlParts options) in
  ifTruthy options.(cql)
    (fun cql =>
       if truthyStr (trim cql) then
         if truthyStr generatedCql
         then lit "(" ++ generatedCql ++ lit ") AND (" ++ cql ++ lit ")"
         else cql
       else orElse (Some generatedCql) [])
    (orElse (Some generatedCql) []).

(** Modelled from the spec: [applyDefaults] of [utils/defaults.util.ts],
    which is not among the sources; a field left undefined by the caller
    takes the default's value, any other field is the caller's. *)
Definition applyDefaults (options defaults : SearchToolArgsType) : SearchToolArgsType :=
  {| cql := from_option Some defaults.(cql) options.(cql);
     title := from_option Some defaults.(title) options.(title);
     spaceKey := from_option Some defaults.(spaceKey) options.(spaceKey);
     labels := from_option Some defaults.(labels) options.(labels);
     contentType := from_option Some defaults.(contentType) options.(contentType);
     query := from_option Some defaults.(query) options.(query);
     limit := from_option Some defaults.(limit) options.(limit);
     cursor := from_option Some defaults.(cursor) options.(cursor) |}.

(** What [search] hands back: the advisory text, or the page it renders
    (executed query, results and the pagination read off the response). *)
Inductive ControllerResponse :=
| Text (content : jsstring)
| SearchPage (finalCql : jsstring) (searchData : SearchResponseType).

Section Search.
Context {Error McpError : Type}.
Variable atlassianSearchService_search : SearchParams -> Error + SearchResponseType.
Variable ensureMcpError : Error -> McpError.
Variable statusCode : McpError -> option Z.
Variable message : McpError -> jsstring.
Variable setMessage : McpError -> jsstring -> McpError.
Variable handleControllerError : McpError -> ErrorContext -> Error.
Variable DEFAULT_PAGE_SIZE : Z.

Definition search (options : SearchToolArgsType)
  : M SearchParams Error ControllerResponse :=
  try_catch
    (let defaults :=
       {| cql := None; title := None; spaceKey := None; labels := None;
          contentType := None; query := None;
          limit := Some DEFAULT_PAGE_SIZE; cursor := None |} in
     let mergedOptions := applyDefaults options defaults in
     let finalCql := buildCqlQuery mergedOptions in
     if negb (truthyStr finalCql) || bool_decide (trim finalCql = [])
     then ret (Text (lit "Please provide search criteria (CQL, title, space, etc.)."))
     else
       let params :=
         {| SearchService.cql := finalCql;
            SearchService.limit := mergedOptions.(limit);
            SearchService.cursor := mergedOptions.(cursor);
            excerpt := Some (lit "highlight");
            includeArchivedSpaces := Some false |} in
       let* searchData := perform params (atlassianSearchService_search params) in
       ret (SearchPage finalCql searchData))
    (fun error =>
       let mcpError := ensureMcpError error in
       let mcpError :=
         if bool_decide (statusCode mcpError = Some 400)
         then setMessage mcpError
                (lit "Search failed (Status 400 - Bad Request): " ++ message mcpError
                 ++ lit ". This may be due to invalid CQL syntax. Please check your CQL query, ensure terms in text searches are quoted (e.g., text ~ "
                 ++ dq ++ lit "your terms" ++ dq
                 ++ lit "), and refer to the Confluence CQL documentation.")
         else mcpError in
       throw (handleControllerError mcpError
                (buildErrorContext (lit "Search") (lit "performing")
                   (lit "controllers/atlassian.search.controller.ts@search")
                   []
                   [(lit "cql", VString (orElse options.(cql) []));
                    (lit "query", VString (orElse options.(query) []));
                    (lit "spaceKey", optString options.(spaceKey));
                    (lit "limit", optNumber options.(limit));
                    (lit "cursor", optString options.(cursor))]))).
End Search.

End SearchController.

(** ** Federated search ([controllers/atlassian.universal-search.controller.ts]) *)
Module UniversalSearch.
Import SearchService.

Inductive UniversalSearchSectionKey :=
| spaces | pages | blogPosts | attachments | comments.

#[global] Instance UniversalSearchSectionKey_eq_dec : EqDecision UniversalSearchSectionKey.
Proof. solve_decision. Defined.

Definition sectionIndex (k : UniversalSearchSectionKey) : nat :=
  match k with
  | spaces => 0 | pages => 1 | blogPosts => 2 | attachments => 3 | comments => 4
  end%nat.

Definition sectionOfIndex (n : nat) : option UniversalSearchSectionKey :=
  match n with
  | 0 => Some spaces | 1 => Some pages | 2 => Some blogPosts
  | 3 => Some attachments | 4 => Some comments | _ => None
  end%nat.

#[global] Instance UniversalSearchSectionKey_countable : Countable UniversalSearchSectionKey.
Proof.
  apply (inj_countable sectionIndex sectionOfIndex).
  intros []; reflexivity.
Defined.

Record UniversalSearchToolArgsType := {
  query : option jsstring;
  spaceKey : option jsstring;
  labels : option (list jsstring);
  includeSpaces : option bool;
  includePages : option bool;
  includeBlogPosts : option bool;
  includeAttachments : option bool;
  includeComments : option bool;
  limitPerType : option Z
}.

Definition DEFAULT_LIMIT_PER_TYPE : Z := 5.

Record NormalizedUniversalOptions := {
  n_query : jsstring;
  n_spaceKey : option jsstring;
  n_labels : option (list jsstring);
  n_includeSpaces : bool;
  n_includePages : bool;
  n_includeBlogPosts : bool;
  n_includeAttachments : bool;
  n_includeComments : bool;
  n_limitPerType : Z
}.

Definition SECTION_TO_CQL_TYPE (k : UniversalSearchSectionKey) : jsstring :=
  match k with
  | spaces => lit "space"
  | pages => lit "page"
  | blogPosts => lit "blogpost"
  | attachments => lit "attachment"
  | comments => lit "comment"
  end.

Definition normalizeOptions (options : UniversalSearchToolArgsType)
  : NormalizedUniversalOptions :=
  let trimmedQuery := from_option trim [] options.(query) in
  {| n_query := trimmedQuery;
     n_spaceKey := ifTruthy (trim <$> options.(spaceKey)) Some None;
     n_labels :=
       (fun labels => filter (fun label => (0 <? length label)%nat) (map trim labels))
         <$> options.(labels);
     n_includeSpaces := default true options.(includeSpaces);
     n_includePages := default true options.(includePages);
     n_includeBlogPosts := default true options.(includeBlogPosts);
     n_includeAttachments := default true options.(includeAttachments);
     n_includeComments := default true options.(includeComments);
     n_limitPerType :=
       match options.(limitPerType) with
       | Some limitPerType => Z.min (Z.max limitPerType 1) 25
       | None => DEFAULT_LIMIT_PER_TYPE
       end |}.

Definition push {A} (arr : list A) (x : A) : list A := arr ++ [x].

(** The clauses of [buildTypeSpecificCql], before they are joined. *)
Definition typeSpecificClauses (type : UniversalSearchSectionKey)
    (options : NormalizedUniversalOptions) : list jsstring :=
  let clauses := [] in
  let clauses := push clauses (lit "type = " ++ SECTION_TO_CQL_TYPE type) in
  let clauses :=
    push clauses (lit "text ~ " ++ dq ++ escapeCqlValue options.(n_query) ++ dq) in
  let clauses :=
    if bool_decide (type <> spaces) then
      ifTruthy options.(n_spaceKey)
        (fun spaceKey =>
           push clauses (lit "space = " ++ dq ++ escapeCqlValue spaceKey ++ dq))
        clauses
    else clauses in
  let clauses :=
    match options.(n_labels) with
    | Some labels =>
        if bool_decide (type = pages) || bool_decide (type = blogPosts) then
          fold_left
            (fun clauses label =>
               push clauses (lit "label = " ++ dq ++ escapeCqlValue label ++ dq))
            labels clauses
        else clauses
    | None => clauses
    end in
  clauses.

Definition buildTypeSpecificCql (type : UniversalSearchSectionKey)
    (options : NormalizedUniversalOptions) : jsstring :=
  join (lit " AND ") (typeSpecificClauses type options).

(** The enabled categories, in the fixed order of [search]. *)
Definition includedTypesOf (normalizedOptions : NormalizedUniversalOptions)
  : list UniversalSearchSectionKey :=
  map fst
    (filter (fun p => Is_true (snd p))
       [(spaces, normalizedOptions.(n_includeSpaces));
        (pages, normalizedOptions.(n_includePages));
        (blogPosts, normalizedOptions.(n_includeBlogPosts));
        (attachments, normalizedOptions.(n_includeAttachments));
        (comments, normalizedOptions.(n_includeComments))]).

(** What [formatUniversalSearchResults] is given. *)
Record UniversalSearchFormatterInput := {
  f_query : jsstring;
  f_spaceKey : option jsstring;
  f_labels : option (list jsstring);
  f_limitPerType : Z;
  f_includedTypes : list UniversalSearchSectionKey;
  f_results : gmap UniversalSearchSectionKey (list SearchResultType)
}.

(** What [search] hands back: an advisory text, or the rendering of a
    formatter input (kept as the input). *)
Inductive ControllerResponse :=
| Text (content : jsstring)
| Formatted (input : UniversalSearchFormatterInput).

Section Search.
Context {Error McpError : Type}.
Variable atlassianSearchService_search : SearchParams -> Error + SearchResponseType.
Variable ensureMcpError : Error -> McpError.
Variable statusCode : McpError -> option Z.
Variable message : McpError -> jsstring.
Variable setMessage : McpError -> jsstring -> McpError.
Variable handleControllerError : McpError -> ErrorContext -> Error.
(** When the call of each category settles. *)
Variable completion : UniversalSearchSectionKey -> nat.

Definition searchParamsFor (type : UniversalSearchSectionKey)
    (options : NormalizedUniversalOptions) : SearchParams :=
  let cql := buildTypeSpecificCql type options in
  {| cql := cql;
     limit := Some options.(n_limitPerType);
     cursor := None;
     excerpt := Some (lit "highlight");
     includeArchivedSpaces := Some false |}.

(** How the call of one category settles, tagged as [search] tags it. *)
Definition outcomeOf (options : NormalizedUniversalOptions)
    (type : UniversalSearchSectionKey)
  : Error + (UniversalSearchSectionKey * list SearchResultType) :=
  match atlassianSearchService_search (searchParamsFor type options) with
  | inl e => inl e
  | inr response => inr (type, response.(results))
  end.

Definition executeSearchForType (type : UniversalSearchSectionKey)
    (options : NormalizedUniversalOptions)
  : M SearchParams Error (list SearchResultType) :=
  let params := searchParamsFor type options in
  let* response := perform params (atlassianSearchService_search params) in
  (* [response.results || []]: an array is truthy *)
  ret response.(results).

(** The object [search] starts from: every category, no result. *)
Definition emptyResultsByType : gmap UniversalSearchSectionKey (list SearchResultType) :=
  <[spaces := []]> (<[pages := []]> (<[blogPosts := []]>
    (<[attachments := []]> (<[comments := []]> ∅)))).

(** The [catch] block of [search]: what is thrown for a caught [error]. *)
Definition surfacedError (options : UniversalSearchToolArgsType) (error : Error)
  : Error :=
  let normalizedOptions := normalizeOptions options in
  let mcpError := ensureMcpError error in
  let mcpError :=
    if bool_decide (statusCode mcpError = Some 400)
    then setMessage mcpError
           (lit "Universal search failed (Status 400 - Bad Request): "
            ++ message mcpError
            ++ lit ". This may indicate invalid CQL generated from the provided filters. Double-check the query text and filters.")
    else mcpError in
  handleControllerError mcpError
    (buildErrorContext (lit "Universal search") (lit "performing")
       (lit "controllers/atlassian.universal-search.controller.ts@search")
       [(lit "query", optString options.(query))]
       [(lit "limitPerType", VNumber normalizedOptions.(n_limitPerType));
        (lit "spaceKey",
         optString (ifTruthy normalizedOptions.(n_spaceKey) Some
                      options.(spaceKey)))]).

Definition search (options : UniversalSearchToolArgsType)
  : M SearchParams Error ControllerResponse :=
  if negb (truthy options.(query))
     || (length (from_option trim [] options.(query)) =? 0)%nat
  then ret (Text (lit "Please provide a search query (for example: `--query "
                  ++ dq ++ lit "design" ++ dq ++ lit "`)."))
  else
    try_catch
      (let normalizedOptions := normalizeOptions options in
       let includedTypes := includedTypesOf normalizedOptions in
       if (length includedTypes =? 0)%nat
       then ret (Text (lit "No content types selected. Enable at least one type (pages, spaces, blog posts, attachments, or comments)."))
       else
         let* searchPromises :=
           mapM (fun type =>
                   let* settled :=
                     start (let* results := executeSearchForType type normalizedOptions in
                            ret (type, results)) in
                   ret (completion type, settled))
                includedTypes in
         let* resolvedResults := Promise_all searchPromises in
         let resultsByType := emptyResultsByType in
         let resultsByType :=
           fold_left (fun byType '(type, results) => <[type := results]> byType)
                     resolvedResults resultsByType in
         ret (Formatted
                {| f_query := normalizedOptions.(n_query);
                   f_spaceKey := normalizedOptions.(n_spaceKey);
                   f_labels := normalizedOptions.(n_labels);
                   f_limitPerType := normalizedOptions.(n_limitPerType);
                   f_includedTypes := includedTypes;
                   f_results := resultsByType |}))
      (fun error => throw (surfacedError options error)).
End Search.

End UniversalSearch.

(** ** Hybrid title lookup ([services/vendor.atlassian.pages.service.ts]) *)
Module PagesService.
Import SearchService.

Record ListPagesParams := {
  spaceId : option (list jsstring);
  title : option jsstring;
  status : option (list jsstring);
  query : option jsstring;
  parentId : option jsstring;
  bodyFormat : option jsstring;
  sort : option jsstring;
  cursor : option jsstring;
  limit : option Z
}.

Record PageVersion := {
  number : Z;
  v_authorId : jsstring;
  v_message : jsstring;
  v_createdAt : jsstring
}.

Record PageLinks := {
  editui : jsstring; webui : jsstring; self : jsstring; tinyui : jsstring
}.

Record Page := {
  id : jsstring;
  p_status : jsstring;
  p_title : jsstring;
  p_spaceId : jsstring;
  version : PageVersion;
  authorId : jsstring;
  createdAt : jsstring;
  p_parentId : option jsstring;
  parentType : option jsstring;
  position : option Z;
  p_links : PageLinks
}.

Record PagesLinks := { p_next : option jsstring; p_base : option jsstring }.

Record PagesResponse := {
  p_results : list Page;
  ps_links : option PagesLinks
}.

Record SpacesListParams := { ids : list jsstring; s_limit : Z }.
Record Space := { key : jsstring; s_id : jsstring }.
Record SpacesResponse := { s_results : list Space }.

Inductive RemoteCall :=
| FetchAtlassian (path : jsstring)
| SpacesList (params : SpacesListParams)
| Search (params : SearchParams).

Definition API_PATH : jsstring := lit "/wiki/api/v2".

Definition push {A} (arr : list A) (x : A) : list A := arr ++ [x].

(** [array?.length] as a condition. *)
Definition nonEmptyArray {A} (o : option (list A)) : bool :=
  match o with
  | Some (_ :: _) => true
  | _ => false
  end.

(** [URLSearchParams.set]. *)
Fixpoint set (name value : jsstring) (qs : list (jsstring * jsstring))
  : list (jsstring * jsstring) :=
  match qs with
  | [] => [(name, value)]
  | (n, v) :: rest =>
      if bool_decide (n = name)
      then (name, value) :: filter (fun p => fst p <> name) rest
      else (n, v) :: set name value rest
  end.

Section Service.
Context {Error ZodError Credentials RawData : Type}.
Variable getAtlassianCredentials : option Credentials.
Variable ATLASSIAN_SITE_REQUIRED_MESSAGE : jsstring.
Variable createAuthMissingError : jsstring -> Error.
Variable createApiError : jsstring -> Z -> ZodError -> Error.
Variable fetchAtlassian : Credentials -> jsstring -> Error + RawData.
Variable PagesResponseSchema_parse : RawData -> ZodError + PagesResponse.
Variable ZodError_message : ZodError -> jsstring.
Variable atlassianSearchService_search : SearchParams -> Error + SearchResponseType.
Variable atlassianSpacesService_list : SpacesListParams -> Error + SpacesResponse.
Variable URLSearchParams_toString : list (jsstring * jsstring) -> jsstring.
Variable Number_toString : Z -> jsstring.
(** [new Date().toISOString()]. *)
Variable now : jsstring.

(** One hit of [transformSearchResultsToPagesFormat]: kept when it is a
    page with an id (the [filter]), then reshaped (the [map]). *)
Definition pageOfResult (result : SearchResultType) : option Page :=
  match result.(content) with
  | Some content =>
      if bool_decide (content.(content_type) = Some (lit "page"))
         && truthy content.(content_id)
      then
        Some {| id := orElse content.(content_id) [];
                p_status := orElse content.(content_status) (lit "current");
                p_title := orElse content.(content_title) (orElse result.(SearchService.title) []);
                p_spaceId := orElse (result.(space) ≫= space_id) [];
                version :=
                  {| number := 1;
                     v_authorId := [];
                     v_message := [];
                     v_createdAt := orElse result.(lastModified) now |};
                authorId := [];
                createdAt := orElse result.(lastModified) now;
                p_parentId := None;
                parentType := None;
                position := None;
                p_links :=
                  {| editui := orElse result.(url) [];
                     webui := orElse result.(url) [];
                     self := orElse result.(url) [];
                     tinyui := orElse result.(url) [] |} |}
      else None
  | None => None
  end.

Definition transformSearchResultsToPagesFormat (searchResults : SearchResponseType)
  : PagesResponse :=
  let pageResults := omap pageOfResult searchResults.(results) in
  {| p_results := pageResults;
     ps_links :=
       Some {| p_next := searchResults.(_links) ≫= next;
               p_base := Some (orElse (searchResults.(_links) ≫= base) []) |} |}.

(** The clauses of the fallback query before the space lookup. *)
Definition titleClause (params : ListPagesParams) : list jsstring :=
  let cqlParts := [] in
  ifTruthy params.(title)
    (fun title => push cqlParts (lit "title ~ " ++ dq ++ title ++ lit "*" ++ dq))
    cqlParts.

Definition tryPartialTitleSearch (params : ListPagesParams)
  : M RemoteCall Error PagesResponse :=
  let cqlParts := titleClause params in
  let* cqlParts :=
    if nonEmptyArray params.(spaceId) then
      try_catch
        (let lookup := {| ids := default [] params.(spaceId); s_limit := 100 |} in
         let* spacesResponse :=
           perform (SpacesList lookup) (atlassianSpacesService_list lookup) in
         if (0 <? length spacesResponse.(s_results))%nat then
           let spaceKeys := map key spacesResponse.(s_results) in
           let spaceConditions :=
             join (lit " OR ")
                  (map (fun key => lit "space = " ++ dq ++ key ++ dq) spaceKeys) in
           ret (push cqlParts (lit "(" ++ spaceConditions ++ lit ")"))
         else ret cqlParts)
        (fun error => ret cqlParts)
    else ret cqlParts in
  let cqlParts := push cqlParts (lit "type = " ++ dq ++ lit "page" ++ dq) in
  let cql := join (lit " AND ") cqlParts in
  try_catch
    (let searchParams :=
       {| cql := cql;
          SearchService.limit :=
            Some (match params.(limit) with
                  | Some l => if l =? 0 then 25 else l
                  | None => 25
                  end);
          SearchService.cursor := None;
          excerpt := None;
          includeArchivedSpaces := None |} in
     let* searchResults :=
       perform (Search searchParams) (atlassianSearchService_search searchParams) in
     ret (transformSearchResultsToPagesFormat searchResults))
    (fun error =>
       ret {| p_results := [];
              ps_links := Some {| p_next := None; p_base := Some [] |} |}).

Definition queryParamsOf (params : ListPagesParams) : list (jsstring * jsstring) :=
  let queryParams := [] in
  let queryParams :=
    if nonEmptyArray params.(spaceId)
    then set (lit "space-id") (join (lit ",") (default [] params.(spaceId))) queryParams
    else queryParams in
  let queryParams :=
    ifTruthy params.(title) (fun title => set (lit "title") title queryParams)
             queryParams in
  let queryParams :=
    if nonEmptyArray params.(status)
    then set (lit "status") (join (lit ",") (default [] params.(status))) queryParams
    else queryParams in
  let queryParams :=
    ifTruthy params.(query) (fun query => set (lit "query") query queryParams)
             queryParams in
  let queryParams :=
    ifTruthy params.(parentId)
      (fun parentId => set (lit "parent-id") parentId queryParams) queryParams in
  let queryParams :=
    ifTruthy params.(bodyFormat)
      (fun bodyFormat => set (lit "body-format") bodyFormat queryParams) queryParams in
  let queryParams :=
    ifTruthy params.(sort) (fun sort => set (lit "sort") sort queryParams)
             queryParams in
  let queryParams :=
    ifTruthy params.(cursor) (fun cursor => set (lit "cursor") cursor queryParams)
             queryParams in
  let queryParams :=
    match params.(limit) with
    | Some l =>
        if l =? 0 then queryParams
        else set (lit "limit") (Number_toString l) queryParams
    | None => queryParams
    end in
  queryParams.

Definition pagesPath (params : ListPagesParams) : jsstring :=
  let queryParams := queryParamsOf params in
  let queryString :=
    if truthyStr (URLSearchParams_toString queryParams)
    then lit "?" ++ URLSearchParams_toString queryParams
    else [] in
  API_PATH ++ lit "/pages" ++ queryString.

Definition list (params : ListPagesParams) : M RemoteCall Error PagesResponse :=
  match getAtlassianCredentials with
  | None => throw (createAuthMissingError ATLASSIAN_SITE_REQUIRED_MESSAGE)
  | Some credentials =>
      let path := pagesPath params in
      try_catch
        (let* rawData :=
           perform (FetchAtlassian path) (fetchAtlassian credentials path) in
         (* the inner try: only the schema throws in it, a [ZodError] *)
         match PagesResponseSchema_parse rawData with
         | inr validatedData =>
             if truthy params.(title)
                && (length validatedData.(p_results) =? 0)%nat
                && negb (truthy params.(cursor))
             then
               let* partialResults := tryPartialTitleSearch params in
               if (0 <? length partialResults.(p_results))%nat
               then ret partialResults
               else ret validatedData
             else ret validatedData
         | inl validationError =>
             throw (createApiError
                      (lit "API response validation failed: "
                       ++ ZodError_message validationError)
                      500 validationError)
         end)
        (fun error => throw error)
  end.
End Service.

End PagesService.

(** ** Inline comments ([controllers/atlassian.comments.controller.ts]) *)
Module CommentsController.

Inductive BodyFormat := storage | view | atlas_doc_format.
Inductive SortBy := created | position.

Record InlineProperties := {
  originalSelection : option jsstring;
  textContext : option jsstring;
  (** [None]: no such key; [Some v]: the key is there, with value [v]. *)
  selectionText : option (option jsstring);
  markerRef : option jsstring;
  containerId : option jsstring
}.

Record Extensions := {
  location : option jsstring;
  inlineProperties : option InlineProperties
}.

Section Controller.
(** The Atlassian document value of a comment body. *)
Context {ADF Error : Type}.

Record CommentData := {
  id : jsstring;
  status : jsstring;
  title : jsstring;
  (** [body?.atlas_doc_format?.value], when truthy. *)
  body_value : option ADF;
  extensions : option Extensions
}.

Record CommentsResponse := {
  results : list CommentData;
  links_base : option jsstring
}.

Record ListPageCommentsParams := {
  p_pageId : jsstring;
  p_limit : Z;
  p_start : Z;
  p_bodyFormat : BodyFormat
}.

Record ListInlineCommentsOptions := {
  pageId : jsstring;
  includeResolved : option bool;
  sortBy : option SortBy;
  limit : option Z;
  start : option Z;
  bodyFormat : option BodyFormat
}.

Record CommentWithContext := {
  comment : CommentData;
  convertedMarkdownBody : jsstring;
  highlightedText : option jsstring
}.

(** The arguments of [formatInlineCommentsList]. *)
Record InlineCommentsList := {
  commentsData : list CommentWithContext;
  l_pageId : jsstring;
  baseUrl : jsstring;
  totalCount : Z;
  l_start : Z;
  l_limit : Z
}.

Variable listPageComments : ListPageCommentsParams -> Error + CommentsResponse.
(** [None] when the conversion throws. *)
Variable adfToMarkdown : ADF -> option jsstring.
Variable localeCompare : jsstring -> jsstring -> Z.
Variable handleControllerError : Error -> ErrorContext -> Error.
Variable DEFAULT_PAGE_SIZE : Z.

(** [Array.prototype.sort] with a comparator: the stable order. *)
Fixpoint insertSorted {A} (cmp : A -> A -> Z) (x : A) (sorted : list A) : list A :=
  match sorted with
  | [] => [x]
  | y :: rest =>
      if cmp x y <=? 0 then x :: y :: rest else y :: insertSorted cmp x rest
  end.

Definition Array_sort {A} (cmp : A -> A -> Z) (arr : list A) : list A :=
  foldr (insertSorted cmp) [] arr.

Definition keepInline (includeResolved : bool) (comment : CommentData) : bool :=
  let isInline :=
    bool_decide ((comment.(extensions) ≫= location) = Some (lit "inline")) in
  if negb includeResolved && negb (bool_decide (comment.(status) = lit "current"))
  then false
  else isInline.

Definition convertComment (comment : CommentData) : CommentWithContext :=
  let markdownBody := lit "*Content format not supported or unavailable*" in
  let markdownBody :=
    match comment.(body_value) with
    | Some value => default markdownBody (adfToMarkdown value)
    | None => markdownBody
    end in
  let highlightedText :=
    match comment.(extensions) ≫= inlineProperties with
    | Some props =>
        let highlightedText :=
          ifTruthy props.(originalSelection) Some props.(textContext) in
        match props.(selectionText) with
        | Some selectionText =>
            if negb (truthy highlightedText)
            then Some (orElse selectionText [])
            else highlightedText
        | None => highlightedText
        end
    | None => None
    end in
  {| comment := comment;
     convertedMarkdownBody := markdownBody;
     highlightedText := highlightedText |}.

Definition positionOf (a : CommentWithContext) : jsstring :=
  orElse ((a.(comment).(extensions) ≫= inlineProperties) ≫= markerRef)
         a.(comment).(id).

Definition listInlineComments (options : ListInlineCommentsOptions)
  : M ListPageCommentsParams Error InlineCommentsList :=
  try_catch
    (let pageId := options.(pageId) in
     let includeResolved := default false options.(includeResolved) in
     let sortBy := default position options.(sortBy) in
     let limit := default DEFAULT_PAGE_SIZE options.(limit) in
     let start := default 0 options.(start) in
     let bodyFormat := default atlas_doc_format options.(bodyFormat) in
     let request :=
       {| p_pageId := pageId; p_limit := 250; p_start := 0;
          p_bodyFormat := bodyFormat |} in
     let* allCommentsData := perform request (listPageComments request) in
     let inlineCommentsRaw :=
       filter (fun comment => Is_true (keepInline includeResolved comment))
              allCommentsData.(results) in
     let convertedComments := map convertComment inlineCommentsRaw in
     let convertedComments :=
       match sortBy with
       | position =>
           Array_sort (fun a b => localeCompare (positionOf a) (positionOf b))
                      convertedComments
       | created =>
           Array_sort (fun a b => localeCompare a.(comment).(id) b.(comment).(id))
                      convertedComments
       end in
     let paginatedComments := slice convertedComments start (start + limit) in
     let baseUrl := orElse allCommentsData.(links_base) [] in
     ret {| commentsData := paginatedComments;
            l_pageId := pageId;
            baseUrl := baseUrl;
            totalCount := Z.of_nat (length convertedComments);
            l_start := start;
            l_limit := limit |})
    (fun error =>
       throw (handleControllerError error
                {| entityType := lit "InlineComment";
                   operation := lit "list";
                   source := lit "controllers/atlassian.comments.controller.ts@listInlineComments";
                   entityId := [];
                   additionalInfo := [(lit "pageId", VString options.(pageId))] |})).
End Controller.

End CommentsController.

(** ** The clause grammar of the design document

    A clause is [field OP value] with the value in double quotes; the
    operator is [~] for title and free text and [=] for space, content type
    and label. *)
Module Grammar.

Definition quotedClause (field op : string) (value : jsstring) : jsstring :=
  lit field ++ lit " " ++ lit op ++ lit " " ++ dq ++ value ++ dq.

Definition isQuotedClause (clause : jsstring) : Prop :=
  exists value,
    clause = quotedClause "title" "~" value
    \/ clause = quotedClause "text" "~" value
    \/ clause = quotedClause "space" "=" value
    \/ clause = quotedClause "type" "=" value
    \/ clause = quotedClause "label" "=" value.

(** A quoted clause on one of the fields other than the content type. *)
Definition isQuotedFilterClause (clause : jsstring) : Prop :=
  exists value,
    clause = quotedClause "title" "~" value
    \/ clause = quotedClause "text" "~" value
    \/ clause = quotedClause "space" "=" value
    \/ clause = quotedClause "label" "=" value.

(** The content-type clause as the synthesizers write it: a bare value. *)
Definition bareTypeClause (value : jsstring) : jsstring :=
  lit "type = " ++ value.

End Grammar.

(** ** Sample requests and collaborators

    Concrete inputs on which the statements below are exercised. *)
Module Fixtures.
Import SearchService.

(** Thrown values are messages; an [McpError] is a message and a status. *)
Definition ensureMcpError (error : jsstring) : jsstring * option Z := (error, None).
Definition statusCode (e : jsstring * option Z) : option Z := snd e.
Definition message (e : jsstring * option Z) : jsstring := fst e.
Definition setMessage (e : jsstring * option Z) (m : jsstring) : jsstring * option Z :=
  (m, snd e).
Definition handleControllerError (e : jsstring * option Z) (ctx : ErrorContext)
  : jsstring := fst e.

Definition hit : SearchResultType :=
  {| content :=
       Some {| content_type := Some (lit "page"); content_id := Some (lit "42");
               content_title := Some (lit "Balance sheet");
               content_status := None |};
     title := Some (lit "Balance sheet");
     space := Some {| space_id := Some (lit "7") |};
     lastModified := None;
     url := Some (lit "/spaces/FIN/pages/42") |}.

(** A search service that finds one hit for whatever it is asked. *)
Definition searchFindsOne (params : SearchParams) : jsstring + SearchResponseType :=
  inr {| results := [hit]; _links := None |}.

(** A search service whose comment index is down. *)
Definition searchCommentsDown (params : SearchParams) : jsstring + SearchResponseType :=
  if bool_decide (take 14 params.(cql) = lit "type = comment")
  then inl (lit "comments unavailable")
  else inr {| results := [hit]; _links := None |}.

Definition noCriteria : SearchController.SearchToolArgsType :=
  {| SearchController.cql := None; SearchController.title := None;
     SearchController.spaceKey := None; SearchController.labels := None;
     SearchController.contentType := None; SearchController.query := None;
     SearchController.limit := None; SearchController.cursor := None |}.

Definition pagesByType : SearchController.SearchToolArgsType :=
  {| SearchController.cql := None; SearchController.title := None;
     SearchController.spaceKey := None; SearchController.labels := None;
     SearchController.contentType := Some (lit "page");
     SearchController.query := None;
     SearchController.limit := None; SearchController.cursor := None |}.

Definition designEverywhere : UniversalSearch.UniversalSearchToolArgsType :=
  {| UniversalSearch.query := Some (lit " design ");
     UniversalSearch.spaceKey := Some (lit "DEV");
     UniversalSearch.labels := Some [lit "howto"; lit "draft"];
     UniversalSearch.includeSpaces := None;
     UniversalSearch.includePages := None;
     UniversalSearch.includeBlogPosts := None;
     UniversalSearch.includeAttachments := None;
     UniversalSearch.includeComments := None;
     UniversalSearch.limitPerType := None |}.

Definition designInPages : UniversalSearch.UniversalSearchToolArgsType :=
  {| UniversalSearch.query := Some (lit "design");
     UniversalSearch.spaceKey := None;
     UniversalSearch.labels := None;
     UniversalSearch.includeSpaces := Some false;
     UniversalSearch.includePages := Some true;
     UniversalSearch.includeBlogPosts := Some false;
     UniversalSearch.includeAttachments := Some false;
     UniversalSearch.includeComments := Some false;
     UniversalSearch.limitPerType := Some 3 |}.

(** Collaborators of the pages service: credentials are there, the pages
    endpoint answers with an empty page, the schema accepts it. *)
Definition credentials : option unit := Some tt.
Definition fetchNothing (c : unit) (path : jsstring) : jsstring + unit := inr tt.
Definition emptyPage : PagesService.PagesResponse :=
  {| PagesService.p_results := []; PagesService.ps_links := None |}.
Definition parseEmptyPage (raw : unit) : unit + PagesService.PagesResponse :=
  inr emptyPage.
Definition noMessage (e : unit) : jsstring := [].
Definition authMissing (m : jsstring) : jsstring := m.
Definition apiError (m : jsstring) (status : Z) (cause : unit) : jsstring := m.
Definition spacesUnknown (p : PagesService.SpacesListParams)
  : jsstring + PagesService.SpacesResponse :=
  inr {| PagesService.s_results := [] |}.
Definition formEncode (qs : list (jsstring * jsstring)) : jsstring :=
  join (lit "&") (map (fun p => fst p ++ lit "=" ++ snd p) qs).
Definition decimal (n : Z) : jsstring := lit (NilZero.string_of_int (Z.to_int n)).
Definition clock : jsstring := lit "2025-01-01T00:00:00.000Z".

Definition titled (title : jsstring) (cursor : option jsstring)
  : PagesService.ListPagesParams :=
  {| PagesService.spaceId := None;
     PagesService.title := Some title;
     PagesService.status := None;
     PagesService.query := None;
     PagesService.parentId := None;
     PagesService.bodyFormat := None;
     PagesService.sort := None;
     PagesService.cursor := cursor;
     PagesService.limit := None |}.

(** Collaborators of the comments controller: documents are their own
    Markdown, strings are compared code unit by code unit, and the page
    holds three comments, the second one not inline. *)
Fixpoint compareUnits (a b : jsstring) : Z :=
  match a, b with
  | [], [] => 0
  | [], _ :: _ => -1
  | _ :: _, [] => 1
  | x :: a', y :: b' =>
      if (x <? y)%N then -1 else if (y <? x)%N then 1 else compareUnits a' b'
  end.

Definition inlineComment (id marker : jsstring) : CommentsController.CommentData :=
  {| CommentsController.id := id;
     CommentsController.status := lit "current";
     CommentsController.title := lit "Re: Budget";
     CommentsController.body_value := Some (lit "please check");
     CommentsController.extensions :=
       Some {| CommentsController.location := Some (lit "inline");
               CommentsController.inlineProperties :=
                 Some {| CommentsController.originalSelection := Some (lit "total");
                         CommentsController.textContext := None;
                         CommentsController.selectionText := None;
                         CommentsController.markerRef := Some marker;
                         CommentsController.containerId := None |} |} |}.

Definition footerComment (id : jsstring) : CommentsController.CommentData :=
  {| CommentsController.id := id;
     CommentsController.status := lit "current";
     CommentsController.title := lit "Re: Budget";
     CommentsController.body_value := Some (lit "thanks");
     CommentsController.extensions :=
       Some {| CommentsController.location := Some (lit "footer");
               CommentsController.inlineProperties := None |} |}.

Definition pageComments : list (@CommentsController.CommentData jsstring) :=
  [inlineComment (lit "11") (lit "m2"); footerComment (lit "12");
   inlineComment (lit "13") (lit "m1")].

Definition commentsOfPage (request : @CommentsController.ListPageCommentsParams)
  : jsstring + @CommentsController.CommentsResponse jsstring :=
  inr {| CommentsController.results :=
           slice pageComments request.(CommentsController.p_start)
                 (request.(CommentsController.p_start)
                  + request.(CommentsController.p_limit));
         CommentsController.links_base := Some (lit "https://acme.atlassian.net/wiki") |}.

Definition rethrow (error : jsstring) (ctx : ErrorContext) : jsstring := error.

(** A page with 251 current inline comments, numbered from 1000. *)
Definition longPage : list (@CommentsController.CommentData jsstring) :=
  map (fun i => inlineComment (decimal i) (decimal i)) (seqZ 1000 251).

Definition commentsOfLongPage (request : @CommentsController.ListPageCommentsParams)
  : jsstring + @CommentsController.CommentsResponse jsstring :=
  inr {| CommentsController.results :=
           slice longPage request.(CommentsController.p_start)
                 (request.(CommentsController.p_start)
                  + request.(CommentsController.p_limit));
         CommentsController.links_base := None |}.

Definition pastFirst250 : @CommentsController.ListInlineCommentsOptions :=
  {| CommentsController.pageId := lit "901";
     CommentsController.includeResolved := None;
     CommentsController.sortBy := Some CommentsController.created;
     CommentsController.limit := Some 25;
     CommentsController.start := Some 250;
     CommentsController.bodyFormat := None |}.

Definition secondInline : @CommentsController.ListInlineCommentsOptions :=
  {| CommentsController.pageId := lit "900";
     CommentsController.includeResolved := None;
     CommentsController.sortBy := None;
     CommentsController.limit := Some 1;
     CommentsController.start := Some 1;
     CommentsController.bodyFormat := None |}.

End Fixtures.

(** ** More sample requests *)
Module Samples.
Import SearchService.

Definition commentsByType : SearchController.SearchToolArgsType :=
  {| SearchController.cql := None; SearchController.title := None;
     SearchController.spaceKey := None; SearchController.labels := None;
     SearchController.contentType := Some (lit "comment");
     SearchController.query := None;
     SearchController.limit := Some 10;
     SearchController.cursor := Some (lit "next-page") |}.

Definition blankQuery : UniversalSearch.UniversalSearchToolArgsType :=
  {| UniversalSearch.query := Some (lit "   ");
     UniversalSearch.spaceKey := None;
     UniversalSearch.labels := None;
     UniversalSearch.includeSpaces := None;
     UniversalSearch.includePages := None;
     UniversalSearch.includeBlogPosts := None;
     UniversalSearch.includeAttachments := None;
     UniversalSearch.includeComments := None;
     UniversalSearch.limitPerType := None |}.

Definition nothingEnabled : UniversalSearch.UniversalSearchToolArgsType :=
  {| UniversalSearch.query := Some (lit "design");
     UniversalSearch.spaceKey := None;
     UniversalSearch.labels := None;
     UniversalSearch.includeSpaces := Some false;
     UniversalSearch.includePages := Some false;
     UniversalSearch.includeBlogPosts := Some false;
     UniversalSearch.includeAttachments := Some false;
     UniversalSearch.includeComments := Some false;
     UniversalSearch.limitPerType := Some 100 |}.

Definition budgetPage : PagesService.Page :=
  {| PagesService.id := lit "7";
     PagesService.p_status := lit "current";
     PagesService.p_title := lit "Budget";
     PagesService.p_spaceId := lit "3";
     PagesService.version :=
       {| PagesService.number := 4; PagesService.v_authorId := lit "u1";
          PagesService.v_message := []; PagesService.v_createdAt := Fixtures.clock |};
     PagesService.authorId := lit "u1";
     PagesService.createdAt := Fixtures.clock;
     PagesService.p_parentId := None;
     PagesService.parentType := None;
     PagesService.position := None;
     PagesService.p_links :=
       {| PagesService.editui := []; PagesService.webui := [];
          PagesService.self := []; PagesService.tinyui := [] |} |}.

Definition onePage : PagesService.PagesResponse :=
  {| PagesService.p_results := [budgetPage]; PagesService.ps_links := None |}.

Definition parseOnePage (raw : unit) : unit + PagesService.PagesResponse := inr onePage.

(** A spaces service that knows every identifier it is asked about as the
    spaces DEV and OPS. *)
Definition spacesFound (p : PagesService.SpacesListParams)
  : jsstring + PagesService.SpacesResponse :=
  inr {| PagesService.s_results :=
           [{| PagesService.key := lit "DEV"; PagesService.s_id := lit "1" |};
            {| PagesService.key := lit "OPS"; PagesService.s_id := lit "2" |}] |}.

Definition titledIn (title : jsstring) (spaces : list jsstring)
  : PagesService.ListPagesParams :=
  {| PagesService.spaceId := Some spaces;
     PagesService.title := Some title;
     PagesService.status := None;
     PagesService.query := None;
     PagesService.parentId := None;
     PagesService.bodyFormat := None;
     PagesService.sort := None;
     PagesService.cursor := None;
     PagesService.limit := Some 10 |}.

(** A comments service that is down. *)
Definition commentsDown (request : @CommentsController.ListPageCommentsParams)
  : jsstring + @CommentsController.CommentsResponse jsstring :=
  inl (lit "service unavailable").

(** The long page of comments, newest first: the comment numbered 1000
    is the last of its 251 comments. *)
Definition reversedPage : Datatypes.list (@CommentsController.CommentData jsstring) :=
  rev Fixtures.longPage.

Definition commentsOfReversedPage
    (request : @CommentsController.ListPageCommentsParams)
  : jsstring + @CommentsController.CommentsResponse jsstring :=
  inr {| CommentsController.results :=
           slice reversedPage request.(CommentsController.p_start)
                 (request.(CommentsController.p_start)
                  + request.(CommentsController.p_limit));
         CommentsController.links_base := None |}.

Definition firstTwoByCreation : @CommentsController.ListInlineCommentsOptions :=
  {| CommentsController.pageId := lit "901";
     CommentsController.includeResolved := None;
     CommentsController.sortBy := Some CommentsController.created;
     CommentsController.limit := Some 2;
     CommentsController.start := Some 0;
     CommentsController.bodyFormat := None |}.

(** A page whose second comment is an inline comment that was resolved. *)
Definition resolvedComment (id marker : jsstring)
  : @CommentsController.CommentData jsstring :=
  {| CommentsController.id := id;
     CommentsController.status := lit "resolved";
     CommentsController.title := lit "Re: Budget";
     CommentsController.body_value := Some (lit "done");
     CommentsController.extensions :=
       Some {| CommentsController.location := Some (lit "inline");
               CommentsController.inlineProperties :=
                 Some {| CommentsController.originalSelection := Some (lit "total");
                         CommentsController.textContext := None;
                         CommentsController.selectionText := None;
                         CommentsController.markerRef := Some marker;
                         CommentsController.containerId := None |} |} |}.

Definition mixedPage : Datatypes.list (@CommentsController.CommentData jsstring) :=
  [Fixtures.inlineComment (lit "11") (lit "m2"); resolvedComment (lit "12") (lit "m0");
   Fixtures.inlineComment (lit "13") (lit "m1")].

Definition commentsOfMixedPage
    (request : @CommentsController.ListPageCommentsParams)
  : jsstring + @CommentsController.CommentsResponse jsstring :=
  inr {| CommentsController.results :=
           slice mixedPage request.(CommentsController.p_start)
                 (request.(CommentsController.p_start)
                  + request.(CommentsController.p_limit));
         CommentsController.links_base := None |}.

Definition wholeListing (includeResolved : option bool)
  : @CommentsController.ListInlineCommentsOptions :=
  {| CommentsController.pageId := lit "900";
     CommentsController.includeResolved := includeResolved;
     CommentsController.sortBy := None;
     CommentsController.limit := None;
     CommentsController.start := None;
     CommentsController.bodyFormat := None |}.

End Samples.

(** ** The fallback query of the pages service, as a function of the space
    lookup

    What [tryPartialTitleSearch] asks the spaces service and the search
    service, read off its body; the statements about the fallback are made
    with these. *)
Module PagesFallback.
Import SearchService PagesService.

Section Shape.
Context {Error : Type}.
Variable atlassianSpacesService_list : SpacesListParams -> Error + SpacesResponse.

Definition lookupRequest (params : ListPagesParams) : SpacesListParams :=
  {| ids := default [] params.(spaceId); s_limit := 100 |}.

(** The lookup is made only when space identifiers are given. *)
Definition lookupCalls (params : ListPagesParams) : Datatypes.list RemoteCall :=
  if nonEmptyArray params.(spaceId) then [SpacesList (lookupRequest params)] else [].

(** The space clause: there is one only when the lookup answers with at
    least one space. *)
Definition spaceClauses (params : ListPagesParams) : Datatypes.list jsstring :=
  if nonEmptyArray params.(spaceId) then
    match atlassianSpacesService_list (lookupRequest params) with
    | inr spacesResponse =>
        match spacesResponse.(s_results) with
        | [] => []
        | spaces =>
            [lit "("
             ++ join (lit " OR ")
                  (map (fun space => lit "space = " ++ dq ++ space.(key) ++ dq) spaces)
             ++ lit ")"]
        end
    | inl _ => []
    end
  else [].

Definition fallbackParams (params : ListPagesParams) : SearchParams :=
  {| cql :=
       join (lit " AND ")
            (titleClause params ++ spaceClauses params
             ++ [lit "type = " ++ dq ++ lit "page" ++ dq]);
     SearchService.limit :=
       Some (match params.(PagesService.limit) with
             | Some l => if l =? 0 then 25 else l
             | None => 25
             end);
     SearchService.cursor := None;
     excerpt := None;
     includeArchivedSpaces := None |}.
End Shape.

End PagesFallback.

(** ** Paging requests of the inline-comment listing *)
Module CommentsPaging.
Import CommentsController.

(** The same request for another window of the listing. *)
Definition paged (options : ListInlineCommentsOptions) (start limit : Z)
  : ListInlineCommentsOptions :=
  {| pageId := options.(pageId);
     includeResolved := options.(includeResolved);
     sortBy := options.(sortBy);
     limit := Some limit;
     start := Some start;
     bodyFormat := options.(bodyFormat) |}.

(** The key the listing is sorted by. *)
Definition sortKey {ADF} (by_ : option SortBy) (c : @CommentWithContext ADF) : jsstring :=
  match default position by_ with
  | position => positionOf c
  | created => c.(comment).(id)
  end.

End CommentsPaging.

(** ** URL helpers ([utils/url.util.ts]) *)
Module UrlUtil.

Local Open Scope N_scope.

(** How a pattern letter is met under the [i] flag: ASCII letters match in
    either case, nothing else folds onto them. *)
Definition foldCase (c : N) : N :=
  if (65 <=? c) && (c <=? 90) then c + 32 else c.

Fixpoint startsWithIgnoreCase (pattern s : jsstring) : bool :=
  match pattern, s with
  | [], _ => true
  | _ :: _, [] => false
  | p :: pattern', c :: s' => (foldCase c =? p) && startsWithIgnoreCase pattern' s'
  end.

(** [HTTP_REGEX.test]: the string starts with http:// or https://, in any
    letter case. *)
Definition HTTP_REGEX_test (s : jsstring) : bool :=
  startsWithIgnoreCase (lit "http://") s || startsWithIgnoreCase (lit "https://") s.

Fixpoint startsWith (s prefix : jsstring) : bool :=
  match prefix, s with
  | [], _ => true
  | _ :: _, [] => false
  | p :: prefix', c :: s' => (c =? p) && startsWith s' prefix'
  end.

Definition endsWith (s suffix : jsstring) : bool :=
  startsWith (rev s) (rev suffix).

Fixpoint dropSlashes (s : jsstring) : jsstring :=
  match s with
  | [] => []
  | c :: t => if c =? 47 then dropSlashes t else s
  end.

(** [s.replace(/\/+$/, '')]: the trailing run of slashes is removed. *)
Definition stripTrailingSlashes (s : jsstring) : jsstring :=
  rev (dropSlashes (rev s)).

(** [s.replace(/^\/wiki/, '')]. *)
Definition stripLeadingWiki (s : jsstring) : jsstring :=
  if startsWith s (lit "/wiki") then drop 5 s else s.

Local Close Scope N_scope.

Section WithConfig.
(** [config.get('ATLASSIAN_SITE_NAME')]. *)
Variable ATLASSIAN_SITE_NAME : option jsstring.

Definition getSiteHost : option jsstring :=
  ifTruthy ATLASSIAN_SITE_NAME
    (fun siteName => Some (lit "https://" ++ siteName ++ lit ".atlassian.net"))
    None.

Definition normalizeBaseUrl (baseUrl : option jsstring) : option jsstring :=
  let trimmed := trim <$> baseUrl in
  if truthy trimmed && HTTP_REGEX_test (default [] trimmed)
  then Some (stripTrailingSlashes (default [] trimmed))
  else
    let siteHost := getSiteHost in
    ifTruthy trimmed
      (fun trimmed =>
         ifTruthy siteHost
           (fun siteHost =>
              if startsWith trimmed (lit "/")
              then Some (stripTrailingSlashes (siteHost ++ trimmed))
              else Some (stripTrailingSlashes (siteHost ++ lit "/" ++ trimmed)))
           (Some (stripTrailingSlashes trimmed)))
      (ifTruthy siteHost
         (fun siteHost => Some (stripTrailingSlashes (siteHost ++ lit "/wiki")))
         None).

Definition joinBaseAndPath (base path : jsstring) : jsstring :=
  let sanitizedBase := stripTrailingSlashes base in
  if negb (truthyStr path) then sanitizedBase
  else if HTTP_REGEX_test path then path
  else
    let trimmedPath := trim path in
    if negb (truthyStr trimmedPath) then sanitizedBase
    else if startsWith trimmedPath (lit "/") then
      if endsWith sanitizedBase (lit "/wiki") && startsWith trimmedPath (lit "/wiki")
      then sanitizedBase ++ stripLeadingWiki trimmedPath
      else sanitizedBase ++ trimmedPath
    else
      let relativePath := trimmedPath in
      let relativePath :=
        if endsWith sanitizedBase (lit "/wiki") && startsWith relativePath (lit "wiki/")
        then slice relativePath (Z.of_nat (length (lit "wiki/")))
                   (Z.of_nat (length relativePath))
        else relativePath in
      sanitizedBase ++ lit "/" ++ relativePath.

Definition resolveConfluenceBaseUrl (baseUrl : option jsstring) : jsstring :=
  let normalized := normalizeBaseUrl baseUrl in
  ifTruthy normalized (fun normalized => normalized)
           (orElse (trim <$> baseUrl) []).

(** The loop of [ensureAbsoluteConfluenceUrl] over the candidate bases,
    with the set of bases already tried. *)
Fixpoint tryCandidates (candidateBases : list (option jsstring))
    (seenBases : list jsstring) (trimmedUrl : jsstring) : jsstring :=
  match candidateBases with
  | [] => trimmedUrl
  | candidate :: rest =>
      match candidate with
      | Some (c :: cs) =>
          let candidate := c :: cs in
          if bool_decide (candidate ∈ seenBases)
          then tryCandidates rest seenBases trimmedUrl
          else
            let seenBases := candidate :: seenBases in
            let combined := joinBaseAndPath candidate trimmedUrl in
            if truthyStr combined then combined
            else tryCandidates rest seenBases trimmedUrl
      | _ => tryCandidates rest seenBases trimmedUrl
      end
  end.

Definition ensureAbsoluteConfluenceUrl (urlOrPath : option jsstring)
    (baseUrl : option jsstring) : jsstring :=
  let trimmedUrl := orElse (trim <$> urlOrPath) [] in
  if negb (truthyStr trimmedUrl) then trimmedUrl
  else if HTTP_REGEX_test trimmedUrl then trimmedUrl
  else
    let siteHost := getSiteHost in
    let candidateBases := [] in
    let candidateBases :=
      if truthy baseUrl && HTTP_REGEX_test (default [] baseUrl)
      then candidateBases ++ [baseUrl]
      else candidateBases ++ [Some (resolveConfluenceBaseUrl baseUrl)] in
    let candidateBases :=
      ifTruthy siteHost
        (fun siteHost =>
           (candidateBases ++ [Some (siteHost ++ lit "/wiki")]) ++ [Some siteHost])
        candidateBases in
    tryCandidates candidateBases [] trimmedUrl.
End WithConfig.

End UrlUtil.

(** ** The inline-comment list formatter
    ([controllers/atlassian.inline-comments.formatter.ts]) *)
Module InlineCommentsFormatter.
Import CommentsController.

(** [Number.prototype.toString] of an integer. *)
Definition numberToString (n : Z) : jsstring :=
  lit (NilZero.string_of_int (Z.to_int n)).

(** [s.split(sep)] for a separator of one character. *)
Fixpoint split (sep : N) (s : jsstring) : list jsstring :=
  match s with
  | [] => [[]]
  | c :: t =>
      if (c =? sep)%N then [] :: split sep t
      else
        match split sep t with
        | w :: ws => (c :: w) :: ws
        | [] => [[c]]
        end
  end.

(** One step of the loop that wraps a long highlighted line: what has been
    pushed so far, and the line being filled. *)
Definition wrapStep (state : list jsstring * jsstring) (word : jsstring)
  : list jsstring * jsstring :=
  let '(pushed, currentLine) := state in
  if 80 <? Z.of_nat (length currentLine) + Z.of_nat (length word) + 1 then
    if truthyStr currentLine
    then (pushed ++ [currentLine], word)
    else (pushed ++ [word], currentLine)
  else
    (pushed, currentLine ++ (if truthyStr currentLine then lit " " else []) ++ word).

(** The lines pushed for one highlighted line longer than 80. *)
Definition wrapLine (line : jsstring) : list jsstring :=
  let words := split 32 line in
  let '(pushed, currentLine) := fold_left wrapStep words ([], []) in
  if truthyStr currentLine then pushed ++ [currentLine] else pushed.

(** The lines pushed for the highlighted text of a comment. *)
Definition highlightedLinesOf (highlightedText : jsstring) : list jsstring :=
  let highlightedLines :=
    filter (fun line => (0 < length line)%nat) (map trim (split 10 highlightedText)) in
  if (0 <? length highlightedLines)%nat then
    flat_map (fun line =>
                if 80 <? Z.of_nat (length line) then wrapLine line else [line])
             highlightedLines
  else [highlightedText].

(** [title.replace(/^Re: /, '')]. *)
Definition stripRe (title : jsstring) : jsstring :=
  if UrlUtil.startsWith title (lit "Re: ") then drop 4 title else title.

(** The announcement of the next window: its start and its size. *)
Definition nextWindow (totalCount start limit shown : Z) : option (Z * Z) :=
  let hasMore := start + shown <? totalCount in
  if hasMore then
    let nextStart := start + limit in
    Some (nextStart, Z.min limit (totalCount - nextStart))
  else None.

(** The announcement of the previous window. *)
Definition previousWindow (start limit : Z) : option (Z * Z) :=
  if 0 <? start then Some (Z.max 0 (start - limit), limit) else None.

Section Formatter.
Context {ADF : Type}.
Variable formatHeading : jsstring -> Z -> jsstring.
Variable formatSeparator : jsstring.
(** [formatDate(new Date())]. *)
Variable formattedNow : jsstring.
Variable ATLASSIAN_SITE_NAME : option jsstring.
(** [comment._links?.webui]. *)
Variable webui : @CommentData ADF -> option jsstring.

Definition pin : jsstring := [55357; 56524]%N.
Definition speech : jsstring := [55357; 56492]%N.
Definition memo : jsstring := [55357; 56541]%N.
Definition link : jsstring := [55357; 56599]%N.

(** The lines pushed for the comment at [index]. *)
Definition commentLines (resolvedBaseUrl : jsstring) (start : Z) (count : nat)
    (index : nat) (item : @CommentWithContext ADF) : list jsstring :=
  let lines := [] in
  let actualIndex := start + Z.of_nat index + 1 in
  let lines :=
    lines ++ [formatHeading (lit "Inline Comment #" ++ numberToString actualIndex) 2] in
  let lines :=
    ifTruthy item.(highlightedText)
      (fun highlightedText =>
         lines ++ [formatHeading (pin ++ lit " Highlighted Text") 3]
               ++ [lit "```"]
               ++ highlightedLinesOf highlightedText
               ++ [lit "```"] ++ [[]])
      (lines ++ [lit "*" ++ pin ++ lit " No highlighted text context available*"]
             ++ [[]]) in
  let lines := lines ++ [formatHeading (speech ++ lit " Comment Details") 3] in
  let lines := lines ++ [lit "**Comment ID:** " ++ item.(comment).(id)] in
  let lines := lines ++ [lit "**Status:** " ++ item.(comment).(status)] in
  let lines := lines ++ [lit "**Title:** " ++ stripRe item.(comment).(title)] in
  let position := (item.(comment).(extensions) ≫= inlineProperties) ≫= markerRef in
  let lines :=
    ifTruthy position
      (fun position => lines ++ [lit "**Position Marker:** " ++ position]) lines in
  let containerId :=
    (item.(comment).(extensions) ≫= inlineProperties) ≫= containerId in
  let lines :=
    ifTruthy containerId
      (fun containerId => lines ++ [lit "**Container:** " ++ containerId]) lines in
  let lines := lines ++ [[]] in
  let lines := lines ++ [formatHeading (memo ++ lit " Comment Content") 3] in
  let lines :=
    lines ++ [orElse (Some item.(convertedMarkdownBody))
                     (lit "*No content available*")] in
  let lines :=
    ifTruthy (webui item.(comment))
      (fun path =>
         let commentUrl :=
           UrlUtil.ensureAbsoluteConfluenceUrl ATLASSIAN_SITE_NAME (Some path)
             (Some resolvedBaseUrl) in
         lines ++ [[]]
               ++ [lit "[" ++ link ++ lit " View comment in Confluence]("
                   ++ commentUrl ++ lit ")"])
      lines in
  let lines :=
    if (Z.of_nat index <? Z.of_nat count - 1)
    then lines ++ [lit (String "010" "") ++ formatSeparator ++ lit (String "010" "")]
    else lines in
  lines.

Definition paginationLines (totalCount start limit : Z) (count : nat)
  : list jsstring :=
  if limit <? totalCount then
    [lit (String "010" (String "010" "")) ++ formatHeading (lit "Pagination") 3]
    ++ match nextWindow totalCount start limit (Z.of_nat count) with
       | Some (nextStart, size) =>
           [lit "*Use `start: " ++ numberToString nextStart
            ++ lit "` to view the next " ++ numberToString size
            ++ lit " inline comments.*"]
       | None => []
       end
    ++ match previousWindow start limit with
       | Some (prevStart, size) =>
           [lit "*Use `start: " ++ numberToString prevStart
            ++ lit "` to view the previous " ++ numberToString size
            ++ lit " inline comments.*"]
       | None => []
       end
  else [].

Definition formatInlineCommentsList (commentsData : list (@CommentWithContext ADF))
    (pageId baseUrl : jsstring) (totalCount start limit : Z) : jsstring :=
  let resolvedBaseUrl :=
    UrlUtil.resolveConfluenceBaseUrl ATLASSIAN_SITE_NAME (Some baseUrl) in
  if (length commentsData =? 0)%nat then
    formatHeading (lit "Inline Comments") 1
    ++ lit (String "010" (String "010" ""))
    ++ lit "No inline comments found for this page."
    ++ lit (String "010" (String "010" ""))
    ++ lit "*Inline comments are comments attached to specific text selections within the page content.*"
    ++ lit (String "010" (String "010" ""))
    ++ formatSeparator
    ++ lit (String "010" "")
    ++ lit "*Information retrieved at: " ++ formattedNow ++ lit "*"
  else
    let count := length commentsData in
    let lines :=
      [formatHeading (lit "Inline Comments") 1;
       lit "Found **" ++ numberToString totalCount
       ++ lit "** inline comment(s) on this page.";
       []] in
    let lines :=
      if (0 <? start) || (Z.of_nat count <? totalCount)
      then lines
           ++ [lit "*Showing " ++ numberToString (start + 1) ++ lit "-"
               ++ numberToString (start + Z.of_nat count) ++ lit " of "
               ++ numberToString totalCount ++ lit " inline comments.*"]
           ++ [[]]
      else lines in
    let lines :=
      lines ++ concat (imap (commentLines resolvedBaseUrl start count) commentsData) in
    let lines := lines ++ paginationLines totalCount start limit count in
    let lines :=
      lines ++ [lit (String "010" (String "010" "")) ++ formatSeparator] in
    let lines := lines ++ [lit "*Information retrieved at: " ++ formattedNow ++ lit "*"] in
    let lines :=
      if truthyStr pageId then
        let pageUrl :=
          UrlUtil.ensureAbsoluteConfluenceUrl ATLASSIAN_SITE_NAME
            (Some (lit "pages/viewpage.action?pageId=" ++ pageId))
            (Some resolvedBaseUrl) in
        lines ++ [lit "*View all content and comments on [this page]("
                  ++ pageUrl ++ lit ")*"]
      else lines in
    join (lit (String "010" "")) lines.
End Formatter.

End InlineCommentsFormatter.

(** * Properties *)

(** ** The clause escaper *)
Section EscaperFacts.
Local Open Scope N_scope.

Ltac ncases :=
  repeat match goal with
    | |- context [N.eqb ?a ?b] => destruct (N.eqb_spec a b)
    | |- context [N.leb ?a ?b] => destruct (N.leb_spec a b)
    | |- context [N.ltb ?a ?b] => destruct (N.ltb_spec a b)
    end.

Lemma slice_strip {A} (a b : A) (m : list A) : slice (a :: m ++ [b]) 1 (-1) = m.
Proof.
  unfold slice, relIndex. cbn [length]. rewrite length_app. cbn [length].
  destruct m as [|x m'].
  - reflexivity.
  - replace (1 <? 0)%Z with false by reflexivity.
    replace (-1 <? 0)%Z with true by reflexivity.
    cbn [length].
    match goal with |- context [(?a <? ?b)%Z] => destruct (Z.ltb_spec a b) end; [|lia].
    replace (Z.to_nat _) with (S (length m')) by lia.
    replace (Z.to_nat _) with 1%nat by lia.
    cbn [drop]. change (x :: m' ++ [b]) with ((x :: m') ++ [b]).
    rewrite drop_0, take_app_length'; [done| simpl; lia].
Qed.

Lemma escapeCqlValue_code_points s :
  escapeCqlValue s = flat_map quoteCodePoint (StringToCodePoints s).
Proof.
  unfold escapeCqlValue, JSON_stringify, QuoteJSONString.
  cbn [app]. apply slice_strip.
Qed.

Lemma escapeCqlValue_nil : escapeCqlValue [] = [].
Proof. reflexivity. Qed.

Lemma escapeCqlValue_single c s :
  isLeadingSurrogate c = false ->
  escapeCqlValue (c :: s) = quoteCodePoint c ++ escapeCqlValue s.
Proof.
  intros Hc. rewrite !escapeCqlValue_code_points.
  cbn [StringToCodePoints]. rewrite Hc. reflexivity.
Qed.

Lemma escapeCqlValue_lone_lead_end c :
  isLeadingSurrogate c = true -> escapeCqlValue [c] = UnicodeEscape c.
Proof.
  intros Hc. rewrite escapeCqlValue_code_points.
  cbn [StringToCodePoints]. rewrite Hc. cbn [flat_map].
  rewrite app_nil_r. unfold quoteCodePoint, singleCharEscape.
  rewrite Hc. revert Hc. unfold isLeadingSurrogate.
  ncases; simpl; intros; try lia; try discriminate; reflexivity.
Qed.

Lemma escapeCqlValue_lone_lead c d s :
  isLeadingSurrogate c = true -> isTrailingSurrogate d = false ->
  escapeCqlValue (c :: d :: s) = UnicodeEscape c ++ escapeCqlValue (d :: s).
Proof.
  intros Hc Hd. rewrite !escapeCqlValue_code_points.
  change (StringToCodePoints (c :: d :: s))
    with (if isLeadingSurrogate c
          then if isTrailingSurrogate d
               then UTF16SurrogatePairToCodePoint c d :: StringToCodePoints s
               else c :: StringToCodePoints (d :: s)
          else c :: StringToCodePoints (d :: s)).
  rewrite Hc, Hd. cbn [flat_map]. f_equal.
  unfold quoteCodePoint, singleCharEscape.
  rewrite Hc. revert Hc. unfold isLeadingSurrogate.
  ncases; simpl; intros; try lia; try discriminate; reflexivity.
Qed.

Lemma quoteCodePoint_pair c d :
  isLeadingSurrogate c = true -> isTrailingSurrogate d = true ->
  quoteCodePoint (UTF16SurrogatePairToCodePoint c d) = [c; d].
Proof.
  unfold isLeadingSurrogate, isTrailingSurrogate. intros Hc Hd.
  apply andb_true_iff in Hc as [Hc1 Hc2]. apply andb_true_iff in Hd as [Hd1 Hd2].
  apply N.leb_le in Hc1, Hc2, Hd1, Hd2.
  unfold quoteCodePoint, singleCharEscape, UTF16SurrogatePairToCodePoint,
    isLeadingSurrogate, isTrailingSurrogate, UTF16EncodeCodePoint.
  set (cp := (c - 55296) * 1024 + (d - 56320) + 65536).
  assert (Hcp : cp - 65536 = (c - 55296) * 1024 + (d - 56320)) by (unfold cp; lia).
  assert (65536 <= cp) by (unfold cp; lia).
  assert (Hq : (cp - 65536) / 1024 = c - 55296).
  { rewrite Hcp. rewrite N.div_add_l by lia. rewrite N.div_small by lia. lia. }
  assert (Hr : (cp - 65536) mod 1024 = d - 56320).
  { rewrite Hcp. rewrite N.add_comm, N.Div0.mod_add. apply N.mod_small. lia. }
  rewrite Hq, Hr.
  ncases; simpl; try lia. f_equal; [lia | f_equal; lia].
Qed.

Lemma escapeCqlValue_pair c d s :
  isLeadingSurrogate c = true -> isTrailingSurrogate d = true ->
  escapeCqlValue (c :: d :: s) = c :: d :: escapeCqlValue s.
Proof.
  intros Hc Hd. rewrite !escapeCqlValue_code_points.
  cbn [StringToCodePoints]. rewrite Hc, Hd. cbn [flat_map].
  rewrite quoteCodePoint_pair by assumption. reflexivity.
Qed.

(** Two-step induction on strings: a step removes one code unit or two. *)
Lemma jsstring_ind2 (P : jsstring -> Prop) :
  P [] ->
  (forall c, P [c]) ->
  (forall c d s, P s -> P (d :: s) -> P (c :: d :: s)) ->
  forall s, P s.
Proof.
  intros Hnil Hone Hstep.
  assert (H : forall s, P s /\ forall c, P (c :: s)).
  { induction s as [|d s [IH1 IH2]].
    - split; [exact Hnil | exact Hone].
    - split; [apply IH2 | intros c; apply Hstep; [exact IH1 | apply IH2]]. }
  intros s. apply H.
Qed.

Lemma quoteCodePoint_ordinary c :
  32 <= c -> c < 65536 ->
  isLeadingSurrogate c = false -> isTrailingSurrogate c = false ->
  quoteCodePoint c = if (c =? 34) || (c =? 92) then [92; c] else [c].
Proof.
  intros Hlo Hhi Hl Ht.
  unfold quoteCodePoint, singleCharEscape, UTF16EncodeCodePoint.
  rewrite Hl, Ht.
  ncases; subst; simpl; try lia; reflexivity.
Qed.

Lemma quoteCodePoint_control c :
  c < 32 \/ isLeadingSurrogate c = true \/ isTrailingSurrogate c = true ->
  quoteCodePoint c =
    match singleCharEscape c with
    | Some e => [92; e]
    | None => UnicodeEscape c
    end.
Proof.
  intros Hc. unfold quoteCodePoint.
  destruct (singleCharEscape c); [reflexivity|].
  destruct Hc as [Hc | [Hc | Hc]].
  - apply N.ltb_lt in Hc. rewrite Hc. reflexivity.
  - rewrite Hc, orb_true_r. reflexivity.
  - rewrite Hc, orb_true_r. reflexivity.
Qed.

Lemma hexValue_hexDigit d : d < 16 -> hexValue (hexDigit d) = Some d.
Proof.
  intros Hd. unfold hexValue, hexDigit.
  ncases; simpl; try lia; f_equal; lia.
Qed.

Lemma hex_digits_sum c :
  c < 65536 ->
  (c / 16 / 16 / 16 mod 16) * 4096 + (c / 16 / 16 mod 16) * 256
  + (c / 16 mod 16) * 16 + c mod 16 = c.
Proof.
  intros Hc.
  pose proof (N.div_mod c 16 ltac:(lia)) as H1.
  pose proof (N.div_mod (c / 16) 16 ltac:(lia)) as H2.
  pose proof (N.div_mod (c / 16 / 16) 16 ltac:(lia)) as H3.
  pose proof (N.div_mod (c / 16 / 16 / 16) 16 ltac:(lia)) as H4.
  pose proof (N.mod_upper_bound c 16 ltac:(lia)).
  pose proof (N.mod_upper_bound (c / 16) 16 ltac:(lia)).
  pose proof (N.mod_upper_bound (c / 16 / 16) 16 ltac:(lia)).
  pose proof (N.mod_upper_bound (c / 16 / 16 / 16) 16 ltac:(lia)).
  generalize dependent (c mod 16). generalize dependent (c / 16 mod 16).
  generalize dependent (c / 16 / 16 mod 16).
  generalize dependent (c / 16 / 16 / 16 mod 16).
  generalize dependent (c / 16 / 16 / 16 / 16).
  generalize dependent (c / 16 / 16 / 16).
  generalize dependent (c / 16 / 16).
  generalize dependent (c / 16).
  intros. lia.
Qed.

Lemma read_UnicodeEscape c rest :
  c < 65536 ->
  readLiteralBody (UnicodeEscape c ++ rest) = cons c <$> readLiteralBody rest.
Proof.
  intros Hc. unfold UnicodeEscape. cbn [app].
  set (h1 := hexDigit _). set (h2 := hexDigit _).
  set (h3 := hexDigit _). set (h4 := hexDigit _).
  change (readLiteralBody (92 :: 117 :: h1 :: h2 :: h3 :: h4 :: rest))
    with (match hex4Value h1 h2 h3 h4 with
          | Some v => cons v <$> readLiteralBody rest
          | None => None
          end).
  unfold hex4Value, h1, h2, h3, h4.
  rewrite !hexValue_hexDigit by (apply N.mod_upper_bound; lia).
  rewrite hex_digits_sum by assumption. reflexivity.
Qed.

Lemma read_ordinary c rest :
  32 <= c -> c <> 34 -> c <> 92 ->
  readLiteralBody (c :: rest) = cons c <$> readLiteralBody rest.
Proof.
  intros H1 H2 H3. cbn [readLiteralBody].
  ncases; try lia. reflexivity.
Qed.

(** A code unit that was quoted on its own reads back as itself. *)
Lemma read_quoteCodePoint c rest :
  c < 65536 ->
  readLiteralBody (quoteCodePoint c ++ rest) = cons c <$> readLiteralBody rest.
Proof.
  intros Hc. unfold quoteCodePoint.
  destruct (singleCharEscape c) as [e|] eqn:He.
  - revert He. unfold singleCharEscape.
    ncases; intros He; inversion He; subst; reflexivity.
  - destruct ((c <? 32) || isLeadingSurrogate c || isTrailingSurrogate c) eqn:Hk.
    + apply read_UnicodeEscape, Hc.
    + apply orb_false_iff in Hk as [Hk _]. apply orb_false_iff in Hk as [Hk _].
      apply N.ltb_ge in Hk.
      unfold UTF16EncodeCodePoint.
      destruct (N.leb_spec c 65535); [|lia].
      cbn [app]. apply read_ordinary; [assumption | |];
        intros ->; discriminate He.
Qed.

Lemma read_back_body s :
  validString s -> readLiteralBody (escapeCqlValue s ++ [34]) = Some s.
Proof.
  induction s as [| c | c d s IHs IHds] using jsstring_ind2; intros Hv.
  - reflexivity.
  - apply Forall_cons in Hv as [Hc _].
    destruct (isLeadingSurrogate c) eqn:Hl.
    + rewrite escapeCqlValue_lone_lead_end by assumption.
      rewrite read_UnicodeEscape by assumption. reflexivity.
    + rewrite escapeCqlValue_single by assumption.
      rewrite <- app_assoc, read_quoteCodePoint by assumption. reflexivity.
  - pose proof Hv as Hv'.
    apply Forall_cons in Hv' as [Hc Hds].
    pose proof Hds as Hds'. apply Forall_cons in Hds' as [Hd Hs].
    destruct (isLeadingSurrogate c) eqn:Hl.
    + destruct (isTrailingSurrogate d) eqn:Ht.
      * rewrite escapeCqlValue_pair by assumption.
        cbn [app].
        unfold isLeadingSurrogate in Hl. unfold isTrailingSurrogate in Ht.
        apply andb_true_iff in Hl as [Hl _]. apply andb_true_iff in Ht as [Ht _].
        apply N.leb_le in Hl, Ht.
        rewrite read_ordinary by lia. rewrite read_ordinary by lia.
        rewrite IHs by assumption. reflexivity.
      * rewrite escapeCqlValue_lone_lead by assumption.
        rewrite <- app_assoc, read_UnicodeEscape by assumption.
        rewrite IHds by assumption. reflexivity.
    + rewrite escapeCqlValue_single by assumption.
      rewrite <- app_assoc, read_quoteCodePoint by assumption.
      rewrite IHds by assumption. reflexivity.
Qed.

Lemma escapeQuotesAndBackslashes_cons c s :
  escapeQuotesAndBackslashes (c :: s)
  = (if (c =? 34) || (c =? 92) then [92; c] else [c]) ++ escapeQuotesAndBackslashes s.
Proof. reflexivity. Qed.

Lemma escapeCqlValue_plain s :
  validString s -> noControl s -> isWellFormed s = true ->
  escapeCqlValue s = escapeQuotesAndBackslashes s.
Proof.
  induction s as [| c | c d s IHs IHds] using jsstring_ind2; intros Hv Hn Hw.
  - reflexivity.
  - apply Forall_cons in Hv as [Hc _]. apply Forall_cons in Hn as [Hlo _].
    cbn [isWellFormed] in Hw.
    destruct (isLeadingSurrogate c) eqn:Hl; [discriminate|].
    apply andb_true_iff in Hw as [Ht _]. apply negb_true_iff in Ht.
    rewrite escapeCqlValue_single by assumption.
    rewrite quoteCodePoint_ordinary by assumption. reflexivity.
  - apply Forall_cons in Hv as [Hc Hds]. apply Forall_cons in Hn as [Hlo Hnds].
    pose proof Hds as Hds'. apply Forall_cons in Hds' as [Hd Hs].
    pose proof Hnds as Hnds'. apply Forall_cons in Hnds' as [Hdlo Hns].
    change (isWellFormed (c :: d :: s))
      with (if isLeadingSurrogate c
            then isTrailingSurrogate d && isWellFormed s
            else negb (isTrailingSurrogate c) && isWellFormed (d :: s)) in Hw.
    destruct (isLeadingSurrogate c) eqn:Hl.
    + apply andb_true_iff in Hw as [Ht Hw].
      rewrite escapeCqlValue_pair by assumption.
      rewrite IHs by assumption.
      rewrite !escapeQuotesAndBackslashes_cons.
      unfold isLeadingSurrogate in Hl. unfold isTrailingSurrogate in Ht.
      apply andb_true_iff in Hl as [Hl _]. apply andb_true_iff in Ht as [Ht _].
      apply N.leb_le in Hl, Ht.
      ncases; try lia. reflexivity.
    + apply andb_true_iff in Hw as [Ht Hw]. apply negb_true_iff in Ht.
      rewrite escapeCqlValue_single by assumption.
      rewrite quoteCodePoint_ordinary by assumption.
      rewrite IHds by assumption. reflexivity.
Qed.

(** C9, as the design document states it, fails: a line feed is not left
    unchanged, it becomes a backslash followed by n. *)
Lemma escapeCqlValue_rewrites_line_feed :
  escapeCqlValue [10] = [92; 110]
  /\ escapeCqlValue [10] <> escapeQuotesAndBackslashes [10].
Proof. split; [reflexivity | discriminate]. Qed.

(** A code unit that is no surrogate is a code point of its own wherever
    it stands. *)
Lemma StringToCodePoints_split (s1 : jsstring) c (s2 : jsstring) :
  isLeadingSurrogate c = false -> isTrailingSurrogate c = false ->
  StringToCodePoints (s1 ++ c :: s2)
  = StringToCodePoints s1 ++ c :: StringToCodePoints s2.
Proof.
  intros Hl Ht.
  induction s1 as [| a | a b s IHs IHbs] using jsstring_ind2.
  - cbn [app StringToCodePoints]. rewrite Hl. reflexivity.
  - cbn [app StringToCodePoints]. rewrite Ht, Hl.
    destruct (isLeadingSurrogate a); reflexivity.
  - change ((a :: b :: s) ++ c :: s2) with (a :: b :: (s ++ c :: s2)).
    change (StringToCodePoints (a :: b :: (s ++ c :: s2)))
      with (if isLeadingSurrogate a
            then if isTrailingSurrogate b
                 then UTF16SurrogatePairToCodePoint a b :: StringToCodePoints (s ++ c :: s2)
                 else a :: StringToCodePoints ((b :: s) ++ c :: s2)
            else a :: StringToCodePoints ((b :: s) ++ c :: s2)).
    change (StringToCodePoints (a :: b :: s))
      with (if isLeadingSurrogate a
            then if isTrailingSurrogate b
                 then UTF16SurrogatePairToCodePoint a b :: StringToCodePoints s
                 else a :: StringToCodePoints (b :: s)
            else a :: StringToCodePoints (b :: s)).
    rewrite IHs, IHbs.
    destruct (isLeadingSurrogate a); [destruct (isTrailingSurrogate b)|]; reflexivity.
Qed.

Lemma escapeCqlValue_split s1 c s2 :
  isLeadingSurrogate c = false -> isTrailingSurrogate c = false ->
  escapeCqlValue (s1 ++ c :: s2)
  = escapeCqlValue s1 ++ quoteCodePoint c ++ escapeCqlValue s2.
Proof.
  intros Hl Ht. rewrite !escapeCqlValue_code_points.
  rewrite StringToCodePoints_split by assumption.
  rewrite flat_map_app. reflexivity.
Qed.

(** Code points are read independently on both sides of a place that
    does not cut a surrogate pair. *)
Lemma StringToCodePoints_app (s1 s2 : jsstring) :
  (forall a, last s1 = Some a -> isLeadingSurrogate a = false)
  \/ (forall d, head s2 = Some d -> isTrailingSurrogate d = false) ->
  StringToCodePoints (s1 ++ s2) = StringToCodePoints s1 ++ StringToCodePoints s2.
Proof.
  induction s1 as [| a | a b s IHs IHbs] using jsstring_ind2; intros Hcut.
  - reflexivity.
  - cbn [app]. destruct (isLeadingSurrogate a) eqn:Ha.
    + destruct Hcut as [Hcut|Hcut]; [rewrite (Hcut a eq_refl) in Ha; discriminate|].
      destruct s2 as [|d s2']; cbn [StringToCodePoints app]; rewrite Ha; [reflexivity|].
      rewrite (Hcut d eq_refl). reflexivity.
    + cbn [StringToCodePoints app]. rewrite Ha. reflexivity.
  - change ((a :: b :: s) ++ s2) with (a :: b :: (s ++ s2)).
    change (StringToCodePoints (a :: b :: (s ++ s2)))
      with (if isLeadingSurrogate a
            then if isTrailingSurrogate b
                 then UTF16SurrogatePairToCodePoint a b :: StringToCodePoints (s ++ s2)
                 else a :: StringToCodePoints ((b :: s) ++ s2)
            else a :: StringToCodePoints ((b :: s) ++ s2)).
    change (StringToCodePoints (a :: b :: s))
      with (if isLeadingSurrogate a
            then if isTrailingSurrogate b
                 then UTF16SurrogatePairToCodePoint a b :: StringToCodePoints s
                 else a :: StringToCodePoints (b :: s)
            else a :: StringToCodePoints (b :: s)).
    assert (Hbs : (forall x, last (b :: s) = Some x -> isLeadingSurrogate x = false)
                  \/ (forall d, head s2 = Some d -> isTrailingSurrogate d = false)).
    { destruct Hcut as [Hcut|Hcut]; [left | right; exact Hcut].
      intros x Hx. apply Hcut. exact Hx. }
    assert (Hs : (forall x, last s = Some x -> isLeadingSurrogate x = false)
                 \/ (forall d, head s2 = Some d -> isTrailingSurrogate d = false)).
    { destruct Hcut as [Hcut|Hcut]; [left | right; exact Hcut].
      intros x Hx. apply Hcut. destruct s as [|y s']; [discriminate | exact Hx]. }
    rewrite (IHs Hs), (IHbs Hbs).
    destruct (isLeadingSurrogate a); [destruct (isTrailingSurrogate b)|]; reflexivity.
Qed.

(** A surrogate without its partner is a code point of its own. *)
Lemma StringToCodePoints_unpaired (c : N) (s2 : jsstring) :
  isTrailingSurrogate c = true
  \/ (isLeadingSurrogate c = true
      /\ forall d, head s2 = Some d -> isTrailingSurrogate d = false) ->
  StringToCodePoints (c :: s2) = c :: StringToCodePoints s2.
Proof.
  intros Hc. cbn [StringToCodePoints].
  destruct (isLeadingSurrogate c) eqn:Hl; [|reflexivity].
  destruct Hc as [Ht | [_ Hnext]].
  - exfalso. revert Hl Ht. unfold isLeadingSurrogate, isTrailingSurrogate.
    ncases; simpl; intros; try lia; discriminate.
  - destruct s2 as [|d s2']; [reflexivity|]. rewrite (Hnext d eq_refl). reflexivity.
Qed.

Lemma UnicodeEscape_of_surrogate c :
  isLeadingSurrogate c = true \/ isTrailingSurrogate c = true ->
  quoteCodePoint c = UnicodeEscape c.
Proof.
  intros Hc.
  rewrite quoteCodePoint_control by (right; exact Hc).
  revert Hc. unfold isLeadingSurrogate, isTrailingSurrogate, singleCharEscape.
  ncases; simpl; intros [Hc|Hc]; try lia; try discriminate; reflexivity.
Qed.

(** C9 (amended): on a string with no control character (below U+0020)
    and no unpaired surrogate the escaper puts a backslash before every
    backslash and every double quote and leaves every other character
    unchanged (no case folding, no trimming); the empty string maps to the
    empty string; a control character, wherever it stands, is rewritten
    to its JSON escape sequence, and so is an unpaired surrogate, wherever
    it stands: a trailing surrogate that no leading surrogate precedes, or
    a leading surrogate that no trailing surrogate follows, is replaced by
    its [\u] escape, between the escaped forms of what precedes it and of
    what follows it. *)
Theorem escapeCqlValue_only_quotes_and_backslashes (s : jsstring) :
  validString s -> noControl s -> isWellFormed s = true ->
  escapeCqlValue s = escapeQuotesAndBackslashes s
  /\ escapeCqlValue [] = []
  /\ (forall s1 c s2,
        c < 32 ->
        escapeCqlValue (s1 ++ c :: s2)
        = escapeCqlValue s1
          ++ match singleCharEscape c with
             | Some e => [92; e]
             | None => UnicodeEscape c
             end
          ++ escapeCqlValue s2)
  /\ (forall s1 c s2,
        (isTrailingSurrogate c = true
         /\ forall a, last s1 = Some a -> isLeadingSurrogate a = false)
        \/ (isLeadingSurrogate c = true
            /\ forall d, head s2 = Some d -> isTrailingSurrogate d = false) ->
        escapeCqlValue (s1 ++ c :: s2)
        = escapeCqlValue s1 ++ UnicodeEscape c ++ escapeCqlValue s2).
Proof.
  intros Hv Hn Hw. split; [apply escapeCqlValue_plain; assumption|].
  split; [reflexivity|]. split.
  - intros s1 c s2 Hc.
    rewrite escapeCqlValue_split.
    + rewrite quoteCodePoint_control by (left; exact Hc). reflexivity.
    + unfold isLeadingSurrogate. ncases; try lia; reflexivity.
    + unfold isTrailingSurrogate. ncases; try lia; reflexivity.
  - intros s1 c s2 Hc. rewrite !escapeCqlValue_code_points.
    assert (Hcut : (forall a, last s1 = Some a -> isLeadingSurrogate a = false)
                   \/ (forall d, head (c :: s2) = Some d ->
                                 isTrailingSurrogate d = false)).
    { destruct Hc as [[_ Hprev] | [Hl _]]; [left; exact Hprev | right].
      intros d [= <-]. revert Hl. unfold isLeadingSurrogate, isTrailingSurrogate.
      ncases; simpl; intros; try lia; try discriminate; reflexivity. }
    rewrite (StringToCodePoints_app s1 (c :: s2) Hcut).
    rewrite StringToCodePoints_unpaired
      by (destruct Hc as [[Ht _] | Hl]; [left; exact Ht | right; exact Hl]).
    rewrite flat_map_app. cbn [flat_map].
    rewrite UnicodeEscape_of_surrogate
      by (destruct Hc as [[Ht _] | [Hl _]]; [right; exact Ht | left; exact Hl]).
    reflexivity.
Qed.

Lemma escapeCqlValue_only_quotes_and_backslashes_witness :
  let s := lit " Say " ++ dq ++ lit "Hi" ++ dq ++ lit " \ " in
  validString s /\ noControl s /\ isWellFormed s = true
  /\ escapeCqlValue s = lit " Say \" ++ dq ++ lit "Hi\" ++ dq ++ lit " \\ "
  /\ escapeCqlValue (lit "a" ++ 55296 :: lit "A")
     = lit "a\ud800A"
  /\ escapeCqlValue (lit "a" ++ 56320 :: lit "A")
     = lit "a\udc00A".
Proof.
  assert (Hv : validString (lit " Say " ++ dq ++ lit "Hi" ++ dq ++ lit " \ "))
    by (unfold validString; repeat constructor).
  assert (Hn : noControl (lit " Say " ++ dq ++ lit "Hi" ++ dq ++ lit " \ "))
    by (unfold noControl; repeat (constructor; [discriminate|]); constructor).
  cbv zeta. split; [exact Hv|]. split; [exact Hn|]. split; [reflexivity|].
  destruct (escapeCqlValue_only_quotes_and_backslashes _ Hv Hn eq_refl)
    as (Hplain & _ & _ & Hlone).
  split; [exact Hplain|]. split.
  - rewrite (Hlone (lit "a") 55296 (lit "A")); [reflexivity|].
    right. split; [reflexivity|]. intros d [= <-]. reflexivity.
  - rewrite (Hlone (lit "a") 56320 (lit "A")); [reflexivity|].
    left. split; [reflexivity|]. intros a [= <-]. reflexivity.
Defined.

(** C7: for every string that holds a double quote or a backslash, the
    escaper's output wrapped in double quotes is a literal whose parsed
    value is the string itself. *)
Theorem escapeCqlValue_round_trip (s : jsstring) :
  validString s -> 34 ∈ s \/ 92 ∈ s ->
  readQuotedLiteral (dq ++ escapeCqlValue s ++ dq) = Some s.
Proof.
  intros Hv _. unfold dq. cbn [app readQuotedLiteral].
  apply read_back_body, Hv.
Qed.

Lemma escapeCqlValue_round_trip_witness :
  let s := lit "A" ++ dq ++ lit "B\" in
  validString s /\ (34 ∈ s \/ 92 ∈ s)
  /\ readQuotedLiteral (dq ++ escapeCqlValue s ++ dq) = Some s.
Proof.
  assert (Hv : validString (lit "A" ++ dq ++ lit "B\"))
    by (unfold validString; repeat constructor).
  assert (Hq : 34 ∈ lit "A" ++ dq ++ lit "B\" \/ 92 ∈ lit "A" ++ dq ++ lit "B\")
    by (left; vm_compute; apply list_elem_of_In; simpl; tauto).
  cbv zeta. split; [exact Hv|]. split; [exact Hq|].
  exact (escapeCqlValue_round_trip _ Hv Hq).
Defined.
End EscaperFacts.

(** ** Joining clauses *)
Section JoinFacts.

Lemma join_cons sep c rest :
  join sep (c :: rest) = c ++ flat_map (fun x => sep ++ x) rest.
Proof.
  revert c. induction rest as [|d rest IH]; intros c.
  - cbn. symmetry. apply app_nil_r.
  - change (join sep (c :: d :: rest)) with (c ++ sep ++ join sep (d :: rest)).
    rewrite IH. cbn [flat_map]. rewrite <- !app_assoc. reflexivity.
Qed.

Lemma fold_left_push {A B} (f : B -> A) (items : list B) (acc : list A) :
  fold_left (fun parts x => parts ++ [f x]) items acc = acc ++ map f items.
Proof.
  revert acc. induction items as [|x items IH]; intros acc; cbn.
  - symmetry. apply app_nil_r.
  - rewrite IH, <- app_assoc. reflexivity.
Qed.

End JoinFacts.

(** ** The query synthesizer of the search controller *)
Section SearchControllerFacts.
Import SearchService SearchController.
Context {Error McpError : Type}.
Variable atlassianSearchService_search : SearchParams -> Error + SearchResponseType.
Variable ensureMcpError : Error -> McpError.
Variable statusCode : McpError -> option Z.
Variable message : McpError -> jsstring.
Variable setMessage : McpError -> jsstring -> McpError.
Variable handleControllerError : McpError -> ErrorContext -> Error.
Variable DEFAULT_PAGE_SIZE : Z.

Lemma ifTruthy_falsy {A} o (thn : jsstring -> A) els :
  truthy o = false -> ifTruthy o thn els = els.
Proof. destruct o as [[|c s]|]; [reflexivity | discriminate | reflexivity]. Qed.

Lemma cqlParts_no_filter options :
  truthy options.(title) = false ->
  truthy options.(spaceKey) = false ->
  options.(labels) = None \/ options.(labels) = Some [] ->
  truthy options.(contentType) = false ->
  truthy options.(query) = false ->
  cqlParts options = [].
Proof.
  intros Ht Hs Hl Hc Hq. unfold cqlParts.
  rewrite !ifTruthy_falsy by assumption.
  destruct Hl as [-> | ->]; reflexivity.
Qed.

(** C3: with no filter field set and no raw override clause the query
    synthesizer returns the empty string, and [search] then answers with
    the advisory text without any call to the search service. *)
Theorem search_without_criteria (options : SearchToolArgsType) :
  options.(cql) = None ->
  truthy options.(title) = false ->
  truthy options.(spaceKey) = false ->
  options.(labels) = None \/ options.(labels) = Some [] ->
  truthy options.(contentType) = false ->
  truthy options.(query) = false ->
  buildCqlQuery options = []
  /\ run (search atlassianSearchService_search ensureMcpError statusCode message
            setMessage handleControllerError DEFAULT_PAGE_SIZE options)
     = ([], inr (Text (lit "Please provide search criteria (CQL, title, space, etc.)."))).
Proof.
  intros Hcql Ht Hs Hl Hc Hq.
  assert (Hbuild : forall o,
             o.(cql) = None -> cqlParts o = [] -> buildCqlQuery o = []).
  { intros o Ho Hparts. unfold buildCqlQuery. rewrite Ho, Hparts. reflexivity. }
  split.
  - apply Hbuild; [assumption | apply cqlParts_no_filter; assumption].
  - unfold run, search, try_catch.
    set (merged := applyDefaults options _).
    assert (Hm : buildCqlQuery merged = []).
    { apply Hbuild.
      - unfold merged, applyDefaults. cbn. rewrite Hcql. reflexivity.
      - apply cqlParts_no_filter; unfold merged, applyDefaults; cbn.
        + destruct options.(title); [assumption | reflexivity].
        + destruct options.(spaceKey); [assumption | reflexivity].
        + destruct Hl as [-> | ->]; [left | right]; reflexivity.
        + destruct options.(contentType); [assumption | reflexivity].
        + destruct options.(query); [assumption | reflexivity]. }
    rewrite Hm. reflexivity.
Qed.

Lemma quotedClause_last field op value :
  last (Grammar.quotedClause field op value) = Some 34%N.
Proof.
  unfold Grammar.quotedClause, dq.
  rewrite !app_assoc. apply last_snoc.
Qed.

Lemma isQuotedClause_last clause :
  Grammar.isQuotedClause clause -> last clause = Some 34%N.
Proof.
  intros [value H].
  destruct H as [-> | [-> | [-> | [-> | ->]]]]; apply quotedClause_last.
Qed.

Lemma ifTruthy_push {A} o (f : jsstring -> A) (acc : list A) :
  ifTruthy o (fun v => acc ++ [f v]) acc = acc ++ ifTruthy o (fun v => [f v]) [].
Proof.
  destruct o as [[|c s]|]; cbn; rewrite ?app_nil_r; reflexivity.
Qed.

(** The clauses of [buildCqlQuery], field by field. *)
Lemma cqlParts_by_field options :
  cqlParts options =
    ifTruthy options.(title)
      (fun v => [Grammar.quotedClause "title" "~" (escapeCqlValue v)]) []
    ++ ifTruthy options.(spaceKey)
         (fun v => [Grammar.quotedClause "space" "=" (escapeCqlValue v)]) []
    ++ map (fun v => Grammar.quotedClause "label" "=" (escapeCqlValue v))
           (default [] options.(labels))
    ++ ifTruthy options.(contentType) (fun v => [Grammar.bareTypeClause v]) []
    ++ ifTruthy options.(query)
         (fun v => [Grammar.quotedClause "text" "~" (escapeCqlValue v)]) [].
Proof.
  unfold cqlParts, SearchController.push.
  rewrite (ifTruthy_push options.(title)
             (fun v => lit "title ~ " ++ dq ++ escapeCqlValue v ++ dq) []).
  cbn [app].
  set (p1 := ifTruthy options.(title) _ _).
  rewrite (ifTruthy_push options.(spaceKey)
             (fun v => lit "space = " ++ dq ++ escapeCqlValue v ++ dq) p1).
  set (p2 := ifTruthy options.(spaceKey) _ _).
  assert (Hl : match options.(labels) with
               | Some (l :: ls) =>
                   fold_left (fun parts label => parts ++ [lit "label = " ++ dq ++ label ++ dq])
                             (map escapeCqlValue (l :: ls)) (p1 ++ p2)
               | _ => p1 ++ p2
               end
               = (p1 ++ p2)
                 ++ map (fun v => Grammar.quotedClause "label" "=" (escapeCqlValue v))
                        (default [] options.(labels))).
  { destruct options.(labels) as [[|l ls]|]; cbn [default]; rewrite ?app_nil_r; try reflexivity.
    rewrite (fold_left_push (fun label => lit "label = " ++ dq ++ label ++ dq)).
    rewrite map_map. reflexivity. }
  rewrite Hl. clear Hl.
  set (p3 := map _ (default [] options.(labels))).
  rewrite (ifTruthy_push options.(contentType) (fun v => lit "type = " ++ v)).
  set (p4 := ifTruthy options.(contentType) _ _).
  rewrite (ifTruthy_push options.(query)
             (fun v => lit "text ~ " ++ dq ++ escapeCqlValue v ++ dq)).
  rewrite <- !app_assoc. reflexivity.
Qed.
End SearchControllerFacts.

(** ** Federated search *)
Section UniversalSearchFacts.
Import SearchService UniversalSearch.
Context {Error McpError : Type}.
Variable atlassianSearchService_search : SearchParams -> Error + SearchResponseType.
Variable ensureMcpError : Error -> McpError.
Variable statusCode : McpError -> option Z.
Variable message : McpError -> jsstring.
Variable setMessage : McpError -> jsstring -> McpError.
Variable handleControllerError : McpError -> ErrorContext -> Error.
Variable completion : UniversalSearchSectionKey -> nat.

#[local] Abbreviation search :=
  (search atlassianSearchService_search ensureMcpError statusCode message
          setMessage handleControllerError completion).

(** The clauses of [buildTypeSpecificCql], part by part. *)
Lemma typeSpecificClauses_by_part type n :
  typeSpecificClauses type n =
    [Grammar.bareTypeClause (SECTION_TO_CQL_TYPE type);
     Grammar.quotedClause "text" "~" (escapeCqlValue n.(n_query))]
    ++ (if bool_decide (type <> spaces)
        then ifTruthy n.(n_spaceKey)
               (fun v => [Grammar.quotedClause "space" "=" (escapeCqlValue v)]) []
        else [])
    ++ (if bool_decide (type = pages) || bool_decide (type = blogPosts)
        then map (fun v => Grammar.quotedClause "label" "=" (escapeCqlValue v))
                 (default [] n.(n_labels))
        else []).
Proof.
  unfold typeSpecificClauses, UniversalSearch.push.
  destruct n.(n_spaceKey) as [[|c s]|]; destruct n.(n_labels) as [ls|];
    cbn [ifTruthy default map];
    repeat case_bool_decide; subst; try discriminate; try congruence;
    cbn [orb app]; rewrite ?fold_left_push; rewrite ?app_nil_r; reflexivity.
Qed.

Lemma searchPromises_run n types log :
  mapM (fun type =>
          let* settled :=
            start (let* results :=
                     executeSearchForType atlassianSearchService_search type n in
                   ret (type, results)) in
          ret (completion type, settled)) types log
  = (log ++ map (fun type => searchParamsFor type n) types,
     inr (map (fun type => (completion type, outcomeOf atlassianSearchService_search n type)) types)).
Proof.
  revert log. induction types as [|type types IH]; intros log.
  - cbn. rewrite app_nil_r. reflexivity.
  - cbn [mapM map]. unfold bind at 1.
    unfold bind at 1. unfold start at 1. unfold bind at 1.
    unfold executeSearchForType at 1. unfold bind at 1. unfold perform at 1.
    unfold outcomeOf at 1.
    destruct (atlassianSearchService_search (searchParamsFor type n)) as [e|r];
      cbn; unfold bind at 1; rewrite IH; cbn; rewrite <- app_assoc; reflexivity.
Qed.

#[local] Abbreviation surfaced :=
  (surfacedError ensureMcpError statusCode message setMessage handleControllerError).

#[local] Abbreviation promisesOf n :=
  (map (fun type => (completion type, outcomeOf atlassianSearchService_search n type))
       (includedTypesOf n)).

Lemma query_guard options :
  (normalizeOptions options).(n_query) <> [] ->
  negb (truthy options.(query))
  || (length (from_option trim [] options.(query)) =? 0)%nat = false.
Proof.
  cbn [n_query normalizeOptions]. intros Hq.
  destruct options.(query) as [q|]; cbn [from_option truthy] in *; [|done].
  destruct q as [|c q]; [done|]. cbn [truthyStr negb orb].
  destruct (trim (c :: q)); [done | reflexivity].
Qed.

(** What [search] does once the query is there: one call per enabled
    category, in order, and then an advisory text, the first rejection, or
    the formatter input. *)
Lemma search_run options :
  let n := normalizeOptions options in
  n.(n_query) <> [] ->
  run (search options)
  = (map (fun type => searchParamsFor type n) (includedTypesOf n),
     if (length (includedTypesOf n) =? 0)%nat
     then inr (Text (lit "No content types selected. Enable at least one type (pages, spaces, blog posts, attachments, or comments)."))
     else
       match firstRejection (promisesOf n) with
       | Some (_, e) => inl (surfaced options e)
       | None =>
           inr (Formatted
                  {| f_query := n.(n_query);
                     f_spaceKey := n.(n_spaceKey);
                     f_labels := n.(n_labels);
                     f_limitPerType := n.(n_limitPerType);
                     f_includedTypes := includedTypesOf n;
                     f_results :=
                       fold_left (fun byType '(type, results) => <[type := results]> byType)
                                 (fulfilled (promisesOf n)) emptyResultsByType |})
       end).
Proof.
  intros n Hq. unfold run, UniversalSearch.search.
  rewrite query_guard by assumption.
  unfold try_catch. fold n.
  destruct (length (includedTypesOf n) =? 0)%nat eqn:Hlen.
  - apply Nat.eqb_eq in Hlen. apply nil_length_inv in Hlen.
    rewrite Hlen. reflexivity.
  - unfold bind at 1. rewrite searchPromises_run. cbn [app].
    unfold bind at 1. unfold Promise_all.
    destruct (firstRejection (promisesOf n)) as [[t e]|]; reflexivity.
Qed.

Lemma firstRejection_elem {A} (ps : list (nat * (Error + A))) t e :
  firstRejection ps = Some (t, e) -> (t, inl e) ∈ ps.
Proof.
  revert t e. induction ps as [|[t0 [e0|a]] ps IH]; intros t e; cbn [firstRejection].
  - discriminate.
  - destruct (firstRejection ps) as [[t' e']|].
    + destruct (t' <? t0)%nat; intros [= <- <-]; [right; apply IH; reflexivity | left].
    + intros [= <- <-]. left.
  - intros H. right. apply IH, H.
Qed.

Lemma firstRejection_None {A} (ps : list (nat * (Error + A))) :
  firstRejection ps = None -> forall t e, (t, inl e) ∉ ps.
Proof.
  induction ps as [|[t0 [e0|a]] ps IH]; cbn [firstRejection]; intros H t e Hin.
  - inversion Hin.
  - destruct (firstRejection ps) as [[t' e']|]; [destruct (t' <? t0)%nat|]; discriminate.
  - apply elem_of_cons in Hin as [Hin | Hin]; [discriminate|].
    exact (IH H t e Hin).
Qed.

Lemma firstRejection_all_fulfilled {A} (ps : list (nat * (Error + A))) :
  (forall t e, (t, inl e) ∉ ps) -> firstRejection ps = None.
Proof.
  intros H. destruct (firstRejection ps) as [[t e]|] eqn:Hr; [|reflexivity].
  apply firstRejection_elem in Hr. destruct (H t e Hr).
Qed.

Lemma promisesOf_rejection n t e :
  (t, inl e) ∈ promisesOf n ->
  exists type, type ∈ includedTypesOf n
               /\ atlassianSearchService_search (searchParamsFor type n) = inl e.
Proof.
  intros Hin. apply list_elem_of_fmap in Hin as (type & Heq & Hin).
  exists type. split; [assumption|].
  inversion Heq as [[Ht He]]. unfold outcomeOf in He.
  destruct (atlassianSearchService_search (searchParamsFor type n)); congruence.
Qed.

(** C5: when the call of at least one enabled category fails, the whole
    search fails with one surfaced error, built from the rejection of a
    category that failed; no result map is produced, whatever the other
    categories returned. *)
Theorem failed_category_fails_search (options : UniversalSearchToolArgsType)
    (failing : UniversalSearchSectionKey) (cause : Error) :
  let n := normalizeOptions options in
  n.(n_query) <> [] ->
  failing ∈ includedTypesOf n ->
  atlassianSearchService_search (searchParamsFor failing n) = inl cause ->
  exists type e,
    type ∈ includedTypesOf n
    /\ atlassianSearchService_search (searchParamsFor type n) = inl e
    /\ snd (run (search options)) = inl (surfaced options e).
Proof.
  intros n Hq Hin Hfail.
  rewrite (search_run options Hq). cbn [snd]. fold n.
  destruct (length (includedTypesOf n) =? 0)%nat eqn:Hlen.
  { apply Nat.eqb_eq, nil_length_inv in Hlen. rewrite Hlen in Hin. inversion Hin. }
  destruct (firstRejection (promisesOf n)) as [[t e]|] eqn:Hr.
  - apply firstRejection_elem, promisesOf_rejection in Hr as (type & Htype & He).
    exists type, e. auto.
  - exfalso. apply (firstRejection_None _ Hr (completion failing) cause).
    apply list_elem_of_fmap. exists failing. split; [|assumption].
    unfold outcomeOf. rewrite Hfail. reflexivity.
Qed.

Lemma fulfilled_all n :
  (forall type, type ∈ includedTypesOf n ->
                exists r, atlassianSearchService_search (searchParamsFor type n) = inr r) ->
  firstRejection (promisesOf n) = None
  /\ fulfilled (promisesOf n)
     = map (fun type =>
              (type,
               match atlassianSearchService_search (searchParamsFor type n) with
               | inr r => r.(results)
               | inl _ => []
               end)) (includedTypesOf n).
Proof.
  intros Hall. split.
  - apply firstRejection_all_fulfilled. intros t e Hin.
    apply promisesOf_rejection in Hin as (type & Htype & He).
    destruct (Hall type Htype) as [r Hr]. congruence.
  - unfold fulfilled. induction (includedTypesOf n) as [|type types IH]; [reflexivity|].
    cbn [map omap]. unfold outcomeOf at 1.
    destruct (Hall type) as [r Hr]; [left|]. rewrite Hr. cbn.
    f_equal. apply IH. intros type' Hin. apply Hall. right. assumption.
Qed.

Lemma assigned_lookup {R} (f : UniversalSearchSectionKey -> list R) types
    (byType : gmap UniversalSearchSectionKey (list R)) key :
  fold_left (fun byType '(type, results) => <[type := results]> byType)
            (map (fun type => (type, f type)) types) byType !! key
  = if decide (key ∈ types) then Some (f key) else byType !! key.
Proof.
  revert byType. induction types as [|type types IH]; intros byType.
  - cbn. case_decide as H; [inversion H | reflexivity].
  - cbn [map fold_left]. rewrite IH.
    destruct (decide (key ∈ types)) as [Hin|Hnin].
    + rewrite decide_True by (right; assumption). reflexivity.
    + destruct (decide (key = type)) as [->|Hne].
      * rewrite lookup_insert_eq. rewrite decide_True by left. reflexivity.
      * rewrite lookup_insert_ne by congruence.
        rewrite decide_False; [reflexivity|].
        intros H. apply elem_of_cons in H as [H|H]; contradiction.
Qed.

Lemma emptyResultsByType_lookup key :
  (emptyResultsByType : gmap _ (list SearchResultType)) !! key = Some [].
Proof. unfold emptyResultsByType. destruct key; simplify_map_eq; reflexivity. Qed.

(** C6: a federated search whose calls all succeed produces a map with
    all five category keys: an enabled category holds the results of its
    call, every other category holds the empty sequence, and no key is
    absent. *)
Theorem category_result_map_is_total (options : UniversalSearchToolArgsType) :
  let n := normalizeOptions options in
  n.(n_query) <> [] ->
  includedTypesOf n <> [] ->
  (forall type, type ∈ includedTypesOf n ->
                exists r, atlassianSearchService_search (searchParamsFor type n) = inr r) ->
  exists input,
    snd (run (search options)) = inr (Formatted input)
    /\ dom input.(f_results) = {[spaces; pages; blogPosts; attachments; comments]}
    /\ forall key,
         (key ∈ includedTypesOf n ->
          exists r, atlassianSearchService_search (searchParamsFor key n) = inr r
                    /\ input.(f_results) !! key = Some r.(results))
         /\ (key ∉ includedTypesOf n -> input.(f_results) !! key = Some []).
Proof.
  intros n Hq Hne Hall.
  rewrite (search_run options Hq). cbn [snd]. fold n.
  destruct (length (includedTypesOf n) =? 0)%nat eqn:Hlen.
  { apply Nat.eqb_eq, nil_length_inv in Hlen. contradiction. }
  destruct (fulfilled_all n Hall) as [Hnone Hful].
  rewrite Hnone, Hful.
  eexists. split; [reflexivity|]. cbn [f_results].
  assert (Hlookup : forall key,
             (key ∈ includedTypesOf n ->
              exists r, atlassianSearchService_search (searchParamsFor key n) = inr r
                        /\ fold_left (fun byType '(type, results) => <[type := results]> byType)
                             (map (fun type =>
                                     (type,
                                      match atlassianSearchService_search (searchParamsFor type n) with
                                      | inr r => r.(results)
                                      | inl _ => []
                                      end)) (includedTypesOf n))
                             emptyResultsByType !! key = Some r.(results))
             /\ (key ∉ includedTypesOf n ->
                 fold_left (fun byType '(type, results) => <[type := results]> byType)
                   (map (fun type =>
                           (type,
                            match atlassianSearchService_search (searchParamsFor type n) with
                            | inr r => r.(results)
                            | inl _ => []
                            end)) (includedTypesOf n))
                   emptyResultsByType !! key = Some [])).
  { intros key. rewrite assigned_lookup. split; intros Hkey.
    - destruct (Hall key Hkey) as [r Hr]. exists r. split; [assumption|].
      rewrite decide_True by assumption. rewrite Hr. reflexivity.
    - rewrite decide_False by assumption. apply emptyResultsByType_lookup. }
  split; [|exact Hlookup].
  apply set_eq. intros key. split; intros _.
  - destruct key; set_solver.
  - apply elem_of_dom. destruct (decide (key ∈ includedTypesOf n)) as [Hk|Hk].
    + destruct (proj1 (Hlookup key) Hk) as (r & _ & ->). eauto.
    + rewrite (proj2 (Hlookup key) Hk). eauto.
Qed.

Lemma flat_map_map {A B C} (f : B -> list C) (g : A -> B) (l : list A) :
  flat_map f (map g l) = flat_map (fun x => f (g x)) l.
Proof. induction l as [|x l IH]; cbn; [reflexivity | rewrite IH; reflexivity]. Qed.

Lemma buildTypeSpecificCql_text type n :
  buildTypeSpecificCql type n
  = lit "type = " ++ SECTION_TO_CQL_TYPE type
    ++ lit " AND text ~ " ++ dq ++ escapeCqlValue n.(n_query) ++ dq
    ++ (if bool_decide (type <> spaces)
        then ifTruthy n.(n_spaceKey)
               (fun spaceKey => lit " AND space = " ++ dq ++ escapeCqlValue spaceKey ++ dq)
               []
        else [])
    ++ (if bool_decide (type = pages) || bool_decide (type = blogPosts)
        then flat_map
               (fun label => lit " AND label = " ++ dq ++ escapeCqlValue label ++ dq)
               (default [] n.(n_labels))
        else []).
Proof.
  unfold buildTypeSpecificCql. rewrite typeSpecificClauses_by_part.
  cbn [app]. rewrite join_cons. cbn [flat_map].
  rewrite flat_map_app.
  unfold Grammar.bareTypeClause. rewrite <- !app_assoc. f_equal. f_equal.
  assert (Htext : lit " AND " ++ Grammar.quotedClause "text" "~" (escapeCqlValue n.(n_query))
                  = lit " AND text ~ " ++ dq ++ escapeCqlValue n.(n_query) ++ dq)
    by reflexivity.
  rewrite app_assoc, Htext, <- !app_assoc. do 4 f_equal.
  f_equal.
  - destruct (bool_decide (type <> spaces)); [|reflexivity].
    destruct n.(n_spaceKey) as [[|c s]|]; cbn [ifTruthy flat_map]; try reflexivity.
    rewrite app_nil_r. reflexivity.
  - destruct (bool_decide (type = pages) || bool_decide (type = blogPosts));
      [|reflexivity].
    rewrite flat_map_map. reflexivity.
Qed.

(** C1: in a federated search with a non-empty query, the query string
    sent for every enabled category is the type clause, then the text
    clause, then the space clause when a space filter is given and the
    category is not spaces, then one label clause per label when labels are
    given and the category is pages or blog posts, all joined by AND in
    that order. *)
Theorem category_scoped_query (options : UniversalSearchToolArgsType)
    (type : UniversalSearchSectionKey) :
  let n := normalizeOptions options in
  n.(n_query) <> [] ->
  type ∈ includedTypesOf n ->
  searchParamsFor type n ∈ fst (run (search options))
  /\ (searchParamsFor type n).(cql)
     = lit "type = " ++ SECTION_TO_CQL_TYPE type
       ++ lit " AND text ~ " ++ dq ++ escapeCqlValue n.(n_query) ++ dq
       ++ (if bool_decide (type <> spaces)
           then ifTruthy n.(n_spaceKey)
                  (fun spaceKey =>
                     lit " AND space = " ++ dq ++ escapeCqlValue spaceKey ++ dq)
                  []
           else [])
       ++ (if bool_decide (type = pages) || bool_decide (type = blogPosts)
           then flat_map
                  (fun label => lit " AND label = " ++ dq ++ escapeCqlValue label ++ dq)
                  (default [] n.(n_labels))
           else []).
Proof.
  intros n Hq Hin. split.
  - rewrite (search_run options Hq). cbn [fst]. fold n.
    apply list_elem_of_fmap. exists type. split; [reflexivity | assumption].
  - cbn [cql searchParamsFor]. apply buildTypeSpecificCql_text.
Qed.
End UniversalSearchFacts.

(** ** The form of the synthesized clauses *)
Section ClauseFormFacts.
Import SearchController UniversalSearch.

Lemma ifTruthy_Forall {A} (P : A -> Prop) o (f : jsstring -> A) :
  (forall v, P (f v)) -> Forall P (ifTruthy o (fun v => [f v]) []).
Proof.
  intros H. destruct o as [[|c s]|]; cbn [ifTruthy]; [constructor | | constructor].
  apply Forall_cons. split; [apply H | constructor].
Qed.

(** C8, as the design document states it, fails: the content-type clause
    of both synthesizers carries a bare value, not a quoted one. *)
Lemma content_type_clause_is_not_quoted :
  cqlParts Fixtures.pagesByType = [lit "type = page"]
  /\ ~ Forall Grammar.isQuotedClause (cqlParts Fixtures.pagesByType)
  /\ ~ Forall Grammar.isQuotedClause
         (typeSpecificClauses pages (normalizeOptions Fixtures.designInPages)).
Proof.
  split; [reflexivity|]. split; intros H.
  - apply Forall_cons in H as [H _].
    apply isQuotedClause_last in H. discriminate H.
  - apply Forall_cons in H as [H _].
    apply isQuotedClause_last in H. discriminate H.
Qed.

(** C8 (amended): every clause emitted by the two query synthesizers is a
    quoted clause [field OP value] with [~] for title and free text and
    [=] for space and label, except the content-type clause, which is
    [type = value] with the value bare: the caller's content type in
    [buildCqlQuery], the category literal in [buildTypeSpecificCql]. *)
Theorem synthesized_clause_forms (options : SearchToolArgsType)
    (type : UniversalSearchSectionKey) (n : NormalizedUniversalOptions) :
  Forall (fun clause =>
            Grammar.isQuotedFilterClause clause
            \/ exists value, options.(contentType) = Some value
                             /\ clause = Grammar.bareTypeClause value)
         (cqlParts options)
  /\ Forall (fun clause =>
               Grammar.isQuotedFilterClause clause
               \/ clause = Grammar.bareTypeClause (SECTION_TO_CQL_TYPE type))
            (typeSpecificClauses type n).
Proof.
  split.
  - rewrite cqlParts_by_field. repeat apply Forall_app_2.
    + apply ifTruthy_Forall. intros v. left. exists (escapeCqlValue v). tauto.
    + apply ifTruthy_Forall. intros v. left. exists (escapeCqlValue v). tauto.
    + apply Forall_forall. intros clause Hin.
      apply list_elem_of_fmap in Hin as (v & -> & _).
      left. exists (escapeCqlValue v). tauto.
    + destruct options.(contentType) as [[|c s]|]; cbn [ifTruthy];
        [constructor | | constructor].
      apply Forall_cons. split; [|constructor].
      right. exists (c :: s). split; reflexivity.
    + apply ifTruthy_Forall. intros v. left. exists (escapeCqlValue v). tauto.
  - rewrite typeSpecificClauses_by_part. repeat apply Forall_app_2.
    + apply Forall_cons. split; [right; reflexivity|].
      apply Forall_cons. split; [|constructor].
      left. exists (escapeCqlValue n.(n_query)). tauto.
    + destruct (bool_decide (type <> spaces)); [|constructor].
      apply ifTruthy_Forall. intros v. left. exists (escapeCqlValue v). tauto.
    + destruct (bool_decide (type = pages) || bool_decide (type = blogPosts));
        [|constructor].
      apply Forall_forall. intros clause Hin.
      apply list_elem_of_fmap in Hin as (v & -> & _).
      left. exists (escapeCqlValue v). tauto.
Qed.
End ClauseFormFacts.

(** ** The statements above on sample requests *)

Lemma search_without_criteria_witness :
  let options := Fixtures.noCriteria in
  SearchController.cql options = None
  /\ truthy (SearchController.title options) = false
  /\ truthy (SearchController.spaceKey options) = false
  /\ (SearchController.labels options = None \/ SearchController.labels options = Some [])
  /\ truthy (SearchController.contentType options) = false
  /\ truthy (SearchController.query options) = false
  /\ SearchController.buildCqlQuery options = []
  /\ run (SearchController.search Fixtures.searchFindsOne Fixtures.ensureMcpError
            Fixtures.statusCode Fixtures.message Fixtures.setMessage
            Fixtures.handleControllerError 25 options)
     = ([], inr (SearchController.Text
                   (lit "Please provide search criteria (CQL, title, space, etc.)."))).
Proof.
  cbv zeta.
  split; [reflexivity|]. split; [reflexivity|]. split; [reflexivity|].
  split; [left; reflexivity|]. split; [reflexivity|]. split; [reflexivity|].
  exact (search_without_criteria Fixtures.searchFindsOne Fixtures.ensureMcpError
           Fixtures.statusCode Fixtures.message Fixtures.setMessage
           Fixtures.handleControllerError 25 Fixtures.noCriteria
           eq_refl eq_refl eq_refl (or_introl eq_refl) eq_refl eq_refl).
Defined.

Lemma category_scoped_query_witness :
  let n := UniversalSearch.normalizeOptions Fixtures.designEverywhere in
  UniversalSearch.n_query n <> []
  /\ UniversalSearch.pages ∈ UniversalSearch.includedTypesOf n
  /\ UniversalSearch.searchParamsFor UniversalSearch.pages n
     ∈ fst (run (UniversalSearch.search Fixtures.searchFindsOne Fixtures.ensureMcpError
                   Fixtures.statusCode Fixtures.message Fixtures.setMessage
                   Fixtures.handleControllerError UniversalSearch.sectionIndex
                   Fixtures.designEverywhere))
  /\ SearchService.cql (UniversalSearch.searchParamsFor UniversalSearch.pages n)
     = lit "type = page AND text ~ " ++ dq ++ lit "design" ++ dq
       ++ lit " AND space = " ++ dq ++ lit "DEV" ++ dq
       ++ lit " AND label = " ++ dq ++ lit "howto" ++ dq
       ++ lit " AND label = " ++ dq ++ lit "draft" ++ dq.
Proof.
  cbv zeta.
  assert (Hq : UniversalSearch.n_query
                 (UniversalSearch.normalizeOptions Fixtures.designEverywhere) <> [])
    by (vm_compute; discriminate).
  assert (Hin : UniversalSearch.pages
                ∈ UniversalSearch.includedTypesOf
                    (UniversalSearch.normalizeOptions Fixtures.designEverywhere))
    by (apply list_elem_of_In; vm_compute; tauto).
  split; [exact Hq|]. split; [exact Hin|].
  pose proof (category_scoped_query Fixtures.searchFindsOne Fixtures.ensureMcpError
                Fixtures.statusCode Fixtures.message Fixtures.setMessage
                Fixtures.handleControllerError UniversalSearch.sectionIndex
                Fixtures.designEverywhere UniversalSearch.pages Hq Hin) as [Hcall Hcql].
  split; [exact Hcall|].
  rewrite Hcql. reflexivity.
Defined.

Lemma failed_category_fails_search_witness :
  let n := UniversalSearch.normalizeOptions Fixtures.designEverywhere in
  UniversalSearch.n_query n <> []
  /\ UniversalSearch.comments ∈ UniversalSearch.includedTypesOf n
  /\ Fixtures.searchCommentsDown
       (UniversalSearch.searchParamsFor UniversalSearch.comments n)
     = inl (lit "comments unavailable")
  /\ exists type e,
       type ∈ UniversalSearch.includedTypesOf n
       /\ Fixtures.searchCommentsDown (UniversalSearch.searchParamsFor type n) = inl e
       /\ snd (run (UniversalSearch.search Fixtures.searchCommentsDown
                      Fixtures.ensureMcpError Fixtures.statusCode Fixtures.message
                      Fixtures.setMessage Fixtures.handleControllerError
                      UniversalSearch.sectionIndex Fixtures.designEverywhere))
          = inl (UniversalSearch.surfacedError Fixtures.ensureMcpError
                   Fixtures.statusCode Fixtures.message Fixtures.setMessage
                   Fixtures.handleControllerError Fixtures.designEverywhere e).
Proof.
  cbv zeta.
  assert (Hq : UniversalSearch.n_query
                 (UniversalSearch.normalizeOptions Fixtures.designEverywhere) <> [])
    by (vm_compute; discriminate).
  assert (Hin : UniversalSearch.comments
                ∈ UniversalSearch.includedTypesOf
                    (UniversalSearch.normalizeOptions Fixtures.designEverywhere))
    by (apply list_elem_of_In; vm_compute; tauto).
  assert (Hdown : Fixtures.searchCommentsDown
                    (UniversalSearch.searchParamsFor UniversalSearch.comments
                       (UniversalSearch.normalizeOptions Fixtures.designEverywhere))
                  = inl (lit "comments unavailable"))
    by (vm_compute; reflexivity).
  split; [exact Hq|]. split; [exact Hin|]. split; [exact Hdown|].
  exact (failed_category_fails_search Fixtures.searchCommentsDown
           Fixtures.ensureMcpError Fixtures.statusCode Fixtures.message
           Fixtures.setMessage Fixtures.handleControllerError
           UniversalSearch.sectionIndex Fixtures.designEverywhere
           UniversalSearch.comments (lit "comments unavailable") Hq Hin Hdown).
Defined.

Lemma category_result_map_is_total_witness :
  let n := UniversalSearch.normalizeOptions Fixtures.designInPages in
  UniversalSearch.n_query n <> []
  /\ UniversalSearch.includedTypesOf n = [UniversalSearch.pages]
  /\ exists input,
       snd (run (UniversalSearch.search Fixtures.searchFindsOne Fixtures.ensureMcpError
                   Fixtures.statusCode Fixtures.message Fixtures.setMessage
                   Fixtures.handleControllerError UniversalSearch.sectionIndex
                   Fixtures.designInPages))
       = inr (UniversalSearch.Formatted input)
       /\ UniversalSearch.f_results input !! UniversalSearch.pages = Some [Fixtures.hit]
       /\ UniversalSearch.f_results input !! UniversalSearch.spaces = Some []
       /\ UniversalSearch.f_results input !! UniversalSearch.blogPosts = Some []
       /\ UniversalSearch.f_results input !! UniversalSearch.attachments = Some []
       /\ UniversalSearch.f_results input !! UniversalSearch.comments = Some [].
Proof.
  cbv zeta.
  assert (Hq : UniversalSearch.n_query
                 (UniversalSearch.normalizeOptions Fixtures.designInPages) <> [])
    by (vm_compute; discriminate).
  assert (Hinc : UniversalSearch.includedTypesOf
                   (UniversalSearch.normalizeOptions Fixtures.designInPages)
                 = [UniversalSearch.pages]) by reflexivity.
  split; [exact Hq|]. split; [exact Hinc|].
  destruct (category_result_map_is_total Fixtures.searchFindsOne Fixtures.ensureMcpError
              Fixtures.statusCode Fixtures.message Fixtures.setMessage
              Fixtures.handleControllerError UniversalSearch.sectionIndex
              Fixtures.designInPages Hq
              ltac:(rewrite Hinc; discriminate)
              ltac:(intros type _; eexists; reflexivity))
    as (input & Hrun & _ & Hkeys).
  exists input. split; [exact Hrun|].
  assert (Hout : forall key, key <> UniversalSearch.pages ->
                   UniversalSearch.f_results input !! key = Some []).
  { intros key Hne. apply (Hkeys key). rewrite Hinc.
    intros H. apply list_elem_of_singleton in H. contradiction. }
  split.
  - destruct (proj1 (Hkeys UniversalSearch.pages)) as (r & Hr & Hl).
    + rewrite Hinc. left.
    + rewrite Hl. injection Hr as <-. reflexivity.
  - repeat split; apply Hout; discriminate.
Defined.

(** ** Hybrid title lookup *)
Section PagesServiceFacts.
Import SearchService PagesService.
Context {Error ZodError Credentials RawData : Type}.
Variable getAtlassianCredentials : option Credentials.
Variable ATLASSIAN_SITE_REQUIRED_MESSAGE : jsstring.
Variable createAuthMissingError : jsstring -> Error.
Variable createApiError : jsstring -> Z -> ZodError -> Error.
Variable fetchAtlassian : Credentials -> jsstring -> Error + RawData.
Variable PagesResponseSchema_parse : RawData -> ZodError + PagesResponse.
Variable ZodError_message : ZodError -> jsstring.
Variable atlassianSearchService_search : SearchParams -> Error + SearchResponseType.
Variable atlassianSpacesService_list : SpacesListParams -> Error + SpacesResponse.
Variable URLSearchParams_toString : Datatypes.list (jsstring * jsstring) -> jsstring.
Variable Number_toString : Z -> jsstring.
Variable now : jsstring.

#[local] Abbreviation list :=
  (list getAtlassianCredentials ATLASSIAN_SITE_REQUIRED_MESSAGE createAuthMissingError
        createApiError fetchAtlassian PagesResponseSchema_parse ZodError_message
        atlassianSearchService_search atlassianSpacesService_list
        URLSearchParams_toString Number_toString now).

#[local] Abbreviation pagesPath := (pagesPath URLSearchParams_toString Number_toString).

(** C4: a request that carries a pagination token only ever calls the
    pages endpoint, and when that call succeeds its validated page is the
    result, unchanged, also when it holds no record: no fallback query is
    executed. *)
Theorem paged_request_never_falls_back (params : ListPagesParams) :
  truthy params.(cursor) = true ->
  (forall call, call ∈ fst (run (list params)) ->
                call = FetchAtlassian (pagesPath params))
  /\ (forall credentials rawData validatedData,
        getAtlassianCredentials = Some credentials ->
        fetchAtlassian credentials (pagesPath params) = inr rawData ->
        PagesResponseSchema_parse rawData = inr validatedData ->
        run (list params) = ([FetchAtlassian (pagesPath params)], inr validatedData)).
Proof.
  intros Hcursor. unfold run, PagesService.list. split.
  - intros call.
    destruct getAtlassianCredentials as [credentials|]; [|intros H; inversion H].
    unfold try_catch, bind, perform. cbn [app].
    destruct (fetchAtlassian credentials (pagesPath params)) as [e|rawData].
    + cbn. intros H. apply list_elem_of_singleton in H. exact H.
    + destruct (PagesResponseSchema_parse rawData) as [z|validatedData].
      * cbn. intros H. apply list_elem_of_singleton in H. exact H.
      * rewrite Hcursor. cbn [negb]. rewrite andb_false_r.
        cbn. intros H. apply list_elem_of_singleton in H. exact H.
  - intros credentials rawData validatedData -> Hfetch Hparse.
    unfold try_catch, bind, perform. cbn [app].
    rewrite Hfetch, Hparse, Hcursor. cbn [negb]. rewrite andb_false_r.
    reflexivity.
Qed.

(** The fallback of a first-page request by title alone (no space filter)
    whose exact lookup found nothing: the one search call it makes. *)
Lemma fallback_query params credentials rawData validatedData title :
  getAtlassianCredentials = Some credentials ->
  fetchAtlassian credentials (pagesPath params) = inr rawData ->
  PagesResponseSchema_parse rawData = inr validatedData ->
  validatedData.(p_results) = [] ->
  params.(PagesService.title) = Some title -> title <> [] ->
  truthy params.(PagesService.cursor) = false ->
  nonEmptyArray params.(spaceId) = false ->
  exists limit,
    fst (run (list params))
    = [FetchAtlassian (pagesPath params);
       Search {| cql := lit "title ~ " ++ dq ++ title ++ lit "*" ++ dq
                        ++ lit " AND type = " ++ dq ++ lit "page" ++ dq;
                 SearchService.limit := Some limit;
                 SearchService.cursor := None;
                 excerpt := None;
                 includeArchivedSpaces := None |}].
Proof.
  intros -> Hfetch Hparse Hempty Htitle Hne Hcursor Hspace.
  eexists. unfold run, PagesService.list, try_catch at 1, bind at 1, perform at 1.
  cbn [app]. rewrite Hfetch, Hparse, Hempty, Htitle, Hcursor.
  destruct title as [|c title]; [contradiction|].
  cbn [truthy truthyStr length Nat.eqb negb andb].
  unfold bind at 1. unfold tryPartialTitleSearch.
  rewrite Hspace. unfold bind at 1. unfold ret at 1.
  unfold titleClause. rewrite Htitle. cbn [ifTruthy PagesService.push app].
  unfold try_catch, bind, perform.
  match goal with
  | |- context [atlassianSearchService_search ?p] =>
      destruct (atlassianSearchService_search p)
  end.
  - cbn. rewrite <- !app_assoc. reflexivity.
  - cbn [ret]. match goal with |- context [(0 <? ?n)%nat] => destruct (0 <? n)%nat end;
      cbn; rewrite <- !app_assoc; reflexivity.
Qed.
End PagesServiceFacts.

Section PagesServiceSamples.
Import SearchService PagesService.

#[local] Abbreviation sampleList :=
  (PagesService.list Fixtures.credentials [] Fixtures.authMissing Fixtures.apiError
     Fixtures.fetchNothing Fixtures.parseEmptyPage Fixtures.noMessage
     Fixtures.searchFindsOne Fixtures.spacesUnknown Fixtures.formEncode
     Fixtures.decimal Fixtures.clock).

#[local] Abbreviation samplePath :=
  (PagesService.pagesPath Fixtures.formEncode Fixtures.decimal).

Lemma paged_request_never_falls_back_witness :
  let params := Fixtures.titled (lit "Balance") (Some (lit "page-2")) in
  truthy params.(PagesService.cursor) = true
  /\ run (sampleList params)
     = ([FetchAtlassian (samplePath params)], inr Fixtures.emptyPage).
Proof.
  cbv zeta. split; [reflexivity|].
  exact (proj2 (paged_request_never_falls_back Fixtures.credentials []
                  Fixtures.authMissing Fixtures.apiError Fixtures.fetchNothing
                  Fixtures.parseEmptyPage Fixtures.noMessage Fixtures.searchFindsOne
                  Fixtures.spacesUnknown Fixtures.formEncode Fixtures.decimal
                  Fixtures.clock
                  (Fixtures.titled (lit "Balance") (Some (lit "page-2"))) eq_refl)
               tt tt Fixtures.emptyPage eq_refl eq_refl eq_refl).
Defined.

(** The fallback of the design document's example: title Balance, empty
    exact match, first page. *)
Example fallback_for_Balance :
  fst (run (sampleList (Fixtures.titled (lit "Balance") None)))
  = [FetchAtlassian (lit "/wiki/api/v2/pages?title=Balance");
     Search {| cql := lit "title ~ " ++ dq ++ lit "Balance*" ++ dq
                      ++ lit " AND type = " ++ dq ++ lit "page" ++ dq;
               SearchService.limit := Some 25;
               SearchService.cursor := None;
               excerpt := None;
               includeArchivedSpaces := None |}].
Proof. reflexivity. Qed.

(** C2 (the code at the failing input): for the title made of A, a double
    quote and B, with an empty exact match on the first page, the fallback
    query carries the title as given: its title clause holds the raw
    double quote and no backslash, so it is not the clause built from the
    escaped title. *)
Theorem fallback_title_is_not_escaped :
  let title := lit "A" ++ dq ++ lit "B" in
  let params := Fixtures.titled title None in
  (exists path,
     fst (run (sampleList params))
     = [FetchAtlassian path;
        Search {| cql := lit "title ~ " ++ dq ++ lit "A" ++ dq ++ lit "B*" ++ dq
                         ++ lit " AND type = " ++ dq ++ lit "page" ++ dq;
                  SearchService.limit := Some 25;
                  SearchService.cursor := None;
                  excerpt := None;
                  includeArchivedSpaces := None |}])
  /\ titleClause params = [lit "title ~ " ++ dq ++ title ++ lit "*" ++ dq]
  /\ escapeCqlValue title = lit "A\" ++ dq ++ lit "B"
  /\ titleClause params
     <> [lit "title ~ " ++ dq ++ escapeCqlValue title ++ lit "*" ++ dq].
Proof.
  cbv zeta. split; [eexists; reflexivity|].
  split; [reflexivity|]. split; [reflexivity|]. discriminate.
Qed.
End PagesServiceSamples.

(** ** Inline comments *)
Section CommentsControllerFacts.
Import CommentsController CommentsPaging.
Context {ADF Error : Type}.
Variable listPageComments : ListPageCommentsParams -> Error + @CommentsResponse ADF.
Variable adfToMarkdown : ADF -> option jsstring.
Variable localeCompare : jsstring -> jsstring -> Z.
Variable handleControllerError : Error -> ErrorContext -> Error.
Variable DEFAULT_PAGE_SIZE : Z.

#[local] Abbreviation listInlineComments :=
  (listInlineComments listPageComments adfToMarkdown localeCompare
                      handleControllerError DEFAULT_PAGE_SIZE).

#[local] Abbreviation requestOf options :=
  {| p_pageId := options.(pageId); p_limit := 250; p_start := 0;
     p_bodyFormat := default atlas_doc_format options.(bodyFormat) |}.

(** The whole listing of a response, before the caller's window is cut. *)
#[local] Abbreviation listingOf options response :=
  (Array_sort (fun a b => localeCompare (sortKey options.(sortBy) a)
                                        (sortKey options.(sortBy) b))
     (map (convertComment adfToMarkdown)
        (filter (fun comment =>
                   Is_true (keepInline (default false options.(includeResolved)) comment))
                response.(results)))).

Lemma insertSorted_Permutation {A} (cmp : A -> A -> Z) x sorted :
  insertSorted cmp x sorted ≡ₚ x :: sorted.
Proof.
  induction sorted as [|y rest IH]; cbn [insertSorted]; [reflexivity|].
  destruct (cmp x y <=? 0); [reflexivity|].
  rewrite IH. apply Permutation_swap.
Qed.

Lemma Array_sort_Permutation {A} (cmp : A -> A -> Z) arr :
  Array_sort cmp arr ≡ₚ arr.
Proof.
  unfold Array_sort. induction arr as [|x arr IH]; cbn [foldr]; [reflexivity|].
  rewrite insertSorted_Permutation, IH. reflexivity.
Qed.

Lemma slice_elem {A} (l : list A) start stop x : x ∈ slice l start stop -> x ∈ l.
Proof.
  unfold slice. destruct (_ <? _); [|intros H; inversion H].
  intros H. apply elem_of_take in H as (i & Hi & _).
  apply lookup_drop in Hi || rewrite lookup_drop in Hi.
  eapply list_elem_of_lookup_2, Hi.
Qed.

(** The one request [listInlineComments] sends, whatever the caller's
    limit and start are, and whatever comes back. *)
Lemma listInlineComments_request options :
  fst (run (listInlineComments options))
  = [{| p_pageId := options.(pageId); p_limit := 250; p_start := 0;
        p_bodyFormat := default atlas_doc_format options.(bodyFormat) |}].
Proof.
  unfold run, CommentsController.listInlineComments, try_catch, bind, perform.
  cbn [app].
  match goal with
  | |- context [listPageComments ?r] => destruct (listPageComments r)
  end; reflexivity.
Qed.

(** What [listInlineComments] does when the service answers. *)
Lemma listInlineComments_run options response :
  listPageComments (requestOf options) = inr response ->
  run (listInlineComments options)
  = ([requestOf options],
     inr {| commentsData :=
              slice (listingOf options response) (default 0 options.(start))
                    (default 0 options.(start)
                     + default DEFAULT_PAGE_SIZE options.(limit));
            l_pageId := options.(pageId);
            baseUrl := orElse response.(links_base) [];
            totalCount := Z.of_nat (length (listingOf options response));
            l_start := default 0 options.(start);
            l_limit := default DEFAULT_PAGE_SIZE options.(limit) |}).
Proof.
  intros Hresponse.
  unfold run, CommentsController.listInlineComments, try_catch, bind, perform.
  cbn [app]. rewrite Hresponse. cbn [ret]. unfold sortKey.
  destruct (default position options.(sortBy)); reflexivity.
Qed.

Lemma listInlineComments_ok options response :
  listPageComments (requestOf options) = inr response ->
  snd (run (listInlineComments options))
  = inr {| commentsData :=
             slice (listingOf options response) (default 0 options.(start))
                   (default 0 options.(start)
                    + default DEFAULT_PAGE_SIZE options.(limit));
           l_pageId := options.(pageId);
           baseUrl := orElse response.(links_base) [];
           totalCount := Z.of_nat (length (listingOf options response));
           l_start := default 0 options.(start);
           l_limit := default DEFAULT_PAGE_SIZE options.(limit) |}.
Proof.
  intros Hresponse. rewrite (listInlineComments_run options response Hresponse).
  reflexivity.
Qed.

Lemma insertSorted_Forall {B} (P : B -> Prop) (cmp : B -> B -> Z) x sorted :
  P x -> Forall P sorted -> Forall P (insertSorted cmp x sorted).
Proof.
  intros Hx Hs. rewrite insertSorted_Permutation. constructor; assumption.
Qed.

Lemma insertSorted_sorted {B} (cmp : B -> B -> Z) x sorted :
  (forall a b, cmp a b <= 0 \/ cmp b a <= 0) ->
  (forall a b c, cmp a b <= 0 -> cmp b c <= 0 -> cmp a c <= 0) ->
  StronglySorted (fun a b => cmp a b <= 0) sorted ->
  StronglySorted (fun a b => cmp a b <= 0) (insertSorted cmp x sorted).
Proof.
  intros Htotal Htrans. induction 1 as [|y rest Hrest IH Hy]; cbn [insertSorted].
  - repeat constructor.
  - destruct (Z.leb_spec (cmp x y) 0) as [Hle|Hgt].
    + constructor; [constructor; assumption|].
      constructor; [exact Hle|].
      eapply Forall_impl; [exact Hy|]. intros b Hb. cbn in Hb |- *. eauto.
    + constructor; [exact IH|].
      apply insertSorted_Forall; [|exact Hy].
      destruct (Htotal x y); [lia | assumption].
Qed.

Lemma Array_sort_sorted {B} (cmp : B -> B -> Z) arr :
  (forall a b, cmp a b <= 0 \/ cmp b a <= 0) ->
  (forall a b c, cmp a b <= 0 -> cmp b c <= 0 -> cmp a c <= 0) ->
  StronglySorted (fun a b => cmp a b <= 0) (Array_sort cmp arr).
Proof.
  intros Htotal Htrans. unfold Array_sort.
  induction arr as [|x arr IH]; cbn [foldr]; [constructor|].
  apply insertSorted_sorted; assumption.
Qed.

Lemma slice_sorted {B} (R : B -> B -> Prop) (l : list B) start stop :
  StronglySorted R l -> StronglySorted R (slice l start stop).
Proof.
  intros Hl. unfold slice. destruct (_ <? _); [|constructor].
  set (k := Z.to_nat (relIndex _ start)). set (n := Z.to_nat _).
  apply (StronglySorted_app_1_l R _ (drop n (drop k l))).
  rewrite take_drop.
  apply (StronglySorted_app_1_r R (take k l)).
  rewrite take_drop. exact Hl.
Qed.

(** C10: whatever limit and start the caller gives, the service is asked
    once, for 250 comments from offset 0. When it answers with the first
    250 comments of the page, the listing is made in memory from that
    answer and from nothing else: the inline comments among the 250 are
    kept (the current ones, unless resolved ones are asked for) and
    converted; they are sorted, by the position marker (else the id), or
    by the id when sorting by creation: the sorted list is a rearrangement
    of the converted ones, and it is in order whenever the locale
    comparison is a total preorder; the comments returned are the window
    from start to start + limit of that sorted list, and the total is its
    length. So every comment returned stands among the first 250 of the
    page: a comment further down is never returned. *)
Theorem inline_comments_come_from_first_250 (options : ListInlineCommentsOptions)
    (response : @CommentsResponse ADF) (pageComments : list (@CommentData ADF)) :
  let request :=
    {| p_pageId := options.(pageId); p_limit := 250; p_start := 0;
       p_bodyFormat := default atlas_doc_format options.(bodyFormat) |} in
  let start := default 0 options.(start) in
  let limit := default DEFAULT_PAGE_SIZE options.(limit) in
  let before a b :=
    localeCompare (sortKey options.(sortBy) a) (sortKey options.(sortBy) b) in
  let convertedComments :=
    map (convertComment adfToMarkdown)
        (filter (fun comment =>
                   Is_true (keepInline (default false options.(includeResolved))
                                       comment))
                (take 250 pageComments)) in
  let sortedComments := Array_sort before convertedComments in
  listPageComments request = inr response ->
  response.(results) = take 250 pageComments ->
  run (listInlineComments options)
  = ([request],
     inr {| commentsData := slice sortedComments start (start + limit);
            l_pageId := options.(pageId);
            baseUrl := orElse response.(links_base) [];
            totalCount := Z.of_nat (length sortedComments);
            l_start := start;
            l_limit := limit |})
  /\ sortedComments ≡ₚ convertedComments
  /\ ((forall a b, localeCompare a b <= 0 \/ localeCompare b a <= 0) ->
      (forall a b c, localeCompare a b <= 0 -> localeCompare b c <= 0 ->
                     localeCompare a c <= 0) ->
      StronglySorted (fun a b => before a b <= 0) sortedComments)
  /\ forall returned,
       returned ∈ slice sortedComments start (start + limit) ->
       (exists i, (i < 250)%nat /\ pageComments !! i = Some returned.(comment))
       /\ (returned.(comment).(extensions) ≫= location) = Some (lit "inline").
Proof.
  intros request start limit before convertedComments sortedComments Hresponse Hfirst.
  split; [|split; [|split]].
  - rewrite (listInlineComments_run options response Hresponse).
    rewrite Hfirst. reflexivity.
  - apply Array_sort_Permutation.
  - intros Htotal Htrans. apply (Array_sort_sorted before); unfold before; eauto.
  - intros returned Hin. apply slice_elem in Hin.
    unfold sortedComments in Hin. rewrite Array_sort_Permutation in Hin.
    apply list_elem_of_fmap in Hin as (raw & -> & Hraw).
    apply list_elem_of_filter in Hraw as [Hkeep Hraw].
    cbn [comment convertComment]. split.
    + apply elem_of_take in Hraw as (i & Hi & Hlt). exists i. split; [lia | exact Hi].
    + unfold keepInline in Hkeep.
      destruct (negb _ && negb _); [destruct Hkeep|].
      apply bool_decide_unpack in Hkeep. exact Hkeep.
Qed.
End CommentsControllerFacts.

(** The comparison of the samples is a total preorder. *)
Lemma compareUnits_total (a b : jsstring) :
  Fixtures.compareUnits a b <= 0 \/ Fixtures.compareUnits b a <= 0.
Proof.
  revert b. induction a as [|x a IH]; intros [|y b]; cbn [Fixtures.compareUnits];
    try lia.
  destruct (N.ltb_spec x y), (N.ltb_spec y x); try lia. apply IH.
Qed.

Lemma compareUnits_trans (a b c : jsstring) :
  Fixtures.compareUnits a b <= 0 -> Fixtures.compareUnits b c <= 0 ->
  Fixtures.compareUnits a c <= 0.
Proof.
  revert b c. induction a as [|x a IH]; intros [|y b] [|z c];
    cbn [Fixtures.compareUnits]; try lia.
  destruct (N.ltb_spec x y), (N.ltb_spec y x), (N.ltb_spec y z), (N.ltb_spec z y),
    (N.ltb_spec x z), (N.ltb_spec z x); intros Hab Hbc; try lia.
  exact (IH b c Hab Hbc).
Qed.

Lemma inline_comments_come_from_first_250_witness :
  let request :=
    {| CommentsController.p_pageId := lit "901"; CommentsController.p_limit := 250;
       CommentsController.p_start := 0;
       CommentsController.p_bodyFormat := CommentsController.atlas_doc_format |} in
  length Samples.reversedPage = 251%nat
  /\ CommentsController.id <$> last Samples.reversedPage = Some (lit "1000")
  /\ exists response,
       Samples.commentsOfReversedPage request = inr response
       /\ CommentsController.results response = take 250 Samples.reversedPage
       /\ exists listing,
            run (CommentsController.listInlineComments Samples.commentsOfReversedPage
                   Some Fixtures.compareUnits Fixtures.rethrow 25
                   Samples.firstTwoByCreation)
            = ([request], inr listing)
            /\ map (fun c => CommentsController.id (CommentsController.comment c))
                   (CommentsController.commentsData listing)
               = [lit "1001"; lit "1002"]
            /\ CommentsController.totalCount listing = 250
            /\ StronglySorted
                 (fun a b =>
                    Fixtures.compareUnits
                      (CommentsController.id (CommentsController.comment a))
                      (CommentsController.id (CommentsController.comment b)) <= 0)
                 (CommentsController.commentsData listing).
Proof.
  cbv zeta. split; [vm_compute; reflexivity|]. split; [vm_compute; reflexivity|].
  eexists. split; [reflexivity|].
  assert (Hfirst : slice Samples.reversedPage 0 (0 + 250) = take 250 Samples.reversedPage)
    by (vm_compute; reflexivity).
  split; [exact Hfirst|].
  destruct (inline_comments_come_from_first_250 Samples.commentsOfReversedPage Some
              Fixtures.compareUnits Fixtures.rethrow 25 Samples.firstTwoByCreation
              _ Samples.reversedPage eq_refl Hfirst)
    as (Hrun & _ & Hsorted & _).
  eexists. split; [exact Hrun|].
  cbn [CommentsController.commentsData CommentsController.totalCount].
  split; [vm_compute; reflexivity|]. split; [vm_compute; reflexivity|].
  apply slice_sorted.
  exact (Hsorted compareUnits_total compareUnits_trans).
Defined.

(** The page holds 251 inline comments; asking for the comments from offset
    250 reaches the service as a request for the first 250 and returns
    nothing: the last comment of the page is out of reach. *)
Example comment_251_is_out_of_reach :
  length Fixtures.longPage = 251%nat
  /\ exists listing,
       run (CommentsController.listInlineComments Fixtures.commentsOfLongPage Some
              Fixtures.compareUnits Fixtures.rethrow 25 Fixtures.pastFirst250)
       = ([{| CommentsController.p_pageId := lit "901";
              CommentsController.p_limit := 250;
              CommentsController.p_start := 0;
              CommentsController.p_bodyFormat := CommentsController.atlas_doc_format |}],
          inr listing)
       /\ CommentsController.commentsData listing = []
       /\ CommentsController.totalCount listing = 250.
Proof.
  split; [vm_compute; reflexivity|].
  eexists. split; [vm_compute; reflexivity|].
  split; reflexivity.
Qed.

(** * Further properties *)

(** ** The clause escaper, continued *)
Section EscaperMoreFacts.
Local Open Scope N_scope.

Ltac ncases' :=
  repeat match goal with
    | |- context [N.eqb ?a ?b] => destruct (N.eqb_spec a b)
    | |- context [N.leb ?a ?b] => destruct (N.leb_spec a b)
    | |- context [N.ltb ?a ?b] => destruct (N.ltb_spec a b)
    end.

(** X1: escaping loses nothing: two strings with the same escaped form are
    the same string. *)
Theorem escapeCqlValue_injective (s1 s2 : jsstring) :
  validString s1 -> validString s2 ->
  escapeCqlValue s1 = escapeCqlValue s2 -> s1 = s2.
Proof.
  intros H1 H2 Heq.
  pose proof (read_back_body s1 H1) as R1.
  pose proof (read_back_body s2 H2) as R2.
  rewrite Heq in R1. congruence.
Qed.

Lemma escapeCqlValue_injective_witness :
  let s1 := lit "a\b" in
  let s2 := lit "a\b" in
  validString s1 /\ validString s2 /\ escapeCqlValue s1 = escapeCqlValue s2 /\ s1 = s2.
Proof.
  cbv zeta.
  assert (Hv : validString (lit "a\b")) by (unfold validString; repeat constructor).
  split; [exact Hv|]. split; [exact Hv|]. split; [reflexivity|].
  exact (escapeCqlValue_injective _ _ Hv Hv eq_refl).
Defined.

Lemma hexDigit_printable d : 48 <= hexDigit d.
Proof. unfold hexDigit. destruct (d <? 10); lia. Qed.

Lemma quoteCodePoint_printable cp : Forall (fun c => 32 <= c) (quoteCodePoint cp).
Proof.
  unfold quoteCodePoint.
  destruct (singleCharEscape cp) as [e|] eqn:He.
  - revert He. unfold singleCharEscape.
    ncases'; intros He; inversion He; subst;
      repeat (apply Forall_cons; split; [lia|]); constructor.
  - destruct ((cp <? 32) || isLeadingSurrogate cp || isTrailingSurrogate cp) eqn:Hk.
    + unfold UnicodeEscape.
      assert (Hh : forall d, 32 <= hexDigit d)
        by (intros d; pose proof (hexDigit_printable d); lia).
      repeat (apply Forall_cons; split; [first [lia | apply Hh]|]).
      constructor.
    + apply orb_false_iff in Hk as [Hk _]. apply orb_false_iff in Hk as [Hk _].
      apply N.ltb_ge in Hk. unfold UTF16EncodeCodePoint.
      destruct (cp <=? 65535).
      * apply Forall_cons. split; [lia | constructor].
      * generalize ((cp - 65536) / 1024) ((cp - 65536) mod 1024). intros q r.
        repeat (apply Forall_cons; split; [lia|]). constructor.
Qed.

(** X2: the escaped form holds no raw control character (no line break,
    no tab, nothing below U+0020), whatever the input. *)
Theorem escapeCqlValue_no_control (s : jsstring) : noControl (escapeCqlValue s).
Proof.
  rewrite escapeCqlValue_code_points. unfold noControl.
  induction (StringToCodePoints s) as [|cp cps IH]; cbn [flat_map]; [constructor|].
  apply Forall_app_2; [apply quoteCodePoint_printable | exact IH].
Qed.

Lemma quoteCodePoint_length cp : (1 <= length (quoteCodePoint cp))%nat.
Proof.
  unfold quoteCodePoint. destruct (singleCharEscape cp); [cbn; lia|].
  destruct (_ || _); [cbn; lia|].
  unfold UTF16EncodeCodePoint. destruct (cp <=? 65535); cbn; lia.
Qed.

Lemma escapeCqlValue_length (s : jsstring) :
  (length s <= length (escapeCqlValue s))%nat.
Proof.
  induction s as [| c | c d s IHs IHds] using jsstring_ind2.
  - reflexivity.
  - destruct (isLeadingSurrogate c) eqn:Hl.
    + rewrite escapeCqlValue_lone_lead_end by assumption. cbn. lia.
    + rewrite escapeCqlValue_single by assumption.
      rewrite length_app. pose proof (quoteCodePoint_length c). cbn. lia.
  - destruct (isLeadingSurrogate c) eqn:Hl.
    + destruct (isTrailingSurrogate d) eqn:Ht.
      * rewrite escapeCqlValue_pair by assumption. cbn [length]. lia.
      * rewrite escapeCqlValue_lone_lead by assumption.
        rewrite length_app. cbn [length UnicodeEscape] in *. lia.
    + rewrite escapeCqlValue_single by assumption.
      rewrite length_app. pose proof (quoteCodePoint_length c). cbn [length] in *. lia.
Qed.

Lemma escapeCqlValue_of_special (s : jsstring) :
  34 ∈ s \/ 92 ∈ s ->
  92 ∈ escapeCqlValue s /\ (length s < length (escapeCqlValue s))%nat.
Proof.
  intros H.
  assert (Hc : exists c s1 s2, s = s1 ++ c :: s2 /\ (c = 34 \/ c = 92)).
  { destruct H as [H|H]; apply list_elem_of_split in H as (s1 & s2 & ->); eauto 6. }
  destruct Hc as (c & s1 & s2 & -> & Hc).
  assert (Hq : quoteCodePoint c = [92; c]) by (destruct Hc as [-> | ->]; reflexivity).
  rewrite escapeCqlValue_split, Hq
    by (destruct Hc as [-> | ->]; reflexivity).
  split.
  - apply elem_of_app. right. left.
  - rewrite !length_app. cbn [length].
    pose proof (escapeCqlValue_length s1). pose proof (escapeCqlValue_length s2). lia.
Qed.

(** X3: escaping is not idempotent: on a string that holds a double quote
    or a backslash, escaping the escaped form once more gives a different,
    strictly longer string, so a value must be escaped exactly once. *)
Theorem escapeCqlValue_twice_differs (s : jsstring) :
  34 ∈ s \/ 92 ∈ s ->
  escapeCqlValue (escapeCqlValue s) <> escapeCqlValue s
  /\ (length s < length (escapeCqlValue s)
               < length (escapeCqlValue (escapeCqlValue s)))%nat.
Proof.
  intros H.
  destruct (escapeCqlValue_of_special s H) as [H92 Hlen].
  destruct (escapeCqlValue_of_special (escapeCqlValue s) (or_intror H92)) as [_ Hlen2].
  split; [|lia].
  intros Heq. rewrite Heq in Hlen2. lia.
Qed.

Lemma escapeCqlValue_twice_differs_witness :
  let s := lit "a\b" in
  (34 ∈ s \/ 92 ∈ s)
  /\ escapeCqlValue (escapeCqlValue s) <> escapeCqlValue s
  /\ (length s < length (escapeCqlValue s)
                < length (escapeCqlValue (escapeCqlValue s)))%nat.
Proof.
  cbv zeta.
  assert (H : 34 ∈ lit "a\b" \/ 92 ∈ lit "a\b")
    by (right; vm_compute; apply list_elem_of_In; simpl; tauto).
  split; [exact H|].
  exact (escapeCqlValue_twice_differs _ H).
Defined.
End EscaperMoreFacts.

(** ** Trimming *)
Section TrimFacts.

Lemma trimStart_suffix s : exists ws, s = ws ++ trimStart s
                                      /\ Forall (fun c => isWhiteSpace c = true) ws.
Proof.
  induction s as [|c s (ws & Hs & Hws)]; [exists []; split; [reflexivity | constructor]|].
  cbn [trimStart]. destruct (isWhiteSpace c) eqn:Hc.
  - exists (c :: ws). split; [cbn; congruence | constructor; assumption].
  - exists []. split; [reflexivity | constructor].
Qed.

Lemma trimStart_head s c t : trimStart s = c :: t -> isWhiteSpace c = false.
Proof.
  induction s as [|d s IH]; cbn [trimStart]; [discriminate|].
  destruct (isWhiteSpace d) eqn:Hd; [exact IH|]. intros [= <- <-]. exact Hd.
Qed.

Lemma trimStart_fixed c t : isWhiteSpace c = false -> trimStart (c :: t) = c :: t.
Proof. intros H. cbn [trimStart]. rewrite H. reflexivity. Qed.

Lemma trimStart_nil s : trimStart s = [] <-> Forall (fun c => isWhiteSpace c = true) s.
Proof.
  induction s as [|c s IH]; cbn [trimStart]; [split; [constructor | reflexivity]|].
  destruct (isWhiteSpace c) eqn:Hc.
  - rewrite IH. split; [intros H; constructor; assumption | intros H; inversion H; assumption].
  - split; [discriminate | intros H; inversion H; congruence].
Qed.

Lemma trimStart_last s x : last (trimStart s) = Some x -> last s = Some x.
Proof.
  destruct (trimStart_suffix s) as (ws & Hs & _). intros Hl.
  rewrite Hs. destruct (trimStart s) as [|c t]; [discriminate|].
  rewrite last_app, Hl. reflexivity.
Qed.

Lemma trim_nil s : trim s = [] <-> Forall (fun c => isWhiteSpace c = true) s.
Proof.
  unfold trim, trimEnd. split.
  - intros H. apply (f_equal (@rev N)) in H. rewrite rev_involutive in H. cbn in H.
    apply trimStart_nil in H. apply Forall_rev in H. rewrite rev_involutive in H.
    destruct (trimStart s) as [|c t] eqn:Ht; [apply trimStart_nil; exact Ht|].
    apply trimStart_head in Ht. inversion H; congruence.
  - intros H. apply trimStart_nil in H. rewrite H. reflexivity.
Qed.

Lemma rev_of_last {A} (l : list A) x : last l = Some x -> exists t, rev l = x :: t.
Proof.
  intros H. apply last_Some in H as [l' ->].
  exists (rev l'). rewrite rev_app_distr. reflexivity.
Qed.

(** A trimmed string that is not empty starts and ends with a character
    that is no white space. *)
Lemma trim_ends s c t :
  trim s = c :: t ->
  isWhiteSpace c = false
  /\ exists x, last (c :: t) = Some x /\ isWhiteSpace x = false.
Proof.
  unfold trim, trimEnd. intros H.
  destruct (trimStart s) as [|u0 u] eqn:Hu; [discriminate H|].
  pose proof (trimStart_head _ _ _ Hu) as Hu0.
  destruct (trimStart (rev (u0 :: u))) as [|v0 v] eqn:Hv; [discriminate H|].
  pose proof (trimStart_head _ _ _ Hv) as Hv0.
  assert (Hlast : last (v0 :: v) = Some u0).
  { destruct (last (v0 :: v)) as [x|] eqn:E.
    - rewrite <- Hv in E. apply trimStart_last in E.
      cbn [rev] in E. rewrite last_snoc in E. symmetry. exact E.
    - apply last_None in E. discriminate E. }
  split.
  - destruct (rev_of_last _ _ Hlast) as [t' Ht']. rewrite Ht' in H.
    injection H as <- _. exact Hu0.
  - exists v0. split; [|exact Hv0].
    rewrite <- H. cbn [rev]. apply last_snoc.
Qed.

Lemma trimEnd_fixed s x : last s = Some x -> isWhiteSpace x = false -> trimEnd s = s.
Proof.
  intros Hl Hx. unfold trimEnd.
  destruct s as [|c t] using rev_ind; [discriminate|].
  rewrite last_snoc in Hl. injection Hl as ->.
  rewrite rev_app_distr. cbn [rev app]. rewrite trimStart_fixed by assumption.
  cbn [rev]. rewrite rev_involutive. reflexivity.
Qed.

Lemma trim_idempotent s : trim (trim s) = trim s.
Proof.
  destruct (trim s) as [|c t] eqn:Ht; [reflexivity|].
  destruct (trim_ends _ _ _ Ht) as (Hc & x & Hl & Hx).
  unfold trim. rewrite trimStart_fixed by assumption.
  apply (trimEnd_fixed _ x); assumption.
Qed.

Lemma trim_not_blank s c :
  c ∈ s -> isWhiteSpace c = false -> trim s <> [].
Proof.
  intros Hin Hc H. apply trim_nil in H.
  rewrite Forall_forall in H. specialize (H c Hin). congruence.
Qed.
End TrimFacts.

(** ** The query synthesizer and [search] of the search controller, continued *)
Section SearchControllerMoreFacts.
Import SearchService SearchController.
Context {Error McpError : Type}.
Variable atlassianSearchService_search : SearchParams -> Error + SearchResponseType.
Variable ensureMcpError : Error -> McpError.
Variable statusCode : McpError -> option Z.
Variable message : McpError -> jsstring.
Variable setMessage : McpError -> jsstring -> McpError.
Variable handleControllerError : McpError -> ErrorContext -> Error.
Variable DEFAULT_PAGE_SIZE : Z.

#[local] Abbreviation search :=
  (search atlassianSearchService_search ensureMcpError statusCode message
          setMessage handleControllerError DEFAULT_PAGE_SIZE).

Lemma ifTruthy_nil {A} o (f : jsstring -> A) :
  ifTruthy o (fun v => [f v]) [] = [] <-> truthy o = false.
Proof. destruct o as [[|c s]|]; cbn; split; congruence. Qed.

Lemma cqlParts_nil options :
  cqlParts options = [] <->
  truthy options.(title) = false
  /\ truthy options.(spaceKey) = false
  /\ default [] options.(labels) = []
  /\ truthy options.(contentType) = false
  /\ truthy options.(query) = false.
Proof.
  rewrite cqlParts_by_field. split.
  - intros H.
    apply app_eq_nil in H as [H1 H]. apply app_eq_nil in H as [H2 H].
    apply app_eq_nil in H as [H3 H]. apply app_eq_nil in H as [H4 H5].
    apply ifTruthy_nil in H1, H2, H4, H5. apply map_eq_nil in H3. auto.
  - intros (H1 & H2 & H3 & H4 & H5).
    apply (ifTruthy_nil _ (fun v => Grammar.quotedClause "title" "~" (escapeCqlValue v))) in H1.
    apply (ifTruthy_nil _ (fun v => Grammar.quotedClause "space" "=" (escapeCqlValue v))) in H2.
    apply (ifTruthy_nil _ (fun v => Grammar.bareTypeClause v)) in H4.
    apply (ifTruthy_nil _ (fun v => Grammar.quotedClause "text" "~" (escapeCqlValue v))) in H5.
    rewrite H1, H2, H3, H4, H5. reflexivity.
Qed.

(** Every clause starts with a letter. *)
Lemma cqlParts_heads options :
  Forall (fun clause => exists x t, clause = x :: t /\ isWhiteSpace x = false)
         (cqlParts options).
Proof.
  rewrite cqlParts_by_field. repeat apply Forall_app_2.
  - apply ifTruthy_Forall. intros v. eexists _, _. split; reflexivity.
  - apply ifTruthy_Forall. intros v. eexists _, _. split; reflexivity.
  - apply Forall_forall. intros clause Hin.
    apply list_elem_of_fmap in Hin as (v & -> & _).
    eexists _, _. split; reflexivity.
  - apply ifTruthy_Forall. intros v. eexists _, _. split; reflexivity.
  - apply ifTruthy_Forall. intros v. eexists _, _. split; reflexivity.
Qed.

Lemma generatedCql_head options :
  cqlParts options <> [] ->
  exists x t, join (lit " AND ") (cqlParts options) = x :: t /\ isWhiteSpace x = false.
Proof.
  intros Hne. pose proof (cqlParts_heads options) as Hh.
  destruct (cqlParts options) as [|clause rest]; [contradiction|].
  apply Forall_cons in Hh as [(x & t & -> & Hx) _].
  rewrite join_cons. eexists _, _. split; [reflexivity | exact Hx].
Qed.

(** Either the raw override is used, and the query is not blank, or the
    query is the synthesized one. *)
Lemma buildCqlQuery_cases (options : SearchToolArgsType) :
  (exists raw, options.(cql) = Some raw /\ trim raw <> []
               /\ buildCqlQuery options <> []
               /\ trim (buildCqlQuery options) <> [])
  \/ ((forall raw, options.(cql) = Some raw -> trim raw = [])
      /\ buildCqlQuery options = join (lit " AND ") (cqlParts options)).
Proof.
  unfold buildCqlQuery.
  destruct options.(cql) as [[|c raw]|] eqn:Hcql; cbn [ifTruthy orElse].
  - right. split; [intros raw [= <-]; reflexivity|].
    destruct (join _ _); reflexivity.
  - destruct (trim (c :: raw)) as [|c' t'] eqn:Htrim; cbn [truthyStr].
    + right. split; [intros raw' [= <-]; exact Htrim|].
      destruct (join _ _); reflexivity.
    + left. exists (c :: raw). split; [reflexivity|].
      split; [rewrite Htrim; discriminate|].
      destruct (join (lit " AND ") (cqlParts options)) as [|g gs]; cbn [truthyStr].
      * split; [discriminate | rewrite Htrim; discriminate].
      * split; [discriminate|].
        apply (trim_not_blank _ 40%N); [left | reflexivity].
  - right. split; [intros raw [=]|]. destruct (join _ _); reflexivity.
Qed.

(** A query that is not empty is not blank. *)
Lemma buildCqlQuery_not_blank (options : SearchToolArgsType) :
  buildCqlQuery options <> [] -> trim (buildCqlQuery options) <> [].
Proof.
  destruct (buildCqlQuery_cases options)
    as [(raw & Hraw & Hblank & Hne & Htrim) | [Hraw Hbuild]]; [intros _; exact Htrim|].
  rewrite Hbuild. intros Hne.
  destruct (generatedCql_head options) as (x & t & Hj & Hx).
  { intros Hparts. rewrite Hparts in Hne. contradiction. }
  rewrite Hj. apply (trim_not_blank _ x); [left | exact Hx].
Qed.

(** X4: the empty sentinel is exact: [buildCqlQuery] returns the empty
    string if and only if no filter field is set and the raw override is
    absent or blank; in every other case the query holds more than white
    space. *)
Theorem buildCqlQuery_empty_iff (options : SearchToolArgsType) :
  (buildCqlQuery options = [] <->
   truthy options.(title) = false
   /\ truthy options.(spaceKey) = false
   /\ default [] options.(labels) = []
   /\ truthy options.(contentType) = false
   /\ truthy options.(query) = false
   /\ (forall raw, options.(cql) = Some raw -> trim raw = []))
  /\ (buildCqlQuery options <> [] -> trim (buildCqlQuery options) <> []).
Proof.
  split; [|apply buildCqlQuery_not_blank].
  destruct (buildCqlQuery_cases options)
    as [(raw & Hraw & Hblank & Hne & Htrim) | [Hraw Hbuild]].
  - split; [intros H; contradiction|].
    intros (_ & _ & _ & _ & _ & H). destruct Hblank. apply H, Hraw.
  - rewrite Hbuild. split.
    + intros H.
      assert (Hparts : cqlParts options = []).
      { destruct (cqlParts options) as [|clause rest] eqn:Hparts; [reflexivity|].
        destruct (generatedCql_head options) as (x & t & Hj & _);
          [rewrite Hparts; discriminate|].
        rewrite Hparts in Hj. congruence. }
      apply cqlParts_nil in Hparts as (H1 & H2 & H3 & H4 & H5). auto 10.
    + intros (H1 & H2 & H3 & H4 & H5 & _).
      assert (Hparts : cqlParts options = []) by (apply cqlParts_nil; auto).
      rewrite Hparts. reflexivity.
Qed.

Lemma filter_all {A} (P : A -> Prop) `{!forall x, Decision (P x)} (l : list A) :
  Forall P l -> filter P l = l.
Proof.
  induction 1 as [|x l Hx _ IH]; [reflexivity|].
  rewrite filter_cons_True by assumption. rewrite IH. reflexivity.
Qed.

Lemma filter_none {A} (P : A -> Prop) `{!forall x, Decision (P x)} (l : list A) :
  Forall (fun x => ~ P x) l -> filter P l = [].
Proof.
  induction 1 as [|x l Hx _ IH]; [reflexivity|].
  rewrite filter_cons_False by assumption. exact IH.
Qed.

(** X5: a list of n labels gives exactly n label clauses, one per label in
    the caller's order, each with the label escaped; no other clause of the
    query starts as a label clause. *)
Theorem one_label_clause_per_label (options : SearchToolArgsType) :
  filter (fun clause => take 8 clause = lit "label = ") (cqlParts options)
  = map (fun label => lit "label = " ++ dq ++ escapeCqlValue label ++ dq)
        (default [] options.(labels)).
Proof.
  rewrite cqlParts_by_field. rewrite !filter_app.
  rewrite (filter_none _ (ifTruthy options.(title) _ _)).
  2:{ apply ifTruthy_Forall. intros v H. discriminate H. }
  rewrite (filter_none _ (ifTruthy options.(spaceKey) _ _)).
  2:{ apply ifTruthy_Forall. intros v H. discriminate H. }
  rewrite (filter_none _ (ifTruthy options.(contentType) _ _)).
  2:{ apply ifTruthy_Forall. intros v H. destruct v; discriminate H. }
  rewrite (filter_none _ (ifTruthy options.(query) _ _)).
  2:{ apply ifTruthy_Forall. intros v H. discriminate H. }
  cbn [app]. rewrite app_nil_r. apply filter_all.
  apply Forall_forall. intros clause Hin.
  apply list_elem_of_fmap in Hin as (v & -> & _). reflexivity.
Qed.
End SearchControllerMoreFacts.

(** ** [search] of the search controller with criteria *)
Section SearchControllerRunFacts.
Import SearchService SearchController.
Context {Error McpError : Type}.
Variable atlassianSearchService_search : SearchParams -> Error + SearchResponseType.
Variable ensureMcpError : Error -> McpError.
Variable statusCode : McpError -> option Z.
Variable message : McpError -> jsstring.
Variable setMessage : McpError -> jsstring -> McpError.
Variable handleControllerError : McpError -> ErrorContext -> Error.
Variable DEFAULT_PAGE_SIZE : Z.

#[local] Abbreviation search :=
  (search atlassianSearchService_search ensureMcpError statusCode message
          setMessage handleControllerError DEFAULT_PAGE_SIZE).

#[local] Abbreviation paramsOf options :=
  {| SearchService.cql := buildCqlQuery options;
     SearchService.limit := Some (default DEFAULT_PAGE_SIZE options.(limit));
     SearchService.cursor := options.(cursor);
     excerpt := Some (lit "highlight");
     includeArchivedSpaces := Some false |}.

Lemma from_option_Some_None {A} (o : option A) : from_option Some None o = o.
Proof. destruct o; reflexivity. Qed.

Lemma merged_options options :
  applyDefaults options
    {| cql := None; title := None; spaceKey := None; labels := None;
       contentType := None; query := None;
       limit := Some DEFAULT_PAGE_SIZE; cursor := None |}
  = {| cql := options.(cql); title := options.(title);
       spaceKey := options.(spaceKey); labels := options.(labels);
       contentType := options.(contentType); query := options.(query);
       limit := Some (default DEFAULT_PAGE_SIZE options.(limit));
       cursor := options.(cursor) |}.
Proof.
  unfold applyDefaults. cbn. rewrite !from_option_Some_None.
  destruct options.(limit); reflexivity.
Qed.

Lemma buildCqlQuery_ignores_paging options l c :
  buildCqlQuery
    {| cql := options.(cql); title := options.(title);
       spaceKey := options.(spaceKey); labels := options.(labels);
       contentType := options.(contentType); query := options.(query);
       limit := l; cursor := c |}
  = buildCqlQuery options.
Proof. reflexivity. Qed.

(** X6: when there are criteria, [search] sends exactly one query: the
    synthesized string, the caller's cursor, the caller's limit or the
    default page size when none is given, highlights requested and
    archived spaces left out; when the service answers, its page is what is
    rendered, under the executed query. *)
Theorem search_sends_one_query (options : SearchToolArgsType) :
  buildCqlQuery options <> [] ->
  fst (run (search options)) = [paramsOf options]
  /\ forall searchData,
       atlassianSearchService_search (paramsOf options) = inr searchData ->
       snd (run (search options)) = inr (SearchPage (buildCqlQuery options) searchData).
Proof.
  intros Hne.
  pose proof (buildCqlQuery_not_blank options Hne) as Hblank.
  unfold run, SearchController.search, try_catch.
  rewrite merged_options. cbn [limit cursor].
  rewrite buildCqlQuery_ignores_paging.
  destruct (buildCqlQuery options) as [|g gs] eqn:Hg; [contradiction|].
  cbn [truthyStr negb orb]. rewrite bool_decide_eq_false_2 by assumption.
  unfold bind, perform. cbn [app]. split.
  - destruct (atlassianSearchService_search _); reflexivity.
  - intros searchData ->. reflexivity.
Qed.

(** X7: when the service call fails, [search] has made exactly one call,
    the query, and throws what the error handler makes of the failure and
    of the Search error context, which carries the caller's cql, query,
    space key, limit and cursor. The failure is passed as it is unless it
    carries status 400: then its message is replaced by the bad-request
    text, which quotes the original message and advises on the syntax. *)
Theorem search_failure_is_surfaced (options : SearchToolArgsType) (error : Error) :
  buildCqlQuery options <> [] ->
  atlassianSearchService_search (paramsOf options) = inl error ->
  let mcpError := ensureMcpError error in
  let context :=
    buildErrorContext (lit "Search") (lit "performing")
      (lit "controllers/atlassian.search.controller.ts@search")
      []
      [(lit "cql", VString (orElse options.(cql) []));
       (lit "query", VString (orElse options.(query) []));
       (lit "spaceKey", optString options.(spaceKey));
       (lit "limit", optNumber options.(limit));
       (lit "cursor", optString options.(cursor))] in
  (statusCode mcpError <> Some 400 ->
   run (search options)
   = ([paramsOf options], inl (handleControllerError mcpError context)))
  /\ (statusCode mcpError = Some 400 ->
      run (search options)
      = ([paramsOf options],
         inl (handleControllerError
                (setMessage mcpError
                   (lit "Search failed (Status 400 - Bad Request): "
                    ++ message mcpError
                    ++ lit ". This may be due to invalid CQL syntax. Please check your CQL query, ensure terms in text searches are quoted (e.g., text ~ "
                    ++ dq ++ lit "your terms" ++ dq
                    ++ lit "), and refer to the Confluence CQL documentation."))
                context))).
Proof.
  intros Hne Hfail mcpError context.
  pose proof (buildCqlQuery_not_blank options Hne) as Hblank.
  unfold run, SearchController.search, try_catch.
  rewrite merged_options. cbn [limit cursor].
  rewrite buildCqlQuery_ignores_paging.
  destruct (buildCqlQuery options) as [|g gs] eqn:Hg; [contradiction|].
  cbn [truthyStr negb orb]. rewrite bool_decide_eq_false_2 by assumption.
  unfold bind, perform. cbn [app]. rewrite Hfail. fold mcpError.
  split; intros H400; unfold throw.
  - rewrite bool_decide_eq_false_2 by assumption. reflexivity.
  - rewrite bool_decide_eq_true_2 by assumption. reflexivity.
Qed.
End SearchControllerRunFacts.

Lemma search_sends_one_query_witness :
  let options := Samples.commentsByType in
  SearchController.buildCqlQuery options <> []
  /\ fst (run (SearchController.search Fixtures.searchFindsOne Fixtures.ensureMcpError
                 Fixtures.statusCode Fixtures.message Fixtures.setMessage
                 Fixtures.handleControllerError 25 options))
     = [{| SearchService.cql := lit "type = comment";
           SearchService.limit := Some 10;
           SearchService.cursor := Some (lit "next-page");
           SearchService.excerpt := Some (lit "highlight");
           SearchService.includeArchivedSpaces := Some false |}].
Proof.
  cbv zeta.
  assert (Hne : SearchController.buildCqlQuery Samples.commentsByType <> [])
    by (vm_compute; discriminate).
  split; [exact Hne|].
  exact (proj1 (search_sends_one_query Fixtures.searchFindsOne Fixtures.ensureMcpError
                  Fixtures.statusCode Fixtures.message Fixtures.setMessage
                  Fixtures.handleControllerError 25 Samples.commentsByType Hne)).
Defined.

Lemma search_failure_is_surfaced_witness :
  let options := Samples.commentsByType in
  let params :=
    {| SearchService.cql := lit "type = comment";
       SearchService.limit := Some 10;
       SearchService.cursor := Some (lit "next-page");
       SearchService.excerpt := Some (lit "highlight");
       SearchService.includeArchivedSpaces := Some false |} in
  SearchController.buildCqlQuery options <> []
  /\ run (SearchController.search Fixtures.searchCommentsDown
             Fixtures.ensureMcpError Fixtures.statusCode Fixtures.message
             Fixtures.setMessage Fixtures.handleControllerError 25 options)
     = ([params], inl (lit "comments unavailable"))
  /\ run (SearchController.search Fixtures.searchCommentsDown
             (fun error => (error, Some 400)) Fixtures.statusCode Fixtures.message
             Fixtures.setMessage Fixtures.handleControllerError 25 options)
     = ([params],
        inl (lit "Search failed (Status 400 - Bad Request): comments unavailable. This may be due to invalid CQL syntax. Please check your CQL query, ensure terms in text searches are quoted (e.g., text ~ "
             ++ dq ++ lit "your terms" ++ dq
             ++ lit "), and refer to the Confluence CQL documentation.")).
Proof.
  cbv zeta.
  assert (Hne : SearchController.buildCqlQuery Samples.commentsByType <> [])
    by (vm_compute; discriminate).
  split; [exact Hne|]. split.
  - exact (proj1 (search_failure_is_surfaced Fixtures.searchCommentsDown
                    Fixtures.ensureMcpError Fixtures.statusCode Fixtures.message
                    Fixtures.setMessage Fixtures.handleControllerError 25
                    Samples.commentsByType (lit "comments unavailable") Hne eq_refl)
             ltac:(discriminate)).
  - exact (proj2 (search_failure_is_surfaced Fixtures.searchCommentsDown
                    (fun error => (error, Some 400)) Fixtures.statusCode
                    Fixtures.message Fixtures.setMessage Fixtures.handleControllerError
                    25 Samples.commentsByType (lit "comments unavailable") Hne eq_refl)
             eq_refl).
Defined.

(** ** Federated search, continued *)
Section UniversalSearchMoreFacts.
Import SearchService UniversalSearch.
Context {Error McpError : Type}.
Variable atlassianSearchService_search : SearchParams -> Error + SearchResponseType.
Variable ensureMcpError : Error -> McpError.
Variable statusCode : McpError -> option Z.
Variable message : McpError -> jsstring.
Variable setMessage : McpError -> jsstring -> McpError.
Variable handleControllerError : McpError -> ErrorContext -> Error.

#[local] Abbreviation searchAt completion :=
  (search atlassianSearchService_search ensureMcpError statusCode message
          setMessage handleControllerError completion).

Lemma normalizeOptions_limit (options : UniversalSearchToolArgsType) :
  1 <= (normalizeOptions options).(n_limitPerType) <= 25.
Proof.
  cbn [normalizeOptions n_limitPerType]. unfold DEFAULT_LIMIT_PER_TYPE.
  destruct options.(limitPerType); lia.
Qed.

(** X8: normalized options are well formed whatever the caller sent: the
    limit per category lies between 1 and 25, the query is trimmed, a space
    key that is kept is trimmed and not empty, and so is every label that
    is kept. *)
Theorem normalizeOptions_well_formed (options : UniversalSearchToolArgsType) :
  let n := normalizeOptions options in
  1 <= n.(n_limitPerType) <= 25
  /\ trim n.(n_query) = n.(n_query)
  /\ (forall spaceKey, n.(n_spaceKey) = Some spaceKey ->
                       spaceKey <> [] /\ trim spaceKey = spaceKey)
  /\ (forall labels label, n.(n_labels) = Some labels -> label ∈ labels ->
                           label <> [] /\ trim label = label).
Proof.
  cbv zeta. split; [apply normalizeOptions_limit|].
  cbn [normalizeOptions n_limitPerType n_query n_spaceKey n_labels].
  split; [|split].
  - destruct options.(query); cbn [from_option]; [apply trim_idempotent | reflexivity].
  - intros key.
    destruct options.(spaceKey) as [k|]; cbn [fmap option_fmap option_map ifTruthy];
      [|discriminate].
    destruct (trim k) as [|c t] eqn:Hk; [discriminate|].
    intros [= <-]. split; [discriminate|].
    rewrite <- Hk. apply trim_idempotent.
  - intros kept label.
    destruct options.(labels) as [ls|]; cbn [fmap option_fmap option_map]; [|discriminate].
    intros [= <-] Hin.
    apply list_elem_of_filter in Hin as [Hlen Hin].
    apply list_elem_of_fmap in Hin as (raw & -> & _).
    split.
    + intros Hnil. rewrite Hnil in Hlen. cbn in Hlen. exact Hlen.
    + apply trim_idempotent.
Qed.

(** X9: without a query, or with a query of white space only, [search]
    answers with the advisory text and calls nothing. *)
Theorem search_blank_query (options : UniversalSearchToolArgsType) completion :
  (forall q, options.(query) = Some q -> trim q = []) ->
  run (searchAt completion options)
  = ([], inr (Text (lit "Please provide a search query (for example: `--query "
                    ++ dq ++ lit "design" ++ dq ++ lit "`)."))).
Proof.
  intros Hblank. unfold run, UniversalSearch.search.
  destruct options.(query) as [q|]; cbn [truthy from_option negb orb]; [|reflexivity].
  rewrite (Hblank q eq_refl). cbn [length Nat.eqb]. rewrite orb_true_r. reflexivity.
Qed.

(** X10: with a query but every category switched off, [search] answers
    with the advisory text and calls nothing. *)
Theorem search_nothing_enabled (options : UniversalSearchToolArgsType) completion :
  (normalizeOptions options).(n_query) <> [] ->
  options.(includeSpaces) = Some false ->
  options.(includePages) = Some false ->
  options.(includeBlogPosts) = Some false ->
  options.(includeAttachments) = Some false ->
  options.(includeComments) = Some false ->
  run (searchAt completion options)
  = ([], inr (Text (lit "No content types selected. Enable at least one type (pages, spaces, blog posts, attachments, or comments)."))).
Proof.
  intros Hq H1 H2 H3 H4 H5.
  rewrite (search_run _ _ _ _ _ _ _ options Hq).
  assert (Hinc : includedTypesOf (normalizeOptions options) = []).
  { unfold includedTypesOf, normalizeOptions. cbn. rewrite H1, H2, H3, H4, H5.
    reflexivity. }
  rewrite Hinc. reflexivity.
Qed.

Lemma includedTypesOf_sublist n :
  includedTypesOf n `sublist_of` [spaces; pages; blogPosts; attachments; comments].
Proof.
  unfold includedTypesOf.
  change [spaces; pages; blogPosts; attachments; comments]
    with (map fst [(spaces, n.(n_includeSpaces)); (pages, n.(n_includePages));
                   (blogPosts, n.(n_includeBlogPosts));
                   (attachments, n.(n_includeAttachments));
                   (comments, n.(n_includeComments))]).
  apply (fmap_sublist fst), sublist_filter.
Qed.

(** X11: with a query, [search] issues exactly one call per enabled
    category, in the fixed order spaces, pages, blog posts, attachments,
    comments, whatever the calls return; every call asks for at most 25 and
    at least 1 result, from the first page, with highlights and without
    archived spaces. *)
Theorem search_one_call_per_category (options : UniversalSearchToolArgsType) completion :
  let n := normalizeOptions options in
  n.(n_query) <> [] ->
  fst (run (searchAt completion options))
  = map (fun type => searchParamsFor type n) (includedTypesOf n)
  /\ includedTypesOf n `sublist_of` [spaces; pages; blogPosts; attachments; comments]
  /\ forall params,
       params ∈ fst (run (searchAt completion options)) ->
       (exists l, params.(limit) = Some l /\ 1 <= l <= 25)
       /\ params.(cursor) = None
       /\ params.(excerpt) = Some (lit "highlight")
       /\ params.(includeArchivedSpaces) = Some false.
Proof.
  intros n Hq. rewrite (search_run _ _ _ _ _ _ _ options Hq). cbn [fst]. fold n.
  split; [reflexivity|]. split; [apply includedTypesOf_sublist|].
  intros params Hin. apply list_elem_of_fmap in Hin as (type & -> & _).
  cbn [searchParamsFor limit cursor excerpt includeArchivedSpaces].
  split; [|auto]. eexists. split; [reflexivity|].
  apply (normalizeOptions_limit options).
Qed.

(** X12: the order in which the calls complete does not show: when no
    call of an enabled category fails, the calls issued and the outcome are
    the same for any two completion orders. *)
Theorem search_independent_of_completion (options : UniversalSearchToolArgsType)
    (completion1 completion2 : UniversalSearchSectionKey -> nat) :
  (forall type, type ∈ includedTypesOf (normalizeOptions options) ->
     exists r, atlassianSearchService_search
                 (searchParamsFor type (normalizeOptions options)) = inr r) ->
  run (searchAt completion1 options) = run (searchAt completion2 options).
Proof.
  intros Hall.
  destruct (decide ((normalizeOptions options).(n_query) = [])) as [Hq|Hq].
  - cbn [normalizeOptions n_query] in Hq.
    unfold run, UniversalSearch.search.
    destruct options.(query) as [q|]; cbn [truthy from_option negb orb] in Hq |- *;
      [|reflexivity].
    rewrite Hq. cbn [length Nat.eqb]. rewrite !orb_true_r. reflexivity.
  - rewrite !(search_run _ _ _ _ _ _ _ options Hq).
    destruct (fulfilled_all atlassianSearchService_search completion1 _ Hall) as [-> ->].
    destruct (fulfilled_all atlassianSearchService_search completion2 _ Hall) as [-> ->].
    reflexivity.
Qed.
End UniversalSearchMoreFacts.

Lemma search_blank_query_witness :
  (forall q, UniversalSearch.query Samples.blankQuery = Some q -> trim q = [])
  /\ run (UniversalSearch.search Fixtures.searchFindsOne Fixtures.ensureMcpError
            Fixtures.statusCode Fixtures.message Fixtures.setMessage
            Fixtures.handleControllerError UniversalSearch.sectionIndex
            Samples.blankQuery)
     = ([], inr (UniversalSearch.Text
                   (lit "Please provide a search query (for example: `--query "
                    ++ dq ++ lit "design" ++ dq ++ lit "`)."))).
Proof.
  assert (H : forall q, UniversalSearch.query Samples.blankQuery = Some q -> trim q = [])
    by (intros q [= <-]; reflexivity).
  split; [exact H|].
  exact (search_blank_query Fixtures.searchFindsOne Fixtures.ensureMcpError
           Fixtures.statusCode Fixtures.message Fixtures.setMessage
           Fixtures.handleControllerError Samples.blankQuery
           UniversalSearch.sectionIndex H).
Defined.

Lemma search_nothing_enabled_witness :
  UniversalSearch.n_query (UniversalSearch.normalizeOptions Samples.nothingEnabled) <> []
  /\ run (UniversalSearch.search Fixtures.searchFindsOne Fixtures.ensureMcpError
            Fixtures.statusCode Fixtures.message Fixtures.setMessage
            Fixtures.handleControllerError UniversalSearch.sectionIndex
            Samples.nothingEnabled)
     = ([], inr (UniversalSearch.Text
                   (lit "No content types selected. Enable at least one type (pages, spaces, blog posts, attachments, or comments)."))).
Proof.
  assert (Hq : UniversalSearch.n_query
                 (UniversalSearch.normalizeOptions Samples.nothingEnabled) <> [])
    by (vm_compute; discriminate).
  split; [exact Hq|].
  exact (search_nothing_enabled Fixtures.searchFindsOne Fixtures.ensureMcpError
           Fixtures.statusCode Fixtures.message Fixtures.setMessage
           Fixtures.handleControllerError Samples.nothingEnabled
           UniversalSearch.sectionIndex Hq eq_refl eq_refl eq_refl eq_refl eq_refl).
Defined.

Lemma search_one_call_per_category_witness :
  let n := UniversalSearch.normalizeOptions Fixtures.designInPages in
  UniversalSearch.n_query n <> []
  /\ fst (run (UniversalSearch.search Fixtures.searchCommentsDown Fixtures.ensureMcpError
                 Fixtures.statusCode Fixtures.message Fixtures.setMessage
                 Fixtures.handleControllerError UniversalSearch.sectionIndex
                 Fixtures.designInPages))
     = [{| SearchService.cql := lit "type = page AND text ~ " ++ dq ++ lit "design" ++ dq;
           SearchService.limit := Some 3;
           SearchService.cursor := None;
           SearchService.excerpt := Some (lit "highlight");
           SearchService.includeArchivedSpaces := Some false |}].
Proof.
  cbv zeta.
  assert (Hq : UniversalSearch.n_query
                 (UniversalSearch.normalizeOptions Fixtures.designInPages) <> [])
    by (vm_compute; discriminate).
  split; [exact Hq|].
  rewrite (proj1 (search_one_call_per_category Fixtures.searchCommentsDown
                    Fixtures.ensureMcpError Fixtures.statusCode Fixtures.message
                    Fixtures.setMessage Fixtures.handleControllerError
                    Fixtures.designInPages UniversalSearch.sectionIndex Hq)).
  reflexivity.
Defined.

Lemma search_independent_of_completion_witness :
  (forall type,
      type ∈ UniversalSearch.includedTypesOf
               (UniversalSearch.normalizeOptions Fixtures.designEverywhere) ->
      exists r, Fixtures.searchFindsOne
                  (UniversalSearch.searchParamsFor type
                     (UniversalSearch.normalizeOptions Fixtures.designEverywhere)) = inr r)
  /\ run (UniversalSearch.search Fixtures.searchFindsOne Fixtures.ensureMcpError
            Fixtures.statusCode Fixtures.message Fixtures.setMessage
            Fixtures.handleControllerError UniversalSearch.sectionIndex
            Fixtures.designEverywhere)
     = run (UniversalSearch.search Fixtures.searchFindsOne Fixtures.ensureMcpError
              Fixtures.statusCode Fixtures.message Fixtures.setMessage
              Fixtures.handleControllerError (fun type => (4 - UniversalSearch.sectionIndex type)%nat)
              Fixtures.designEverywhere).
Proof.
  assert (H : forall type,
             type ∈ UniversalSearch.includedTypesOf
                      (UniversalSearch.normalizeOptions Fixtures.designEverywhere) ->
             exists r, Fixtures.searchFindsOne
                         (UniversalSearch.searchParamsFor type
                            (UniversalSearch.normalizeOptions Fixtures.designEverywhere))
                       = inr r)
    by (intros type _; eexists; reflexivity).
  split; [exact H|].
  exact (search_independent_of_completion Fixtures.searchFindsOne Fixtures.ensureMcpError
           Fixtures.statusCode Fixtures.message Fixtures.setMessage
           Fixtures.handleControllerError Fixtures.designEverywhere
           UniversalSearch.sectionIndex
           (fun type => (4 - UniversalSearch.sectionIndex type)%nat) H).
Defined.

(** ** Hybrid title lookup, continued *)
Section PagesServiceMoreFacts.
Import SearchService PagesService PagesFallback.
Context {Error ZodError Credentials RawData : Type}.
Variable getAtlassianCredentials : option Credentials.
Variable ATLASSIAN_SITE_REQUIRED_MESSAGE : jsstring.
Variable createAuthMissingError : jsstring -> Error.
Variable createApiError : jsstring -> Z -> ZodError -> Error.
Variable fetchAtlassian : Credentials -> jsstring -> Error + RawData.
Variable PagesResponseSchema_parse : RawData -> ZodError + PagesResponse.
Variable ZodError_message : ZodError -> jsstring.
Variable atlassianSearchService_search : SearchParams -> Error + SearchResponseType.
Variable atlassianSpacesService_list : SpacesListParams -> Error + SpacesResponse.
Variable URLSearchParams_toString : Datatypes.list (jsstring * jsstring) -> jsstring.
Variable Number_toString : Z -> jsstring.
Variable now : jsstring.

#[local] Abbreviation list :=
  (list getAtlassianCredentials ATLASSIAN_SITE_REQUIRED_MESSAGE createAuthMissingError
        createApiError fetchAtlassian PagesResponseSchema_parse ZodError_message
        atlassianSearchService_search atlassianSpacesService_list
        URLSearchParams_toString Number_toString now).

#[local] Abbreviation pagesPath := (pagesPath URLSearchParams_toString Number_toString).
#[local] Abbreviation tryPartialTitleSearch :=
  (tryPartialTitleSearch atlassianSearchService_search atlassianSpacesService_list now).
#[local] Abbreviation transform := (transformSearchResultsToPagesFormat now).
#[local] Abbreviation fallbackParams := (fallbackParams atlassianSpacesService_list).
#[local] Abbreviation spaceClauses := (spaceClauses atlassianSpacesService_list).

(** What the fallback does, whatever its collaborators answer. *)
Lemma tryPartialTitleSearch_run params log :
  tryPartialTitleSearch params log
  = (log ++ lookupCalls params ++ [Search (fallbackParams params)],
     inr match atlassianSearchService_search (fallbackParams params) with
         | inr searchResults => transform searchResults
         | inl _ =>
             {| p_results := [];
                ps_links := Some {| p_next := None; p_base := Some [] |} |}
         end).
Proof.
  unfold PagesService.tryPartialTitleSearch, PagesFallback.fallbackParams,
    PagesFallback.spaceClauses, lookupCalls, lookupRequest.
  unfold bind at 1.
  destruct (nonEmptyArray params.(spaceId)) eqn:Hspace.
  - unfold try_catch at 1, bind at 1, perform at 1.
    destruct (atlassianSpacesService_list _) as [e|spacesResponse].
    + unfold try_catch, bind, perform, ret.
      cbn [app]. rewrite ?app_nil_r, <- ?app_assoc. cbn [app].
      destruct (atlassianSearchService_search _); reflexivity.
    + destruct spacesResponse.(s_results) as [|space spaces] eqn:Hsp;
        unfold try_catch, bind, perform, ret, PagesService.push;
        cbn [length Nat.ltb Nat.leb app]; rewrite ?app_nil_r, <- ?app_assoc, ?map_map;
        cbn [app];
        destruct (atlassianSearchService_search _); reflexivity.
  - unfold try_catch, bind, perform, ret.
    cbn [app]. rewrite ?app_nil_r.
    destruct (atlassianSearchService_search _); reflexivity.
Qed.

(** What [list] does when the exact lookup of a titled first-page request
    finds nothing. *)
Lemma list_fallback_run params credentials rawData validatedData :
  getAtlassianCredentials = Some credentials ->
  fetchAtlassian credentials (pagesPath params) = inr rawData ->
  PagesResponseSchema_parse rawData = inr validatedData ->
  validatedData.(p_results) = [] ->
  truthy params.(PagesService.title) = true ->
  truthy params.(PagesService.cursor) = false ->
  run (list params)
  = (FetchAtlassian (pagesPath params)
       :: lookupCalls params ++ [Search (fallbackParams params)],
     inr match atlassianSearchService_search (fallbackParams params) with
         | inr searchResults =>
             match p_results (transform searchResults) with
             | [] => validatedData
             | _ :: _ => transform searchResults
             end
         | inl _ => validatedData
         end).
Proof.
  intros -> Hfetch Hparse Hempty Htitle Hcursor.
  unfold run, PagesService.list, try_catch at 1, bind at 1, perform at 1.
  cbn [app]. rewrite Hfetch, Hparse, Hempty, Htitle, Hcursor.
  cbn [length Nat.eqb negb andb]. unfold bind at 1.
  rewrite tryPartialTitleSearch_run. cbn [app].
  destruct (atlassianSearchService_search (fallbackParams params)) as [e|searchResults].
  - reflexivity.
  - destruct (p_results (transform searchResults)); reflexivity.
Qed.

(** X13: a failure of the exact lookup surfaces as it is and ends the
    request: without credentials nothing is called; a failed fetch is
    rethrown unchanged; a response the schema refuses becomes an API error
    with status 500; in none of these cases is a fallback attempted. *)
Theorem list_primary_failures (params : ListPagesParams) :
  (getAtlassianCredentials = None ->
   run (list params)
   = ([], inl (createAuthMissingError ATLASSIAN_SITE_REQUIRED_MESSAGE)))
  /\ (forall credentials error,
        getAtlassianCredentials = Some credentials ->
        fetchAtlassian credentials (pagesPath params) = inl error ->
        run (list params) = ([FetchAtlassian (pagesPath params)], inl error))
  /\ (forall credentials rawData validationError,
        getAtlassianCredentials = Some credentials ->
        fetchAtlassian credentials (pagesPath params) = inr rawData ->
        PagesResponseSchema_parse rawData = inl validationError ->
        run (list params)
        = ([FetchAtlassian (pagesPath params)],
           inl (createApiError
                  (lit "API response validation failed: "
                   ++ ZodError_message validationError)
                  500 validationError))).
Proof.
  unfold run, PagesService.list. split; [|split].
  - intros ->. reflexivity.
  - intros credentials error -> Hfetch.
    unfold try_catch, bind, perform. cbn [app]. rewrite Hfetch. reflexivity.
  - intros credentials rawData validationError -> Hfetch Hparse.
    unfold try_catch, bind, perform. cbn [app]. rewrite Hfetch, Hparse. reflexivity.
Qed.

(** X14: when the exact lookup finds at least one page, that page of
    results is returned as validated and nothing else is called, with or
    without a title filter. *)
Theorem list_exact_match_is_final (params : ListPagesParams)
    credentials rawData validatedData :
  getAtlassianCredentials = Some credentials ->
  fetchAtlassian credentials (pagesPath params) = inr rawData ->
  PagesResponseSchema_parse rawData = inr validatedData ->
  validatedData.(p_results) <> [] ->
  run (list params) = ([FetchAtlassian (pagesPath params)], inr validatedData).
Proof.
  intros -> Hfetch Hparse Hne.
  unfold run, PagesService.list, try_catch, bind, perform. cbn [app].
  rewrite Hfetch, Hparse.
  destruct validatedData.(p_results); [contradiction|].
  cbn [length Nat.eqb]. rewrite andb_false_r. reflexivity.
Qed.

(** X15: the fallback is best effort: for a titled first-page request
    whose exact lookup found nothing, [list] never throws, whatever the
    spaces lookup and the search service do. When the fallback search
    fails, the result is the original empty page; when it answers, the
    result is the transformed hits if they hold at least one page record,
    and the original empty page if they hold none. *)
Theorem list_fallback_never_throws (params : ListPagesParams)
    credentials rawData validatedData :
  getAtlassianCredentials = Some credentials ->
  fetchAtlassian credentials (pagesPath params) = inr rawData ->
  PagesResponseSchema_parse rawData = inr validatedData ->
  validatedData.(p_results) = [] ->
  truthy params.(PagesService.title) = true ->
  truthy params.(PagesService.cursor) = false ->
  (exists page, snd (run (list params)) = inr page)
  /\ (forall error,
        atlassianSearchService_search (fallbackParams params) = inl error ->
        snd (run (list params)) = inr validatedData)
  /\ (forall searchResults,
        atlassianSearchService_search (fallbackParams params) = inr searchResults ->
        (p_results (transform searchResults) <> [] ->
         snd (run (list params)) = inr (transform searchResults))
        /\ (p_results (transform searchResults) = [] ->
            snd (run (list params)) = inr validatedData)).
Proof.
  intros Hc Hfetch Hparse Hempty Htitle Hcursor.
  rewrite (list_fallback_run params credentials rawData validatedData) by assumption.
  cbn [snd]. split; [eexists; reflexivity|].
  destruct (atlassianSearchService_search (fallbackParams params)) as [e|searchResults].
  - split; [intros; reflexivity | intros searchResults [=]].
  - split; [intros error [=]|]. intros found [= <-].
    destruct (p_results (transform searchResults)) as [|p ps] eqn:Hr.
    + split; [intros Hne; contradiction | intros _; reflexivity].
    + split; [intros _; reflexivity | intros [=]].
Qed.

Lemma omap_length_le {A B} (f : A -> option B) (l : Datatypes.list A) :
  (length (omap f l) <= length l)%nat.
Proof.
  induction l as [|a l IH]; [reflexivity|].
  change (omap f (a :: l))
    with (match f a with Some y => y :: omap f l | None => omap f l end).
  destruct (f a); cbn [length]; lia.
Qed.

(** X16: every record of a transformed fallback page comes from a hit of
    type page that has an id, keeps that id, and carries the placeholders:
    version number 1 and empty author; hits of another type or without id
    are left out, so the page never holds more records than there were
    hits. *)
Theorem transformed_records (searchResults : SearchResponseType) :
  (length (p_results (transform searchResults)) <= length searchResults.(results))%nat
  /\ forall page,
       page ∈ p_results (transform searchResults) ->
       page.(version).(number) = 1
       /\ page.(version).(v_authorId) = []
       /\ page.(authorId) = []
       /\ page.(id) <> []
       /\ exists hit hitContent,
            hit ∈ searchResults.(results)
            /\ hit.(content) = Some hitContent
            /\ hitContent.(content_type) = Some (lit "page")
            /\ hitContent.(content_id) = Some page.(id).
Proof.
  unfold transformSearchResultsToPagesFormat. cbn [p_results]. split.
  - apply omap_length_le.
  - intros page Hin. apply list_elem_of_omap in Hin as (hit & Hin & Hpage).
    unfold pageOfResult in Hpage.
    destruct hit.(content) as [hitContent|] eqn:Hcontent; [|discriminate].
    destruct (bool_decide (hitContent.(content_type) = Some (lit "page"))
              && truthy hitContent.(content_id)) eqn:Hkeep; [|discriminate].
    apply andb_true_iff in Hkeep as [Htype Hid].
    apply bool_decide_eq_true in Htype.
    injection Hpage as <-. cbn [version number v_authorId authorId id].
    destruct hitContent.(content_id) as [[|c cid]|] eqn:Hcid; try discriminate Hid.
    cbn [orElse ifTruthy].
    repeat split; try discriminate.
    exists hit, hitContent. rewrite Hcid. auto.
Qed.

(** X17: when space identifiers are given and the lookup finds their
    spaces, the fallback constrains the search to those spaces: the lookup
    is asked for the identifiers with limit 100, and the query is the title
    wildcard clause, the parenthesized disjunction of one space clause per
    space found, and the page type clause, joined by AND; the limit is the
    caller's, or 25. *)
Theorem fallback_space_constraint (params : ListPagesParams)
    credentials rawData validatedData identifiers title spacesResponse space spaces :
  getAtlassianCredentials = Some credentials ->
  fetchAtlassian credentials (pagesPath params) = inr rawData ->
  PagesResponseSchema_parse rawData = inr validatedData ->
  validatedData.(p_results) = [] ->
  params.(PagesService.title) = Some title -> title <> [] ->
  truthy params.(PagesService.cursor) = false ->
  params.(spaceId) = Some identifiers -> identifiers <> [] ->
  atlassianSpacesService_list {| ids := identifiers; s_limit := 100 |}
  = inr spacesResponse ->
  spacesResponse.(s_results) = space :: spaces ->
  fst (run (list params))
  = [FetchAtlassian (pagesPath params);
     SpacesList {| ids := identifiers; s_limit := 100 |};
     Search {| cql := lit "title ~ " ++ dq ++ title ++ lit "*" ++ dq
                      ++ lit " AND ("
                      ++ join (lit " OR ")
                           (map (fun s => lit "space = " ++ dq ++ s.(key) ++ dq)
                                (space :: spaces))
                      ++ lit ") AND type = " ++ dq ++ lit "page" ++ dq;
               SearchService.limit :=
                 Some (match params.(PagesService.limit) with
                       | Some l => if l =? 0 then 25 else l
                       | None => 25
                       end);
               SearchService.cursor := None;
               excerpt := None;
               includeArchivedSpaces := None |}].
Proof.
  intros Hc Hfetch Hparse Hempty Htitle Hne Hcursor Hspace Hids Hlookup Hfound.
  assert (Htruthy : truthy params.(PagesService.title) = true).
  { rewrite Htitle. destruct title; [contradiction | reflexivity]. }
  rewrite (list_fallback_run params credentials rawData validatedData) by assumption.
  cbn [fst].
  unfold lookupCalls, PagesFallback.fallbackParams, PagesFallback.spaceClauses,
    lookupRequest, titleClause.
  assert (Hif : forall f : jsstring -> Datatypes.list jsstring,
             ifTruthy (Some title) f [] = f title)
    by (intros f; destruct title; [contradiction | reflexivity]).
  rewrite Hspace, Htitle, Hif. destruct identifiers as [|i0 irest]; [contradiction|].
  cbn [nonEmptyArray default from_option Datatypes.id].
  rewrite Hlookup, Hfound.
  unfold PagesService.push. cbn [app join].
  rewrite <- !app_assoc. reflexivity.
Qed.

(** X18: when no space identifier is given, or when the space lookup
    that is made for the identifiers fails or finds no space, the fallback
    still runs, without the space constraint: the query is the title
    wildcard clause and the page type clause only, and [list] returns a
    page. The lookup is called only when identifiers are given. *)
Theorem fallback_without_space_keys (params : ListPagesParams)
    credentials rawData validatedData title :
  getAtlassianCredentials = Some credentials ->
  fetchAtlassian credentials (pagesPath params) = inr rawData ->
  PagesResponseSchema_parse rawData = inr validatedData ->
  validatedData.(p_results) = [] ->
  params.(PagesService.title) = Some title -> title <> [] ->
  truthy params.(PagesService.cursor) = false ->
  (nonEmptyArray params.(spaceId) = true ->
   forall spacesResponse,
     atlassianSpacesService_list (lookupRequest params) = inr spacesResponse ->
     spacesResponse.(s_results) = []) ->
  exists page,
    run (list params)
    = (FetchAtlassian (pagesPath params)
         :: lookupCalls params
         ++ [Search {| cql := lit "title ~ " ++ dq ++ title ++ lit "*" ++ dq
                              ++ lit " AND type = " ++ dq ++ lit "page" ++ dq;
                       SearchService.limit :=
                         Some (match params.(PagesService.limit) with
                               | Some l => if l =? 0 then 25 else l
                               | None => 25
                               end);
                       SearchService.cursor := None;
                       excerpt := None;
                       includeArchivedSpaces := None |}],
       inr page).
Proof.
  intros Hc Hfetch Hparse Hempty Htitle Hne Hcursor Hlookup.
  assert (Htruthy : truthy params.(PagesService.title) = true).
  { rewrite Htitle. destruct title; [contradiction | reflexivity]. }
  rewrite (list_fallback_run params credentials rawData validatedData) by assumption.
  assert (Hparams :
            fallbackParams params
            = {| cql := lit "title ~ " ++ dq ++ title ++ lit "*" ++ dq
                        ++ lit " AND type = " ++ dq ++ lit "page" ++ dq;
                 SearchService.limit :=
                   Some (match params.(PagesService.limit) with
                         | Some l => if l =? 0 then 25 else l
                         | None => 25
                         end);
                 SearchService.cursor := None;
                 excerpt := None;
                 includeArchivedSpaces := None |}).
  { unfold PagesFallback.fallbackParams. f_equal.
    assert (Hsc : spaceClauses params = []).
    { unfold PagesFallback.spaceClauses.
      destruct (nonEmptyArray params.(spaceId)) eqn:Hgiven; [|reflexivity].
      destruct (atlassianSpacesService_list (lookupRequest params)) as [e|r] eqn:Hr;
        [reflexivity|].
      rewrite (Hlookup eq_refl r eq_refl). reflexivity. }
    assert (Hif : forall f : jsstring -> Datatypes.list jsstring,
               ifTruthy (Some title) f [] = f title)
      by (intros f; destruct title; [contradiction | reflexivity]).
    rewrite Hsc. unfold titleClause. rewrite Htitle, Hif.
    cbn [PagesService.push app join]. rewrite <- !app_assoc. reflexivity. }
  rewrite Hparams. eexists. reflexivity.
Qed.
End PagesServiceMoreFacts.

Section PagesServiceMoreSamples.
Import SearchService PagesService.

#[local] Abbreviation listWith parse spacesList :=
  (PagesService.list Fixtures.credentials [] Fixtures.authMissing Fixtures.apiError
     Fixtures.fetchNothing parse Fixtures.noMessage
     Fixtures.searchFindsOne spacesList Fixtures.formEncode
     Fixtures.decimal Fixtures.clock).

#[local] Abbreviation pathOf :=
  (PagesService.pagesPath Fixtures.formEncode Fixtures.decimal).

Lemma list_exact_match_is_final_witness :
  let params := Fixtures.titled (lit "Budget") None in
  Samples.onePage.(p_results) <> []
  /\ run (listWith Samples.parseOnePage Fixtures.spacesUnknown params)
     = ([FetchAtlassian (pathOf params)], inr Samples.onePage).
Proof.
  cbv zeta.
  assert (Hne : Samples.onePage.(p_results) <> []) by discriminate.
  split; [exact Hne|].
  exact (list_exact_match_is_final Fixtures.credentials [] Fixtures.authMissing
           Fixtures.apiError Fixtures.fetchNothing Samples.parseOnePage
           Fixtures.noMessage Fixtures.searchFindsOne Fixtures.spacesUnknown
           Fixtures.formEncode Fixtures.decimal Fixtures.clock
           (Fixtures.titled (lit "Budget") None) tt tt Samples.onePage
           eq_refl eq_refl eq_refl Hne).
Defined.

Lemma list_fallback_never_throws_witness :
  let params := Fixtures.titled (lit "Balance") None in
  truthy params.(PagesService.title) = true
  /\ truthy params.(PagesService.cursor) = false
  /\ (exists page,
        snd (run (listWith Fixtures.parseEmptyPage Fixtures.spacesUnknown params))
        = inr page
        /\ map (fun p => (p.(id), p.(version).(number))) page.(p_results)
           = [(lit "42", 1)])
  /\ snd (run (PagesService.list Fixtures.credentials [] Fixtures.authMissing
                 Fixtures.apiError Fixtures.fetchNothing Fixtures.parseEmptyPage
                 Fixtures.noMessage (fun _ => inl (lit "search unavailable"))
                 Fixtures.spacesUnknown Fixtures.formEncode Fixtures.decimal
                 Fixtures.clock params))
     = inr Fixtures.emptyPage.
Proof.
  cbv zeta. split; [reflexivity|]. split; [reflexivity|]. split.
  - destruct (list_fallback_never_throws Fixtures.credentials [] Fixtures.authMissing
                Fixtures.apiError Fixtures.fetchNothing Fixtures.parseEmptyPage
                Fixtures.noMessage Fixtures.searchFindsOne Fixtures.spacesUnknown
                Fixtures.formEncode Fixtures.decimal Fixtures.clock
                (Fixtures.titled (lit "Balance") None) tt tt Fixtures.emptyPage
                eq_refl eq_refl eq_refl eq_refl eq_refl eq_refl)
      as (_ & _ & Hfound).
    destruct (Hfound _ eq_refl) as [Hpages _].
    eexists. split; [apply Hpages; vm_compute; discriminate|]. reflexivity.
  - exact (proj1 (proj2 (list_fallback_never_throws Fixtures.credentials []
                           Fixtures.authMissing Fixtures.apiError
                           Fixtures.fetchNothing Fixtures.parseEmptyPage
                           Fixtures.noMessage (fun _ => inl (lit "search unavailable"))
                           Fixtures.spacesUnknown Fixtures.formEncode Fixtures.decimal
                           Fixtures.clock (Fixtures.titled (lit "Balance") None)
                           tt tt Fixtures.emptyPage
                           eq_refl eq_refl eq_refl eq_refl eq_refl eq_refl))
             (lit "search unavailable") eq_refl).
Defined.

Lemma fallback_space_constraint_witness :
  let params := Samples.titledIn (lit "Balance") [lit "1"; lit "2"] in
  exists path,
    fst (run (listWith Fixtures.parseEmptyPage Samples.spacesFound params))
    = [FetchAtlassian path;
       SpacesList {| ids := [lit "1"; lit "2"]; s_limit := 100 |};
       Search {| cql := lit "title ~ " ++ dq ++ lit "Balance*" ++ dq
                        ++ lit " AND (space = " ++ dq ++ lit "DEV" ++ dq
                        ++ lit " OR space = " ++ dq ++ lit "OPS" ++ dq
                        ++ lit ") AND type = " ++ dq ++ lit "page" ++ dq;
                 SearchService.limit := Some 10;
                 SearchService.cursor := None;
                 excerpt := None;
                 includeArchivedSpaces := None |}].
Proof.
  cbv zeta. eexists.
  rewrite (fallback_space_constraint Fixtures.credentials [] Fixtures.authMissing
             Fixtures.apiError Fixtures.fetchNothing Fixtures.parseEmptyPage
             Fixtures.noMessage Fixtures.searchFindsOne Samples.spacesFound
             Fixtures.formEncode Fixtures.decimal Fixtures.clock
             (Samples.titledIn (lit "Balance") [lit "1"; lit "2"])
             tt tt Fixtures.emptyPage [lit "1"; lit "2"] (lit "Balance")
             _ _ _ eq_refl eq_refl eq_refl eq_refl eq_refl
             ltac:(discriminate) eq_refl eq_refl ltac:(discriminate)
             eq_refl eq_refl).
  reflexivity.
Defined.

Lemma fallback_without_space_keys_witness :
  (let params := Samples.titledIn (lit "Balance") [lit "1"; lit "2"] in
   exists path page,
     run (listWith Fixtures.parseEmptyPage Fixtures.spacesUnknown params)
     = ([FetchAtlassian path;
         SpacesList {| ids := [lit "1"; lit "2"]; s_limit := 100 |};
         Search {| cql := lit "title ~ " ++ dq ++ lit "Balance*" ++ dq
                          ++ lit " AND type = " ++ dq ++ lit "page" ++ dq;
                   SearchService.limit := Some 10;
                   SearchService.cursor := None;
                   excerpt := None;
                   includeArchivedSpaces := None |}],
        inr page))
  /\ (let params := Fixtures.titled (lit "Balance") None in
      exists path page,
        run (listWith Fixtures.parseEmptyPage Samples.spacesFound params)
        = ([FetchAtlassian path;
            Search {| cql := lit "title ~ " ++ dq ++ lit "Balance*" ++ dq
                             ++ lit " AND type = " ++ dq ++ lit "page" ++ dq;
                      SearchService.limit := Some 25;
                      SearchService.cursor := None;
                      excerpt := None;
                      includeArchivedSpaces := None |}],
           inr page)).
Proof.
  cbv zeta. split.
  - destruct (fallback_without_space_keys Fixtures.credentials [] Fixtures.authMissing
                Fixtures.apiError Fixtures.fetchNothing Fixtures.parseEmptyPage
                Fixtures.noMessage Fixtures.searchFindsOne Fixtures.spacesUnknown
                Fixtures.formEncode Fixtures.decimal Fixtures.clock
                (Samples.titledIn (lit "Balance") [lit "1"; lit "2"])
                tt tt Fixtures.emptyPage (lit "Balance")
                eq_refl eq_refl eq_refl eq_refl eq_refl
                ltac:(discriminate) eq_refl
                ltac:(intros _ r [= <-]; reflexivity))
      as (page & Hrun).
    eexists. exists page. rewrite Hrun. reflexivity.
  - destruct (fallback_without_space_keys Fixtures.credentials [] Fixtures.authMissing
                Fixtures.apiError Fixtures.fetchNothing Fixtures.parseEmptyPage
                Fixtures.noMessage Fixtures.searchFindsOne Samples.spacesFound
                Fixtures.formEncode Fixtures.decimal Fixtures.clock
                (Fixtures.titled (lit "Balance") None)
                tt tt Fixtures.emptyPage (lit "Balance")
                eq_refl eq_refl eq_refl eq_refl eq_refl
                ltac:(discriminate) eq_refl
                ltac:(intros Hgiven; discriminate Hgiven))
      as (page & Hrun).
    eexists. exists page. rewrite Hrun. reflexivity.
Defined.
End PagesServiceMoreSamples.

(** ** Inline comments, continued *)
Section SliceFacts.
Context {A : Type}.
Implicit Types l : list A.

Lemma slice_nonneg l start stop :
  0 <= start -> 0 <= stop ->
  slice l start stop = take (Z.to_nat stop - Z.to_nat start) (drop (Z.to_nat start) l).
Proof.
  intros Hs He. unfold slice, relIndex.
  destruct (Z.ltb_spec start 0); [lia|]. destruct (Z.ltb_spec stop 0); [lia|].
  set (len := Z.of_nat (length l)).
  destruct (Z.ltb_spec (Z.min start len) (Z.min stop len)) as [Hlt|Hge].
  - destruct (Z_le_gt_dec stop len).
    + rewrite !Z.min_l by lia. f_equal. lia.
    + rewrite (Z.min_r stop) by lia. rewrite (Z.min_l start) by lia.
      rewrite !take_ge; [reflexivity | |]; rewrite length_drop; unfold len in *; lia.
  - symmetry. destruct (Z_le_gt_dec len start).
    + rewrite drop_ge by (unfold len in *; lia). apply take_nil.
    + assert (stop <= start) by lia.
      replace (Z.to_nat stop - Z.to_nat start)%nat with 0%nat by lia. reflexivity.
Qed.

Lemma slice_length_le l start limit :
  0 <= start -> 0 <= limit ->
  (length (slice l start (start + limit)) <= Z.to_nat limit)%nat.
Proof.
  intros Hs Hl. rewrite slice_nonneg by lia. rewrite length_take. lia.
Qed.

Lemma slice_past_end l start stop :
  Z.of_nat (length l) <= start -> slice l start stop = [].
Proof.
  intros H. unfold slice, relIndex.
  destruct (Z.ltb_spec start 0); [lia|].
  rewrite (Z.min_r start) by lia.
  match goal with |- context [(?a <? ?b)%Z] => destruct (Z.ltb_spec a b) as [Hlt|] end;
    [|reflexivity].
  exfalso. destruct (Z.ltb_spec stop 0); lia.
Qed.

Lemma slice_consecutive l start n m :
  0 <= start -> 0 <= n -> 0 <= m ->
  slice l start (start + n) ++ slice l (start + n) (start + n + m)
  = slice l start (start + n + m).
Proof.
  intros Hs Hn Hm. rewrite !slice_nonneg by lia.
  replace (Z.to_nat (start + n) - Z.to_nat start)%nat with (Z.to_nat n) by lia.
  replace (Z.to_nat (start + n + m) - Z.to_nat (start + n))%nat with (Z.to_nat m) by lia.
  replace (Z.to_nat (start + n + m) - Z.to_nat start)%nat
    with (Z.to_nat n + Z.to_nat m)%nat by lia.
  replace (Z.to_nat (start + n)) with (Z.to_nat start + Z.to_nat n)%nat by lia.
  rewrite <- drop_drop. rewrite take_take_drop. reflexivity.
Qed.
End SliceFacts.

Section CommentsControllerMoreFacts.
Import CommentsController CommentsPaging.
Context {ADF Error : Type}.
Variable listPageComments : ListPageCommentsParams -> Error + @CommentsResponse ADF.
Variable adfToMarkdown : ADF -> option jsstring.
Variable localeCompare : jsstring -> jsstring -> Z.
Variable handleControllerError : Error -> ErrorContext -> Error.
Variable DEFAULT_PAGE_SIZE : Z.

#[local] Abbreviation listInlineComments :=
  (listInlineComments listPageComments adfToMarkdown localeCompare
                      handleControllerError DEFAULT_PAGE_SIZE).

#[local] Abbreviation requestOf options :=
  {| p_pageId := options.(pageId); p_limit := 250; p_start := 0;
     p_bodyFormat := default atlas_doc_format options.(bodyFormat) |}.

(** The whole listing of a response, before the caller's window is cut. *)
#[local] Abbreviation listingOf options response :=
  (Array_sort (fun a b => localeCompare (sortKey options.(sortBy) a)
                                        (sortKey options.(sortBy) b))
     (map (convertComment adfToMarkdown)
        (filter (fun comment =>
                   Is_true (keepInline (default false options.(includeResolved)) comment))
                response.(results)))).

(** X19: the window asked for is respected: for a start and a limit that
    are not negative, at most [limit] comments are returned, none when the
    start lies at or past the end of the listing, and the total reported is
    the number of comments that pass the filter, whatever the window. *)
Theorem inline_comments_window (options : ListInlineCommentsOptions)
    (response : @CommentsResponse ADF) :
  listPageComments (requestOf options) = inr response ->
  0 <= default 0 options.(start) ->
  0 <= default DEFAULT_PAGE_SIZE options.(limit) ->
  exists listing,
    snd (run (listInlineComments options)) = inr listing
    /\ Z.of_nat (length listing.(commentsData))
       <= default DEFAULT_PAGE_SIZE options.(limit)
    /\ (listing.(totalCount) <= default 0 options.(start) ->
        listing.(commentsData) = [])
    /\ listing.(totalCount)
       = Z.of_nat (length (filter (fun comment =>
                                     Is_true (keepInline
                                                (default false options.(includeResolved))
                                                comment))
                                  response.(results))).
Proof.
  intros Hresponse Hstart Hlimit.
  rewrite (listInlineComments_ok _ _ _ _ _ options response Hresponse).
  eexists. split; [reflexivity|]. cbn [commentsData totalCount].
  split; [|split].
  - pose proof (slice_length_le (listingOf options response) _ _ Hstart Hlimit). lia.
  - intros Hpast. apply slice_past_end. exact Hpast.
  - rewrite Array_sort_Permutation, length_map. reflexivity.
Qed.

(** X20: consecutive windows tile the listing: for the same answer of the
    service, the comments of the window starting at [start] with [n]
    entries followed by those of the window starting at [start + n] with
    [m] entries are the comments of the single window starting at [start]
    with [n + m] entries: nothing is lost or repeated between pages. *)
Theorem inline_comments_windows_tile (options : ListInlineCommentsOptions)
    (response : @CommentsResponse ADF) (start n m : Z) :
  listPageComments (requestOf options) = inr response ->
  0 <= start -> 0 <= n -> 0 <= m ->
  exists first second both,
    snd (run (listInlineComments (paged options start n))) = inr first
    /\ snd (run (listInlineComments (paged options (start + n) m))) = inr second
    /\ snd (run (listInlineComments (paged options start (n + m)))) = inr both
    /\ first.(commentsData) ++ second.(commentsData) = both.(commentsData)
    /\ first.(totalCount) = both.(totalCount)
    /\ second.(totalCount) = both.(totalCount).
Proof.
  intros Hresponse Hstart Hn Hm.
  rewrite !(listInlineComments_ok _ _ _ _ _ (paged options _ _) response Hresponse).
  do 3 eexists. repeat (split; [reflexivity|]).
  cbn [commentsData totalCount paged CommentsController.start CommentsController.limit
         CommentsController.sortBy CommentsController.includeResolved default
         from_option Datatypes.id].
  split; [|split; reflexivity].
  rewrite Z.add_assoc. apply slice_consecutive; assumption.
Qed.

(** X21: unless the caller asks for resolved comments, every comment
    returned has status current. *)
Theorem inline_comments_current_only (options : ListInlineCommentsOptions)
    (response : @CommentsResponse ADF) :
  listPageComments (requestOf options) = inr response ->
  options.(includeResolved) <> Some true ->
  exists listing,
    snd (run (listInlineComments options)) = inr listing
    /\ forall returned,
         returned ∈ listing.(commentsData) ->
         returned.(comment).(status) = lit "current".
Proof.
  intros Hresponse Hresolved.
  rewrite (listInlineComments_ok _ _ _ _ _ options response Hresponse).
  eexists. split; [reflexivity|]. cbn [commentsData].
  intros returned Hin. apply slice_elem in Hin.
  rewrite Array_sort_Permutation in Hin.
  apply list_elem_of_fmap in Hin as (raw & -> & Hraw).
  apply list_elem_of_filter in Hraw as [Hkeep _].
  cbn [comment convertComment]. unfold keepInline in Hkeep.
  assert (Hdefault : default false options.(includeResolved) = false).
  { destruct options.(includeResolved) as [[|]|]; [contradiction | |]; reflexivity. }
  rewrite Hdefault in Hkeep. cbn [negb andb] in Hkeep.
  destruct (bool_decide (raw.(status) = lit "current")) eqn:Hs;
    [apply bool_decide_eq_true in Hs; exact Hs | destruct Hkeep].
Qed.

(** X22: when the locale comparison is a total preorder, the comments
    returned are in order: every comment comes before the comments whose
    sort key (the position marker, else the id; the id when sorting by
    creation) does not compare below its own. *)
Theorem inline_comments_in_order (options : ListInlineCommentsOptions)
    (response : @CommentsResponse ADF) :
  listPageComments (requestOf options) = inr response ->
  (forall a b, localeCompare a b <= 0 \/ localeCompare b a <= 0) ->
  (forall a b c, localeCompare a b <= 0 -> localeCompare b c <= 0 ->
                 localeCompare a c <= 0) ->
  exists listing,
    snd (run (listInlineComments options)) = inr listing
    /\ StronglySorted
         (fun a b => localeCompare (sortKey options.(sortBy) a)
                                   (sortKey options.(sortBy) b) <= 0)
         listing.(commentsData).
Proof.
  intros Hresponse Htotal Htrans.
  rewrite (listInlineComments_ok _ _ _ _ _ options response Hresponse).
  eexists. split; [reflexivity|]. cbn [commentsData].
  apply slice_sorted.
  apply (Array_sort_sorted
           (fun a b => localeCompare (sortKey options.(sortBy) a)
                                     (sortKey options.(sortBy) b))); eauto.
Qed.

(** X23: when the comments service fails, the listing fails with the
    error the handler makes of the failure, told that an inline-comment
    list for this page was being made; the service was asked once. *)
Theorem inline_comments_failure (options : ListInlineCommentsOptions) (error : Error) :
  listPageComments (requestOf options) = inl error ->
  run (listInlineComments options)
  = ([requestOf options],
     inl (handleControllerError error
            {| entityType := lit "InlineComment";
               operation := lit "list";
               source := lit "controllers/atlassian.comments.controller.ts@listInlineComments";
               entityId := [];
               additionalInfo := [(lit "pageId", VString options.(pageId))] |})).
Proof.
  intros Hfail.
  unfold run, CommentsController.listInlineComments, try_catch, bind, perform.
  cbn [app]. rewrite Hfail. reflexivity.
Qed.
End CommentsControllerMoreFacts.

Section CommentsControllerMoreSamples.
Import CommentsController CommentsPaging.

#[local] Abbreviation sampleListing options :=
  (CommentsController.listInlineComments Fixtures.commentsOfPage Some
     Fixtures.compareUnits Fixtures.rethrow 25 options).

#[local] Abbreviation sampleRequest :=
  {| p_pageId := lit "900"; p_limit := 250; p_start := 0;
     p_bodyFormat := atlas_doc_format |}.

#[local] Abbreviation sampleResponse :=
  {| results := Fixtures.pageComments;
     links_base := Some (lit "https://acme.atlassian.net/wiki") |}.

Lemma inline_comments_window_witness :
  Fixtures.commentsOfPage sampleRequest = inr sampleResponse
  /\ exists listing,
       snd (run (sampleListing Fixtures.secondInline)) = inr listing
       /\ Z.of_nat (length listing.(commentsData)) <= 1
       /\ listing.(totalCount) = 2.
Proof.
  split; [reflexivity|].
  destruct (inline_comments_window Fixtures.commentsOfPage Some Fixtures.compareUnits
              Fixtures.rethrow 25 Fixtures.secondInline sampleResponse eq_refl
              ltac:(cbn; lia) ltac:(cbn; lia))
    as (listing & Hrun & Hlen & _ & Htotal).
  exists listing. split; [exact Hrun|]. split; [exact Hlen|].
  rewrite Htotal. reflexivity.
Defined.

Lemma inline_comments_windows_tile_witness :
  exists first second both,
    snd (run (sampleListing (paged Fixtures.secondInline 0 1))) = inr first
    /\ snd (run (sampleListing (paged Fixtures.secondInline 1 1))) = inr second
    /\ snd (run (sampleListing (paged Fixtures.secondInline 0 2))) = inr both
    /\ first.(commentsData) ++ second.(commentsData) = both.(commentsData).
Proof.
  destruct (inline_comments_windows_tile Fixtures.commentsOfPage Some
              Fixtures.compareUnits Fixtures.rethrow 25 Fixtures.secondInline
              sampleResponse 0 1 1 eq_refl ltac:(lia) ltac:(lia) ltac:(lia))
    as (first & second & both & H1 & H2 & H3 & Happ & _).
  exists first, second, both. auto.
Defined.

Lemma inline_comments_current_only_witness :
  (Samples.wholeListing None).(includeResolved) <> Some true
  /\ map (fun c => (c.(id), c.(status))) Samples.mixedPage
     = [(lit "11", lit "current"); (lit "12", lit "resolved");
        (lit "13", lit "current")]
  /\ (exists listing,
        snd (run (CommentsController.listInlineComments Samples.commentsOfMixedPage
                    Some Fixtures.compareUnits Fixtures.rethrow 25
                    (Samples.wholeListing None))) = inr listing
        /\ map (fun c => c.(comment).(id)) listing.(commentsData)
           = [lit "13"; lit "11"]
        /\ forall returned,
             returned ∈ listing.(commentsData) ->
             returned.(comment).(status) = lit "current")
  /\ exists withResolved,
       snd (run (CommentsController.listInlineComments Samples.commentsOfMixedPage
                   Some Fixtures.compareUnits Fixtures.rethrow 25
                   (Samples.wholeListing (Some true)))) = inr withResolved
       /\ map (fun c => c.(comment).(id)) withResolved.(commentsData)
          = [lit "12"; lit "13"; lit "11"].
Proof.
  assert (H : (Samples.wholeListing None).(includeResolved) <> Some true)
    by discriminate.
  split; [exact H|]. split; [reflexivity|]. split.
  - destruct (inline_comments_current_only Samples.commentsOfMixedPage Some
                Fixtures.compareUnits Fixtures.rethrow 25 (Samples.wholeListing None)
                _ eq_refl H) as (listing & Hrun & Hcurrent).
    exists listing. split; [exact Hrun|]. split; [|exact Hcurrent].
    vm_compute in Hrun. injection Hrun as <-. reflexivity.
  - eexists. split; [vm_compute; reflexivity|]. reflexivity.
Defined.

Lemma inline_comments_in_order_witness :
  map (fun c => c.(id)) Fixtures.pageComments = [lit "11"; lit "12"; lit "13"]
  /\ exists listing,
       snd (run (sampleListing (Samples.wholeListing None))) = inr listing
       /\ map (fun c => (c.(comment).(id), positionOf c)) listing.(commentsData)
          = [(lit "13", lit "m1"); (lit "11", lit "m2")]
       /\ StronglySorted
            (fun a b => Fixtures.compareUnits (sortKey None a) (sortKey None b) <= 0)
            listing.(commentsData).
Proof.
  split; [reflexivity|].
  destruct (inline_comments_in_order Fixtures.commentsOfPage Some Fixtures.compareUnits
              Fixtures.rethrow 25 (Samples.wholeListing None) sampleResponse eq_refl
              compareUnits_total compareUnits_trans)
    as (listing & Hrun & Hsorted).
  exists listing. split; [exact Hrun|]. split; [|exact Hsorted].
  vm_compute in Hrun. injection Hrun as <-. reflexivity.
Defined.

Lemma inline_comments_failure_witness :
  Samples.commentsDown sampleRequest = inl (lit "service unavailable")
  /\ run (CommentsController.listInlineComments Samples.commentsDown Some
            Fixtures.compareUnits Fixtures.rethrow 25 Fixtures.secondInline)
     = ([sampleRequest], inl (lit "service unavailable")).
Proof.
  split; [reflexivity|].
  exact (inline_comments_failure Samples.commentsDown Some Fixtures.compareUnits
           Fixtures.rethrow 25 Fixtures.secondInline (lit "service unavailable")
           eq_refl).
Defined.
End CommentsControllerMoreSamples.

(** ** URL helpers *)
Section UrlUtilFacts.
Import UrlUtil.
Variable ATLASSIAN_SITE_NAME : option jsstring.

#[local] Abbreviation ensureAbsoluteConfluenceUrl :=
  (ensureAbsoluteConfluenceUrl ATLASSIAN_SITE_NAME).
#[local] Abbreviation normalizeBaseUrl := (normalizeBaseUrl ATLASSIAN_SITE_NAME).
#[local] Abbreviation resolveConfluenceBaseUrl :=
  (resolveConfluenceBaseUrl ATLASSIAN_SITE_NAME).

Lemma HTTP_REGEX_test_head s :
  HTTP_REGEX_test s = true ->
  exists c t, s = c :: t /\ (c = 104 \/ c = 72)%N.
Proof.
  unfold HTTP_REGEX_test. intros H.
  destruct s as [|c t]; [discriminate H|].
  exists c, t. split; [reflexivity|].
  assert (Hc : (foldCase c =? 104)%N = true).
  { apply orb_true_iff in H as [H|H]; cbn [startsWithIgnoreCase lit] in H;
      cbn in H; apply andb_true_iff in H as [H _]; exact H. }
  apply N.eqb_eq in Hc. unfold foldCase in Hc.
  destruct ((65 <=? c)%N && (c <=? 90)%N); lia.
Qed.

Lemma dropSlashes_head s c t : dropSlashes s = c :: t -> c <> 47%N.
Proof.
  induction s as [|d s IH]; cbn [dropSlashes]; [discriminate|].
  destruct (N.eqb_spec d 47); [exact IH|]. intros [= <- <-]. assumption.
Qed.

(** What is left after the trailing slashes are removed does not end with
    a slash. *)
Lemma stripTrailingSlashes_last s : last (stripTrailingSlashes s) <> Some 47%N.
Proof.
  unfold stripTrailingSlashes.
  destruct (dropSlashes (rev s)) as [|c t] eqn:Hd; [discriminate|].
  apply dropSlashes_head in Hd. cbn [rev]. rewrite last_snoc. congruence.
Qed.

Lemma stripTrailingSlashes_prefix s : exists slashes, s = stripTrailingSlashes s ++ slashes.
Proof.
  unfold stripTrailingSlashes.
  assert (H : forall r, exists p, r = p ++ dropSlashes r).
  { induction r as [|d r [p Hp]]; [exists []; reflexivity|].
    cbn [dropSlashes]. destruct (d =? 47)%N.
    - exists (d :: p). cbn. congruence.
    - exists []. reflexivity. }
  destruct (H (rev s)) as [p Hp].
  exists (rev p). rewrite <- rev_app_distr, <- Hp, rev_involutive. reflexivity.
Qed.

Lemma stripTrailingSlashes_of_url s :
  HTTP_REGEX_test s = true -> stripTrailingSlashes s <> [].
Proof.
  intros H Hnil. destruct (HTTP_REGEX_test_head s H) as (c & t & -> & Hc).
  unfold stripTrailingSlashes in Hnil.
  destruct (dropSlashes (rev (c :: t))) as [|d ds] eqn:Hd;
    [|cbn [rev] in Hnil; destruct (rev ds); discriminate Hnil].
  clear Hnil. rename Hd into Hnil.
  assert (Hall : forall r, dropSlashes r = [] -> Forall (fun x => x = 47%N) r).
  { induction r as [|d r IH]; cbn [dropSlashes]; [constructor|].
    destruct (N.eqb_spec d 47); [intros; constructor; auto | discriminate]. }
  apply Hall in Hnil. apply Forall_rev in Hnil. rewrite rev_involutive in Hnil.
  inversion Hnil; subst. lia.
Qed.

(** X24: an absolute URL is returned as it is (trimmed), whatever the
    base and the configured site are. *)
Theorem absolute_url_is_kept (urlOrPath : jsstring) (baseUrl : option jsstring) :
  HTTP_REGEX_test (trim urlOrPath) = true ->
  ensureAbsoluteConfluenceUrl (Some urlOrPath) baseUrl = trim urlOrPath.
Proof.
  intros H. unfold UrlUtil.ensureAbsoluteConfluenceUrl.
  cbn [fmap option_fmap option_map].
  destruct (HTTP_REGEX_test_head _ H) as (c & t & Ht & _).
  rewrite Ht in *. cbn [orElse ifTruthy truthyStr negb]. rewrite H. reflexivity.
Qed.

(** X25: without a configured site and without a base, a path cannot be
    completed and is returned as it is (trimmed). *)
Theorem path_without_base_is_kept (urlOrPath : option jsstring) :
  truthy ATLASSIAN_SITE_NAME = false ->
  ensureAbsoluteConfluenceUrl urlOrPath None = orElse (trim <$> urlOrPath) [].
Proof.
  intros Hsite. unfold UrlUtil.ensureAbsoluteConfluenceUrl.
  destruct (truthyStr (orElse (trim <$> urlOrPath) [])) eqn:Ht; cbn [negb];
    [|destruct (orElse _ _); [reflexivity | discriminate]].
  destruct (HTTP_REGEX_test _); [reflexivity|].
  assert (Hhost : getSiteHost ATLASSIAN_SITE_NAME = None).
  { unfold getSiteHost. destruct ATLASSIAN_SITE_NAME as [[|c s]|];
      [reflexivity | discriminate | reflexivity]. }
  rewrite Hhost. cbn [truthy andb ifTruthy app].
  unfold UrlUtil.resolveConfluenceBaseUrl, UrlUtil.normalizeBaseUrl.
  rewrite Hhost. reflexivity.
Qed.

Lemma joinBaseAndPath_prefix base path :
  HTTP_REGEX_test path = false -> path <> [] ->
  exists rest, joinBaseAndPath base path = stripTrailingSlashes base ++ rest.
Proof.
  intros Hhttp Hne. unfold joinBaseAndPath.
  destruct path as [|c p]; [contradiction|]. cbn [truthyStr negb]. rewrite Hhttp.
  destruct (truthyStr (trim (c :: p))); cbn [negb];
    [|exists []; symmetry; apply app_nil_r].
  destruct (startsWith (trim (c :: p)) (lit "/")).
  - destruct (_ && _); eexists; reflexivity.
  - eexists; reflexivity.
Qed.

(** X26: with a base that is absolute as it is given, a path that is not
    itself absolute is completed against that base and no other: the
    result is [joinBaseAndPath] of the base as given (it is neither
    trimmed nor normalized first; only its trailing slashes are dropped)
    and the trimmed path, so it starts with the given base without its
    trailing slashes, and the configured site plays no part. *)
Theorem path_is_joined_to_absolute_base (urlOrPath baseUrl : jsstring) :
  HTTP_REGEX_test baseUrl = true ->
  trim urlOrPath <> [] ->
  HTTP_REGEX_test (trim urlOrPath) = false ->
  ensureAbsoluteConfluenceUrl (Some urlOrPath) (Some baseUrl)
  = joinBaseAndPath baseUrl (trim urlOrPath)
  /\ exists rest,
       ensureAbsoluteConfluenceUrl (Some urlOrPath) (Some baseUrl)
       = stripTrailingSlashes baseUrl ++ rest.
Proof.
  intros Hbase Hne Hrel.
  destruct (joinBaseAndPath_prefix baseUrl (trim urlOrPath) Hrel Hne) as [rest Hjoin].
  assert (Hsan : stripTrailingSlashes baseUrl <> []) by (apply stripTrailingSlashes_of_url, Hbase).
  assert (Hres : ensureAbsoluteConfluenceUrl (Some urlOrPath) (Some baseUrl)
                 = joinBaseAndPath baseUrl (trim urlOrPath)).
  { unfold UrlUtil.ensureAbsoluteConfluenceUrl.
    cbn [fmap option_fmap option_map].
    destruct (trim urlOrPath) as [|c t] eqn:Ht; [contradiction|].
    cbn [orElse ifTruthy truthyStr negb]. rewrite Hrel.
    destruct (HTTP_REGEX_test_head _ Hbase) as (b & bs & Hb & _).
    rewrite Hb in *. cbn [truthy truthyStr andb default from_option Datatypes.id].
    rewrite Hbase. cbn [app].
    assert (Htruthy : truthyStr (joinBaseAndPath (b :: bs) (c :: t)) = true).
    { rewrite Hjoin. destruct (stripTrailingSlashes (b :: bs)); [contradiction | reflexivity]. }
    destruct (getSiteHost ATLASSIAN_SITE_NAME) as [[|h hs]|];
      cbn [ifTruthy app tryCandidates];
      (rewrite bool_decide_eq_false_2 by (intros Hin; inversion Hin));
      rewrite Htruthy; reflexivity. }
  split; [exact Hres|]. exists rest. rewrite Hres. exact Hjoin.
Qed.

(** X27: a normalized base never ends with a slash, and the normal form
    of an absolute base is that base, trimmed and without its trailing
    slashes, whatever the configured site is. *)
Theorem normalized_base_has_no_trailing_slash (baseUrl : option jsstring) :
  (forall normalized,
      normalizeBaseUrl baseUrl = Some normalized -> last normalized <> Some 47%N)
  /\ (forall base,
        baseUrl = Some base -> HTTP_REGEX_test (trim base) = true ->
        normalizeBaseUrl baseUrl = Some (stripTrailingSlashes (trim base))
        /\ resolveConfluenceBaseUrl baseUrl = stripTrailingSlashes (trim base)).
Proof.
  split.
  - intros normalized. unfold UrlUtil.normalizeBaseUrl.
    destruct (truthy (trim <$> baseUrl) && HTTP_REGEX_test _).
    + intros [= <-]. apply stripTrailingSlashes_last.
    + destruct (trim <$> baseUrl) as [[|c t]|]; cbn [ifTruthy];
        destruct (getSiteHost ATLASSIAN_SITE_NAME) as [[|h hs]|]; cbn [ifTruthy];
        try discriminate;
        try (destruct (startsWith _ _));
        intros [= <-]; apply stripTrailingSlashes_last.
  - intros base -> Hhttp.
    assert (Hn : normalizeBaseUrl (Some base) = Some (stripTrailingSlashes (trim base))).
    { unfold UrlUtil.normalizeBaseUrl. cbn [fmap option_fmap option_map].
      destruct (HTTP_REGEX_test_head _ Hhttp) as (c & t & Ht & _).
      rewrite Ht in *. cbn [truthy truthyStr default from_option Datatypes.id andb].
      rewrite Hhttp. reflexivity. }
    split; [exact Hn|].
    unfold UrlUtil.resolveConfluenceBaseUrl. rewrite Hn.
    pose proof (stripTrailingSlashes_of_url _ Hhttp) as Hne.
    destruct (stripTrailingSlashes (trim base)); [contradiction | reflexivity].
Qed.
End UrlUtilFacts.

Lemma absolute_url_is_kept_witness :
  UrlUtil.HTTP_REGEX_test (trim (lit " HTTPS://example.com/wiki/page ")) = true
  /\ UrlUtil.ensureAbsoluteConfluenceUrl (Some (lit "acme"))
       (Some (lit " HTTPS://example.com/wiki/page ")) (Some (lit "/wiki"))
     = lit "HTTPS://example.com/wiki/page".
Proof.
  split; [reflexivity|].
  exact (absolute_url_is_kept (Some (lit "acme")) (lit " HTTPS://example.com/wiki/page ")
           (Some (lit "/wiki")) eq_refl).
Defined.

Lemma path_without_base_is_kept_witness :
  truthy (None : option jsstring) = false
  /\ UrlUtil.ensureAbsoluteConfluenceUrl None (Some (lit "/spaces/ACME")) None
     = lit "/spaces/ACME".
Proof.
  split; [reflexivity|].
  exact (path_without_base_is_kept None (Some (lit "/spaces/ACME")) eq_refl).
Defined.

Lemma path_is_joined_to_absolute_base_witness :
  UrlUtil.HTTP_REGEX_test (lit "https://example.atlassian.net/wiki/") = true
  /\ trim (lit "/wiki/spaces/TEAM/pages/42") <> []
  /\ UrlUtil.ensureAbsoluteConfluenceUrl (Some (lit "acme"))
       (Some (lit "/wiki/spaces/TEAM/pages/42"))
       (Some (lit "https://example.atlassian.net/wiki/"))
     = lit "https://example.atlassian.net/wiki/spaces/TEAM/pages/42"
  /\ UrlUtil.ensureAbsoluteConfluenceUrl (Some (lit "acme"))
       (Some (lit "spaces/A")) (Some (lit "https://x.net/wiki/ "))
     = lit "https://x.net/wiki/ /spaces/A".
Proof.
  assert (Hne : trim (lit "/wiki/spaces/TEAM/pages/42") <> []) by (vm_compute; discriminate).
  assert (Hne' : trim (lit "spaces/A") <> []) by (vm_compute; discriminate).
  split; [reflexivity|]. split; [exact Hne|]. split.
  - rewrite (proj1 (path_is_joined_to_absolute_base (Some (lit "acme"))
                      (lit "/wiki/spaces/TEAM/pages/42")
                      (lit "https://example.atlassian.net/wiki/") eq_refl Hne eq_refl)).
    reflexivity.
  - rewrite (proj1 (path_is_joined_to_absolute_base (Some (lit "acme"))
                      (lit "spaces/A") (lit "https://x.net/wiki/ ") eq_refl Hne' eq_refl)).
    reflexivity.
Defined.

(** ** The inline-comment list formatter *)
Section FormatterFacts.
Import InlineCommentsFormatter.

Lemma split_not_nil sep s : split sep s <> [].
Proof.
  destruct s as [|c t]; cbn [split]; [discriminate|].
  destruct (c =? sep)%N; [discriminate|]. destruct (split sep t); discriminate.
Qed.

(** The pieces of a split do not hold the separator. *)
Lemma split_no_sep sep s w : w ∈ split sep s -> sep ∉ w.
Proof.
  revert w. induction s as [|c t IH]; intros w; cbn [split].
  - intros H. apply list_elem_of_singleton in H as ->. apply not_elem_of_nil.
  - destruct (N.eqb_spec c sep) as [->|Hne].
    + intros H. apply elem_of_cons in H as [->|H]; [apply not_elem_of_nil | apply IH, H].
    + destruct (split sep t) as [|w0 ws] eqn:Hs.
      * intros H. apply list_elem_of_singleton in H as ->.
        intros Hin. apply list_elem_of_singleton in Hin. congruence.
      * intros H. apply elem_of_cons in H as [->|H].
        -- intros Hin. apply elem_of_cons in Hin as [Hin|Hin]; [congruence|].
           apply (IH w0); [left | exact Hin].
        -- apply IH. right. exact H.
Qed.

Lemma split_whole sep w : sep ∉ w -> split sep w = [w].
Proof.
  induction w as [|c t IH]; intros Hw; [reflexivity|].
  cbn [split]. destruct (N.eqb_spec c sep) as [->|Hne]; [destruct Hw; left|].
  rewrite IH; [reflexivity|]. intros Hin. apply Hw. right. exact Hin.
Qed.

(** Splitting a text that holds a separator splits what comes before it and
    what comes after it. *)
Lemma split_app_sep sep a b :
  split sep (a ++ sep :: b) = split sep a ++ split sep b.
Proof.
  induction a as [|c t IH].
  - cbn [app split]. rewrite N.eqb_refl. reflexivity.
  - cbn [app split]. destruct (N.eqb_spec c sep) as [->|Hne].
    + rewrite IH. reflexivity.
    + rewrite IH. pose proof (split_not_nil sep t) as Hne'.
      destruct (split sep t) as [|w ws]; [congruence|]. reflexivity.
Qed.

Lemma wrapStep_fits pushed currentLine word :
  32%N ∉ word ->
  Forall (fun line : jsstring => Z.of_nat (length line) <= 80 \/ 32%N ∉ line) pushed ->
  Z.of_nat (length currentLine) <= 80 \/ 32%N ∉ currentLine ->
  Forall (fun line : jsstring => Z.of_nat (length line) <= 80 \/ 32%N ∉ line)
         (fst (wrapStep (pushed, currentLine) word))
  /\ (Z.of_nat (length (snd (wrapStep (pushed, currentLine) word))) <= 80
      \/ 32%N ∉ snd (wrapStep (pushed, currentLine) word)).
Proof.
  intros Hword Hpushed Hcur. unfold wrapStep.
  destruct (Z.ltb_spec 80 (Z.of_nat (length currentLine) + Z.of_nat (length word) + 1)).
  - destruct (truthyStr currentLine); cbn [fst snd].
    + split; [apply Forall_app_2; [assumption | constructor; [assumption | constructor]]|].
      right. exact Hword.
    + split; [|assumption].
      apply Forall_app_2; [assumption | constructor; [right; exact Hword | constructor]].
  - cbn [fst snd]. split; [assumption|]. left.
    rewrite !length_app. destruct (truthyStr currentLine); cbn; lia.
Qed.

Lemma wrap_fold_fits words pushed currentLine :
  Forall (fun word : jsstring => 32%N ∉ word) words ->
  Forall (fun line : jsstring => Z.of_nat (length line) <= 80 \/ 32%N ∉ line) pushed ->
  Z.of_nat (length currentLine) <= 80 \/ 32%N ∉ currentLine ->
  Forall (fun line : jsstring => Z.of_nat (length line) <= 80 \/ 32%N ∉ line)
         (fst (fold_left wrapStep words (pushed, currentLine)))
  /\ (Z.of_nat (length (snd (fold_left wrapStep words (pushed, currentLine)))) <= 80
      \/ 32%N ∉ snd (fold_left wrapStep words (pushed, currentLine))).
Proof.
  revert pushed currentLine.
  induction words as [|word words IH]; intros pushed currentLine Hwords Hpushed Hcur.
  - cbn. auto.
  - apply Forall_cons in Hwords as [Hword Hwords]. cbn [fold_left].
    destruct (wrapStep_fits pushed currentLine word Hword Hpushed Hcur) as [H1 H2].
    destruct (wrapStep (pushed, currentLine) word) as [pushed' currentLine'].
    apply IH; assumption.
Qed.

Lemma wrapLine_width (line out : jsstring) :
  out ∈ wrapLine line ->
  Z.of_nat (length out) <= 80 \/ 32%N ∉ out.
Proof.
  unfold wrapLine. intros Hin.
  assert (Hwords : Forall (fun word : jsstring => 32%N ∉ word) (split 32 line)).
  { apply Forall_forall. intros w Hw. apply (split_no_sep _ _ _ Hw). }
  destruct (wrap_fold_fits (split 32 line) [] [] Hwords) as [H1 H2];
    [constructor | left; cbn; lia |].
  destruct (fold_left wrapStep (split 32 line) ([], [])) as [pushed currentLine].
  cbn [fst snd] in H1, H2. rewrite Forall_forall in H1.
  destruct (truthyStr currentLine).
  - apply elem_of_app in Hin as [Hin|Hin]; [apply H1, Hin|].
    apply list_elem_of_singleton in Hin as ->. exact H2.
  - apply H1, Hin.
Qed.

(** X28: the highlighted text of a comment is laid out within the width
    without cutting a word: every line pushed for it is at most 80
    characters long or is a single word (one too long to fit); the only
    other case is a text all of whose lines are blank, which is pushed as
    it is. *)
Theorem highlighted_lines_width (highlightedText out : jsstring) :
  out ∈ highlightedLinesOf highlightedText ->
  (Z.of_nat (length out) <= 80 \/ 32%N ∉ out)
  \/ (out = highlightedText
      /\ Forall (fun line => trim line = []) (split 10 highlightedText)).
Proof.
  unfold highlightedLinesOf. intros Hin.
  match type of Hin with
  | context [flat_map _ ?k] => remember k as keptLines eqn:Hkept
  end.
  destruct keptLines as [|kept rest].
  - right. cbn in Hin. apply list_elem_of_singleton in Hin. split; [exact Hin|].
    apply Forall_forall. intros line Hline.
    destruct (trim line) as [|c t] eqn:Htrim; [reflexivity|]. exfalso.
    assert (Hmem : trim line ∈ @nil jsstring); [|apply elem_of_nil in Hmem; exact Hmem].
    rewrite Hkept. apply list_elem_of_filter. split; [rewrite Htrim; cbn; lia|].
    apply list_elem_of_fmap. exists line. split; [reflexivity | exact Hline].
  - left. cbn [length Nat.ltb Nat.leb] in Hin.
    apply list_elem_of_In, in_flat_map in Hin as (line & _ & Hout).
    apply list_elem_of_In in Hout.
    destruct (Z.ltb_spec 80 (Z.of_nat (length line))) as [Hlong|Hshort].
    + apply (wrapLine_width line out Hout).
    + apply list_elem_of_singleton in Hout as ->. left. exact Hshort.
Qed.

Lemma words_of_snoc (lines : list jsstring) (last : jsstring) :
  filter (fun word : jsstring => word <> []) (flat_map (split 32) (lines ++ [last]))
  = filter (fun word : jsstring => word <> []) (flat_map (split 32) lines)
    ++ filter (fun word : jsstring => word <> []) (split 32 last).
Proof.
  rewrite flat_map_app. cbn [flat_map]. rewrite app_nil_r. apply filter_app.
Qed.

Lemma words_of_empty :
  filter (fun word : jsstring => word <> []) (split 32 []) = [].
Proof. reflexivity. Qed.

Lemma wrapStep_words pushed currentLine word :
  32%N ∉ word ->
  filter (fun w : jsstring => w <> [])
         (flat_map (split 32) (fst (wrapStep (pushed, currentLine) word)
                               ++ [snd (wrapStep (pushed, currentLine) word)]))
  = filter (fun w : jsstring => w <> []) (flat_map (split 32) (pushed ++ [currentLine]))
    ++ filter (fun w : jsstring => w <> []) [word].
Proof.
  intros Hword. unfold wrapStep.
  destruct (Z.ltb_spec 80 (Z.of_nat (length currentLine) + Z.of_nat (length word) + 1)).
  - destruct currentLine as [|c cur]; cbn [truthyStr fst snd].
    + rewrite !words_of_snoc, words_of_empty, !app_nil_r.
      rewrite (split_whole _ _ Hword). reflexivity.
    + rewrite !words_of_snoc. rewrite (split_whole _ _ Hword). reflexivity.
  - destruct currentLine as [|c cur]; cbn [truthyStr fst snd].
    + cbn [app]. rewrite !words_of_snoc, words_of_empty, !app_nil_r.
      rewrite (split_whole _ _ Hword). reflexivity.
    + rewrite !words_of_snoc.
      change ((c :: cur) ++ lit " " ++ word) with ((c :: cur) ++ 32%N :: word).
      rewrite split_app_sep, (split_whole _ _ Hword).
      rewrite filter_app, app_assoc. reflexivity.
Qed.

Lemma wrap_fold_words words pushed currentLine :
  Forall (fun word : jsstring => 32%N ∉ word) words ->
  filter (fun w : jsstring => w <> [])
         (flat_map (split 32)
            (fst (fold_left wrapStep words (pushed, currentLine))
             ++ [snd (fold_left wrapStep words (pushed, currentLine))]))
  = filter (fun w : jsstring => w <> []) (flat_map (split 32) (pushed ++ [currentLine]))
    ++ filter (fun w : jsstring => w <> []) words.
Proof.
  revert pushed currentLine.
  induction words as [|word words IH]; intros pushed currentLine Hwords.
  - cbn [fold_left fst snd]. rewrite filter_nil, app_nil_r. reflexivity.
  - apply Forall_cons in Hwords as [Hword Hwords]. cbn [fold_left].
    pose proof (wrapStep_words pushed currentLine word Hword) as Hstep.
    destruct (wrapStep (pushed, currentLine) word) as [pushed' currentLine'].
    cbn [fst snd] in Hstep. rewrite (IH _ _ Hwords), Hstep, <- app_assoc.
    f_equal. symmetry. apply (filter_app _ [word] words).
Qed.

(** X29: wrapping loses no word, adds none and keeps their order: the
    non-empty words of the lines produced, read line after line, are the
    non-empty words of the line that was wrapped. *)
Theorem wrapLine_keeps_words (line : jsstring) :
  filter (fun word : jsstring => word <> []) (flat_map (split 32) (wrapLine line))
  = filter (fun word : jsstring => word <> []) (split 32 line).
Proof.
  unfold wrapLine.
  assert (Hwords : Forall (fun word : jsstring => 32%N ∉ word) (split 32 line)).
  { apply Forall_forall. intros w Hw. apply (split_no_sep _ _ _ Hw). }
  pose proof (wrap_fold_words (split 32 line) [] [] Hwords) as Hfold.
  match goal with
  | |- context [let '(_, _) := ?r in _] => set (final := r) in *
  end.
  change (fold_left wrapStep (split 32 line) ([], [])) with final in Hfold.
  destruct final as [pushed currentLine].
  cbn [fst snd] in Hfold. cbn [app flat_map] in Hfold.
  rewrite app_nil_r, words_of_empty in Hfold. cbn [app] in Hfold.
  rewrite <- Hfold. destruct currentLine as [|c cur]; cbn [truthyStr]; [|reflexivity].
  rewrite words_of_snoc, words_of_empty, app_nil_r. reflexivity.
Qed.
End FormatterFacts.

Section SliceLength.
Context {A : Type}.

Lemma slice_length (l : list A) start limit :
  0 <= start -> 0 <= limit ->
  Z.of_nat (length (slice l start (start + limit)))
  = Z.max 0 (Z.min limit (Z.of_nat (length l) - start)).
Proof.
  intros Hs Hl. rewrite slice_nonneg by lia. rewrite length_take, length_drop. lia.
Qed.
End SliceLength.

Section PaginationFacts.
Import CommentsController CommentsPaging InlineCommentsFormatter.
Context {ADF Error : Type}.
Variable listPageComments : ListPageCommentsParams -> Error + @CommentsResponse ADF.
Variable adfToMarkdown : ADF -> option jsstring.
Variable localeCompare : jsstring -> jsstring -> Z.
Variable handleControllerError : Error -> ErrorContext -> Error.
Variable DEFAULT_PAGE_SIZE : Z.

#[local] Abbreviation listInlineComments :=
  (listInlineComments listPageComments adfToMarkdown localeCompare
                      handleControllerError DEFAULT_PAGE_SIZE).

(** X30: the page announced under the listing is the page that follows.
    For a start that is not negative and a positive limit, when the
    formatter announces a next window for the listing the controller hands
    it, that window starts right after the last comment shown, and asking
    the controller for it returns exactly the announced number of
    comments, at least one; when it announces none, the comments shown
    reach the end of the listing. *)
Theorem announced_next_window_is_exact (options : ListInlineCommentsOptions)
    (response : @CommentsResponse ADF) (start limit : Z) :
  listPageComments {| p_pageId := options.(pageId); p_limit := 250; p_start := 0;
                      p_bodyFormat := default atlas_doc_format options.(bodyFormat) |}
  = inr response ->
  0 <= start -> 0 < limit ->
  exists listing,
    snd (run (listInlineComments (paged options start limit))) = inr listing
    /\ match nextWindow listing.(totalCount) listing.(l_start) listing.(l_limit)
               (Z.of_nat (length listing.(commentsData))) with
       | Some (nextStart, size) =>
           nextStart = start + Z.of_nat (length listing.(commentsData))
           /\ 0 < size
           /\ exists next,
                snd (run (listInlineComments (paged options nextStart limit))) = inr next
                /\ Z.of_nat (length next.(commentsData)) = size
       | None =>
           listing.(totalCount) <= start + Z.of_nat (length listing.(commentsData))
       end.
Proof.
  intros Hresponse Hstart Hlimit.
  rewrite (listInlineComments_ok _ _ _ _ _ (paged options _ _) response Hresponse).
  eexists. split; [reflexivity|].
  cbn [commentsData totalCount l_start l_limit paged CommentsController.start
         CommentsController.limit CommentsController.sortBy
         CommentsController.includeResolved default from_option Datatypes.id].
  match goal with |- context [slice ?l start (start + limit)] => set (whole := l) end.
  pose proof (slice_length whole start limit Hstart ltac:(lia)) as Hshown.
  unfold nextWindow.
  destruct (Z.ltb_spec (start + Z.of_nat (length (slice whole start (start + limit))))
                       (Z.of_nat (length whole))) as [Hmore|Hend]; [|exact Hend].
  split; [lia|]. split; [lia|].
  rewrite (listInlineComments_ok _ _ _ _ _ (paged options _ _) response Hresponse).
  eexists. split; [reflexivity|].
  cbn [commentsData totalCount l_start l_limit paged CommentsController.start
         CommentsController.limit CommentsController.sortBy
         CommentsController.includeResolved default from_option Datatypes.id].
  fold whole.
  rewrite (slice_length whole (start + limit) limit) by lia. lia.
Qed.
End PaginationFacts.

Section FormatterSamples.
Import CommentsController CommentsPaging InlineCommentsFormatter.

(** A highlighted line that holds a word of ninety characters. *)
#[local] Abbreviation longWord := (replicate 90 120%N : jsstring).
#[local] Abbreviation longLine := (lit "see " ++ longWord ++ lit " for details").

#[local] Abbreviation noted := (lit "note" ++ [10%N] ++ longLine).

Lemma highlighted_lines_width_witness :
  highlightedLinesOf noted = [lit "note"; lit "see"; longWord; lit "for details"]
  /\ ((Z.of_nat (length longWord) <= 80 \/ 32%N ∉ longWord)
      \/ (longWord = noted
          /\ Forall (fun line => trim line = []) (split 10 noted))).
Proof.
  split; [vm_compute; reflexivity|].
  apply (highlighted_lines_width noted longWord).
  vm_compute. do 2 apply list_elem_of_further. apply list_elem_of_here.
Defined.

Lemma announced_next_window_is_exact_witness :
  Fixtures.commentsOfPage
    {| p_pageId := lit "900"; p_limit := 250; p_start := 0;
       p_bodyFormat := atlas_doc_format |}
  = inr {| results := Fixtures.pageComments;
           links_base := Some (lit "https://acme.atlassian.net/wiki") |}
  /\ exists listing,
       snd (run (CommentsController.listInlineComments Fixtures.commentsOfPage Some
                   Fixtures.compareUnits Fixtures.rethrow 25
                   (paged Fixtures.secondInline 0 1))) = inr listing
       /\ match nextWindow listing.(totalCount) listing.(l_start) listing.(l_limit)
                  (Z.of_nat (length listing.(commentsData))) with
          | Some (nextStart, size) =>
              nextStart = 0 + Z.of_nat (length listing.(commentsData))
              /\ 0 < size
              /\ exists next,
                   snd (run (CommentsController.listInlineComments
                               Fixtures.commentsOfPage Some Fixtures.compareUnits
                               Fixtures.rethrow 25
                               (paged Fixtures.secondInline nextStart 1))) = inr next
                   /\ Z.of_nat (length next.(commentsData)) = size
          | None =>
              listing.(totalCount) <= 0 + Z.of_nat (length listing.(commentsData))
          end.
Proof.
  split; [reflexivity|].
  exact (announced_next_window_is_exact Fixtures.commentsOfPage Some
           Fixtures.compareUnits Fixtures.rethrow 25 Fixtures.secondInline
           {| results := Fixtures.pageComments;
              links_base := Some (lit "https://acme.atlassian.net/wiki") |}
           0 1 eq_refl ltac:(lia) ltac:(lia)).
Defined.
End FormatterSamples.

Section MoreSamples.
Import SearchController SearchService PagesService.

Lemma buildCqlQuery_empty_iff_witness :
  buildCqlQuery Fixtures.noCriteria = []
  /\ buildCqlQuery Fixtures.pagesByType <> []
  /\ trim (buildCqlQuery Fixtures.pagesByType) <> [].
Proof.
  assert (Hne : buildCqlQuery Fixtures.pagesByType <> []) by (vm_compute; discriminate).
  split; [|split; [exact Hne|]].
  - apply (proj2 (proj1 (buildCqlQuery_empty_iff Fixtures.noCriteria))).
    vm_compute. repeat (split; [reflexivity|]). intros raw Hraw. discriminate Hraw.
  - exact (proj2 (buildCqlQuery_empty_iff Fixtures.pagesByType) Hne).
Defined.

#[local] Abbreviation listOf credentials fetch parse :=
  (PagesService.list credentials (lit "site required") Fixtures.authMissing
     Fixtures.apiError fetch parse Fixtures.noMessage
     Fixtures.searchFindsOne Fixtures.spacesUnknown Fixtures.formEncode
     Fixtures.decimal Fixtures.clock).

Lemma list_primary_failures_witness :
  let params := Fixtures.titled (lit "Budget") None in
  let path := PagesService.pagesPath Fixtures.formEncode Fixtures.decimal params in
  run (listOf None Fixtures.fetchNothing Fixtures.parseEmptyPage params)
  = ([], inl (lit "site required"))
  /\ run (listOf Fixtures.credentials (fun _ _ => inl (lit "503"))
            Fixtures.parseEmptyPage params)
     = ([FetchAtlassian path], inl (lit "503"))
  /\ run (listOf Fixtures.credentials Fixtures.fetchNothing (fun _ => inl tt) params)
     = ([FetchAtlassian path], inl (lit "API response validation failed: ")).
Proof.
  cbv zeta. split; [|split].
  - exact (proj1 (list_primary_failures None (lit "site required") Fixtures.authMissing
                    Fixtures.apiError Fixtures.fetchNothing Fixtures.parseEmptyPage
                    Fixtures.noMessage Fixtures.searchFindsOne Fixtures.spacesUnknown
                    Fixtures.formEncode Fixtures.decimal Fixtures.clock
                    (Fixtures.titled (lit "Budget") None)) eq_refl).
  - exact (proj1 (proj2 (list_primary_failures Fixtures.credentials (lit "site required")
                           Fixtures.authMissing Fixtures.apiError
                           (fun _ _ => inl (lit "503")) Fixtures.parseEmptyPage
                           Fixtures.noMessage Fixtures.searchFindsOne
                           Fixtures.spacesUnknown Fixtures.formEncode Fixtures.decimal
                           Fixtures.clock (Fixtures.titled (lit "Budget") None)))
             tt (lit "503") eq_refl eq_refl).
  - exact (proj2 (proj2 (list_primary_failures Fixtures.credentials (lit "site required")
                           Fixtures.authMissing Fixtures.apiError
                           Fixtures.fetchNothing (fun _ => inl tt)
                           Fixtures.noMessage Fixtures.searchFindsOne
                           Fixtures.spacesUnknown Fixtures.formEncode Fixtures.decimal
                           Fixtures.clock (Fixtures.titled (lit "Budget") None)))
             tt tt tt eq_refl eq_refl eq_refl).
Defined.

Lemma normalized_base_has_no_trailing_slash_witness :
  UrlUtil.normalizeBaseUrl (Some (lit "acme")) (Some (lit " https://example.com/wiki// "))
  = Some (lit "https://example.com/wiki")
  /\ last (lit "https://example.com/wiki") <> Some 47%N.
Proof.
  assert (Hbase : UrlUtil.normalizeBaseUrl (Some (lit "acme"))
                    (Some (lit " https://example.com/wiki// "))
                  = Some (lit "https://example.com/wiki")) by reflexivity.
  split; [exact Hbase|].
  exact (proj1 (normalized_base_has_no_trailing_slash (Some (lit "acme"))
                  (Some (lit " https://example.com/wiki// ")))
           (lit "https://example.com/wiki") Hbase).
Defined.
Lemma normalizeOptions_well_formed_witness :
  let n := UniversalSearch.normalizeOptions Fixtures.designEverywhere in
  n.(UniversalSearch.n_spaceKey) = Some (lit "DEV")
  /\ n.(UniversalSearch.n_labels) = Some [lit "howto"; lit "draft"]
  /\ (lit "DEV" <> [] /\ trim (lit "DEV") = lit "DEV")
  /\ (lit "draft" <> [] /\ trim (lit "draft") = lit "draft").
Proof.
  cbv zeta. split; [reflexivity|]. split; [reflexivity|].
  destruct (normalizeOptions_well_formed Fixtures.designEverywhere)
    as (_ & _ & Hkey & Hlabels).
  split.
  - exact (Hkey (lit "DEV") eq_refl).
  - apply (Hlabels [lit "howto"; lit "draft"] (lit "draft") eq_refl).
    apply list_elem_of_further, list_elem_of_here.
Defined.

Lemma transformed_records_witness :
  match p_results (transformSearchResultsToPagesFormat Fixtures.clock
                     {| results := [Fixtures.hit]; _links := None |}) with
  | page :: _ => page.(version).(number) = 1 /\ page.(id) = lit "42"
  | [] => False
  end.
Proof.
  pose proof (proj2 (transformed_records Fixtures.clock
                       {| results := [Fixtures.hit]; _links := None |})) as Hrecords.
  destruct (p_results (transformSearchResultsToPagesFormat Fixtures.clock
                         {| results := [Fixtures.hit]; _links := None |}))
    as [|page rest] eqn:Hpages; [vm_compute in Hpages; discriminate|].
  destruct (Hrecords page (list_elem_of_here _ _)) as (Hnumber & _).
  split; [exact Hnumber|].
  vm_compute in Hpages. injection Hpages as <- _. reflexivity.
Defined.
End MoreSamples.
